(** * ipy_oxDNA: the admission core of [SimulationManager]

    A shallow embedding of [scr/oxdna_simulation.py]: the device monitor
    ([gpu_resources]), the memory probe ([get_sim_mem]), the job parameter
    file ([Input.modify_input], [Input.write_input]) and the admission
    controller with its workers ([worker_manager], [worker_job]).

    Conventions of the embedding.
    - A Python exception is an [exn]; a call that may raise returns a
      [result]. Code that mutates a [Simulation] before raising returns the
      mutated object next to the exception.
    - The parameter dictionary [sim.input.input] is a [gmap string string]:
      the oxDNA input file maps names to strings, and every value the
      scheduling code writes is a string.
    - A simulation directory is the list of its file names ([os.listdir]);
      every path of one job lies in that directory, which exists and is
      named by an absolute path; [touch] puts a new file at the end of
      the list.
    - [nvidia-smi] is installed: running it yields a [completed] process
      with an exit status and an output.
    - The oxDNA engine ([oxpy]) and Python's [float] are parameters. A
      Python [float] is an IEEE 754 binary64 number, a primitive float:
      [3 * sim_mem] is rounded as the machine rounds it, and a reading,
      which numpy holds in 64 bits, is converted to that format before
      it is compared.
    - A job is a [Simulation] object together with the content of its
      directory. No other job writes there: two queued jobs in one
      directory would share [input.json] on disk, which a value per job
      does not show; statements about [input.json] under several jobs
      say that the directories differ.
    - Processes are interleaved by an explicit schedule; a blocked call
      ([Queue.put] on a full queue, [Queue.get] on an empty one) is a
      step that is not enabled. *)

From Stdlib Require Import ZArith QArith String Ascii List Bool Lia.
From Stdlib Require Import Floats.PrimFloat.
From Stdlib Require Floats.
From stdpp Require Import base option list strings pretty gmap.

Local Open Scope Z_scope.
Local Open Scope string_scope.
Local Open Scope list_scope.

(** ** Exceptions and results *)

Inductive exn : Type :=
| KeyError (key : string)
| IndexError
| ValueError (msg : string)
| AttributeError (name : string)
| FileNotFoundError (path : string)
| UnicodeDecodeError
| RuntimeError (returncode : Z) (output : string)
| TypeError
| EngineError.

Inductive result (A : Type) : Type :=
| Ok (a : A)
| Err (e : exn).
Arguments Ok {A} a.
Arguments Err {A} e.

Definition bind_result {A B} (r : result A) (k : A -> result B) : result B :=
  match r with
  | Ok a => k a
  | Err e => Err e
  end.

Notation "'let?' x := r 'in' k" := (bind_result r (fun x => k))
  (at level 10, x pattern, r at level 100, k at level 200).

Definition is_ok {A} (r : result A) : bool :=
  match r with Ok _ => true | Err _ => false end.

(** ** Python strings and lists *)

Module Py.

(** [str.isspace] on an ASCII character. *)
Definition isspace (c : ascii) : bool :=
  let n := nat_of_ascii c in
  ((9 <=? n) && (n <=? 13) || (28 <=? n) && (n <=? 32))%nat.

(** [s.split()]: the maximal runs of non-blank characters. [cur] is the
    run being read, reversed. *)
Fixpoint split_from (cur : list ascii) (s : string) : list string :=
  match s with
  | EmptyString =>
      match cur with
      | [] => []
      | _ => [string_of_list_ascii (rev cur)]
      end
  | String c r =>
      if isspace c then
        match cur with
        | [] => split_from [] r
        | _ => string_of_list_ascii (rev cur) :: split_from [] r
        end
      else split_from (c :: cur) r
  end.

Definition split (s : string) : list string := split_from [] s.

(** [s.split(sep)] for a one-character separator: one more piece than
    there are separators. *)
Fixpoint split_sep_from (sep : ascii) (cur : list ascii) (s : string)
  : list string :=
  match s with
  | EmptyString => [string_of_list_ascii (rev cur)]
  | String c r =>
      if Ascii.eqb c sep
      then string_of_list_ascii (rev cur) :: split_sep_from sep [] r
      else split_sep_from sep (c :: cur) r
  end.

Definition split_sep (sep : ascii) (s : string) : list string :=
  split_sep_from sep [] s.

(** [s.startswith(p)] and [s.endswith(p)]. *)
Definition startswith (p s : string) : bool := String.prefix p s.

Definition endswith (p s : string) : bool :=
  String.prefix (string_of_list_ascii (rev (list_ascii_of_string p)))
                (string_of_list_ascii (rev (list_ascii_of_string s))).

(** [bytes.decode('ascii')]. *)
Definition decode_ascii (b : string) : result string :=
  if forallb (fun c => (nat_of_ascii c <? 128)%nat) (list_ascii_of_string b)
  then Ok b
  else Err UnicodeDecodeError.

(** [int(s)] on a token without blanks: an optional sign, then decimal
    digits, single underscores allowed between digits. *)
Definition digit (c : ascii) : option Z :=
  let n := nat_of_ascii c in
  if ((48 <=? n) && (n <=? 57))%nat then Some (Z.of_nat n - 48) else None.

Fixpoint int_digits (s : string) (acc : Z) (after_digit : bool) : option Z :=
  match s with
  | EmptyString => if after_digit then Some acc else None
  | String c r =>
      if Ascii.eqb c "_" then
        if after_digit then int_digits r acc false else None
      else
        match digit c with
        | Some d => int_digits r (10 * acc + d) true
        | None => None
        end
  end.

Definition int (s : string) : result Z :=
  let parsed :=
    match s with
    | String "+" r => int_digits r 0 false
    | String "-" r => Z.opp <$> int_digits r 0 false
    | _ => int_digits s 0 false
    end in
  match parsed with
  | Some n => Ok n
  | None => Err (ValueError "invalid literal for int() with base 10")
  end.

(** [max(l)]. *)
Definition max (l : list Z) : result Z :=
  match l with
  | [] => Err (ValueError "max() arg is an empty sequence")
  | x :: r => Ok (fold_left Z.max r x)
  end.

(** [l.index(x)]: the first position of [x]. *)
Fixpoint index_from `{EqDecision A} (x : A) (l : list A) (i : nat) : option nat :=
  match l with
  | [] => None
  | y :: r => if decide (y = x) then Some i else index_from x r (S i)
  end.

Definition index `{EqDecision A} (x : A) (l : list A) : result nat :=
  match index_from x l 0 with
  | Some i => Ok i
  | None => Err (ValueError "x is not in list")
  end.

(** [l[i]] for a non-negative [i]. *)
Definition getitem {A} (l : list A) (i : nat) : result A :=
  match l !! i with
  | Some a => Ok a
  | None => Err IndexError
  end.

(** [np.round(x, 2)] on a Python [int]: numpy takes it as an [int64],
    or as a [uint64] when it is too large for that, and leaves it as it
    is; an [int] that fits neither becomes an object, which has no
    [rint], and the call raises [TypeError]. *)
Definition np_round (x : Z) (decimals : Z) : result Z :=
  if ((- 2 ^ 63 <=? x) && (x <? 2 ^ 64))%Z then Ok x else Err TypeError.

End Py.

(** ** Device monitor: [SimulationManager.gpu_resources] *)

(** What running [COMMAND] yields: its exit status and its output. *)
Record completed : Type := Completed {
  returncode : Z;
  stdout : string
}.

(** [sp.check_output]: a non-zero status is a [CalledProcessError], which
    [gpu_resources] turns into a [RuntimeError]. *)
Definition check_output (c : completed) : result string :=
  if (returncode c =? 0)%Z then Ok (stdout c)
  else Err (RuntimeError (returncode c) (stdout c)).

(** [output_to_list(x)[1:]]: the lines of the output but the last piece
    and the header. *)
Definition output_to_list (x : string) : result (list string) :=
  let? s := Py.decode_ascii x in
  Ok (removelast (Py.split_sep "010" s)).

Definition memory_free_info (x : string) : result (list string) :=
  let? lines := output_to_list x in
  Ok (tail lines).

(** [int(x.split()[0])]. *)
Definition reading (x : string) : result Z :=
  let? tok := Py.getitem (Py.split x) 0 in
  Py.int tok.

Fixpoint readings (info : list string) : result (list Z) :=
  match info with
  | [] => Ok []
  | x :: r =>
      let? n := reading x in
      let? ns := readings r in
      Ok (n :: ns)
  end.

(** The last three statements: the largest reading and its first index. *)
Definition most_free (avalible_memory : list Z) : result (Z * nat) :=
  let? gpu_most_aval_mem_free := Py.max avalible_memory in
  let? gpu_most_aval_mem_free_idx :=
    Py.index gpu_most_aval_mem_free avalible_memory in
  let? rounded := Py.np_round gpu_most_aval_mem_free 2 in
  Ok (rounded, gpu_most_aval_mem_free_idx).

Definition avalible_memory (c : completed) : result (list Z) :=
  let? out := check_output c in
  let? info := memory_free_info out in
  readings info.

Definition gpu_resources (c : completed) : result (Z * nat) :=
  let? mem := avalible_memory c in
  most_free mem.

(** ** The job: a [Simulation] with its [Input] and its directory *)

Record Simulation : Type := mkSimulation {
  sim_dir : string;
  (** [sim.input.input], the parameter dictionary in memory *)
  input : gmap string string;
  (** the content of [input.json] in [sim_dir], when the file exists *)
  input_json : option (gmap string string);
  (** [os.listdir(sim_dir)] *)
  files : list string;
  (** [sim.sim_files.last_conf], when the attribute is set *)
  last_conf : option string;
  (** [sim.oxpy_run.sim_output.out], when the attribute is set *)
  sim_output : option (string * string);
  (** [sim.oxpy_run.manager] is set: [run] has been called on the object *)
  oxpy_manager : bool
}.

Definition set_input (d : gmap string string) (s : Simulation) : Simulation :=
  mkSimulation (sim_dir s) d (input_json s) (files s) (last_conf s) (sim_output s)
               (oxpy_manager s).

Definition set_input_json (d : gmap string string) (s : Simulation) : Simulation :=
  mkSimulation (sim_dir s) (input s) (Some d) (files s) (last_conf s) (sim_output s)
               (oxpy_manager s).

Definition set_files (l : list string) (s : Simulation) : Simulation :=
  mkSimulation (sim_dir s) (input s) (input_json s) l (last_conf s) (sim_output s)
               (oxpy_manager s).

Definition set_last_conf (p : string) (s : Simulation) : Simulation :=
  mkSimulation (sim_dir s) (input s) (input_json s) (files s) (Some p) (sim_output s)
               (oxpy_manager s).

Definition set_sim_output (o : option (string * string)) (s : Simulation) : Simulation :=
  mkSimulation (sim_dir s) (input s) (input_json s) (files s) (last_conf s) o
               (oxpy_manager s).

Definition set_oxpy_manager (s : Simulation) : Simulation :=
  mkSimulation (sim_dir s) (input s) (input_json s) (files s) (last_conf s)
               (sim_output s) true.

(** A method of a [Simulation]: it may raise, and it may have changed
    the object by then. *)
Definition prog (A : Type) : Type := Simulation -> result A * Simulation.

Definition bind {A B} (m : prog A) (k : A -> prog B) : prog B :=
  fun s =>
    match m s with
    | (Ok a, s') => k a s'
    | (Err e, s') => (Err e, s')
    end.

Definition lift {A} (r : result A) : prog A := fun s => (r, s).

Notation "'let!' x := m 'in' k" := (bind m (fun x => k))
  (at level 10, x pattern, m at level 100, k at level 200).

(** Opening a file for writing creates it; [os.remove] deletes it. *)
Definition exists_file (f : string) (l : list string) : bool :=
  existsb (String.eqb f) l.

Definition touch (f : string) (l : list string) : list string :=
  if exists_file f l then l else l ++ [f].

Definition remove_file (f : string) (l : list string) : list string :=
  List.filter (fun g => negb (String.eqb f g)) l.

Definition os_remove (f : string) : prog unit :=
  fun s =>
    if exists_file f (files s)
    then (Ok tt, set_files (remove_file f (files s)) s)
    else (Err (FileNotFoundError f), s).

(** [Input.get_last_conf_top]: the topology is the first [.top] file; the
    configuration is the first file called [last_conf...], or else the
    first [.dat] file that is no energy, trajectory or error file. *)
Definition is_top (file : string) : bool := Py.endswith ".top" file.

Definition is_last_conf (file : string) : bool := Py.startswith "last_conf" file.

Definition is_dat (file : string) : bool :=
  Py.endswith ".dat" file
  && negb (Py.endswith "energy.dat" file)
  && negb (Py.endswith "trajectory.dat" file)
  && negb (Py.endswith "error_conf.dat" file).

Definition get_last_conf_top (conf_top : list string) : result (string * string) :=
  let? top := Py.getitem (List.filter is_top conf_top) 0 in
  let? dat :=
    match Py.getitem (List.filter is_last_conf conf_top) 0 with
    | Ok last_conf => Ok last_conf
    | Err IndexError => Py.getitem (List.filter is_dat conf_top) 0
    | Err e => Err e
    end in
  Ok (top, dat).

(** [Input.write_input()] with [production=False]: fills in [conf_file]
    and [topology], then writes [input.json] and [input]. *)
Definition write_input : prog unit :=
  fun s =>
    match get_last_conf_top (files s) with
    | Err e => (Err e, s)
    | Ok (top, dat) =>
        let d := <["topology" := top]> (<["conf_file" := dat]> (input s)) in
        (Ok tt,
         set_files (touch "input" (touch "input.json" (files s)))
           (set_input_json d (set_input d s)))
    end.

(** [Input.modify_input(parameters)], which is [Simulation.input_file]. *)
Definition update (d : gmap string string) (parameters : list (string * string))
  : gmap string string :=
  fold_left (fun d kv => <[fst kv := snd kv]> d) parameters d.
Arguments update : simpl never.

Definition modify_input (parameters : list (string * string)) : prog unit :=
  fun s => write_input (set_input (update (input s) parameters) s).

Definition input_file := modify_input.
Arguments modify_input : simpl never.
Arguments input_file : simpl never.

(** [sim.input.input[key]]. *)
Definition input_getitem (key : string) : prog string :=
  fun s =>
    match input s !! key with
    | Some v => (Ok v, s)
    | None => (Err (KeyError key), s)
    end.

(** [SimFiles.parse_current_files], as far as [last_conf] goes. *)
Definition parse_current_files (s : Simulation) : Simulation :=
  if exists_file "last_conf.dat" (files s)
  then set_last_conf (sim_dir s +:+ "/last_conf.dat") s
  else s.

(** ** Python floats *)

(** A Python [float], which is what numpy compares in as well. *)
Definition double : Set := PrimFloat.float.
Bind Scope float_scope with double.

(** The conversion of an integer, rounded to the nearest [double], to
    the even one of two that are as near. *)
Definition of_int (z : Z) : double :=
  FloatOps.SF2Prim (SpecFloat.binary_normalize 53 1024 z 0 false).

(** The oxDNA engine, [oxpy.OxpyManager(input).run_complete()] under
    [py.io.StdCaptureFD]: from the parameters of [input.json] and the
    directory it yields the captured [(stdout, stderr)], or nothing when it
    raises, and the directory it leaves. *)
Definition engine_type : Type :=
  gmap string string -> list string -> option (string * string) * list string.

Section Engine.

Variable engine : engine_type.

(** Python's [float] on a token. *)
Variable float : string -> result double.

(** [sim.oxpy_run.run(subprocess=False, verbose=..., log=log)]: [steps] is
    [None] and [continue_run] is [False], so [OxpyRun.run_complete] goes
    straight to reading [input.json]. *)
Definition oxpy_run (log : bool) : prog unit :=
  fun s =>
    let s := set_sim_output None (set_oxpy_manager s) in
    match input_json s with
    | None => (Err (FileNotFoundError "input.json"), s)
    | Some my_input =>
        match engine my_input (files s) with
        | (None, l) => (Err EngineError, set_files l s)
        | (Some out, l) =>
            let l := if log then touch "log.log" l else l in
            (Ok tt, parse_current_files (set_sim_output (Some out) (set_files l s)))
        end
    end.

Definition sim_output_out : prog (string * string) :=
  fun s =>
    match sim_output s with
    | Some out => (Ok out, s)
    | None => (Err (AttributeError "out"), s)
    end.

(** ** Memory probe: [SimulationManager.get_sim_mem] *)

(** Lines 342 to 346: save the two parameters, override them, run the
    engine in this process, put the two parameters back. *)
Definition probe_run : prog (string * string) :=
  let! steps := input_getitem "steps" in
  let! last_conf_file := input_getitem "lastconf_file" in
  let! _ := input_file [("lastconf_file", "temp"); ("steps", "0")] in
  let! _ := oxpy_run false in
  let! _ := input_file [("lastconf_file", last_conf_file); ("steps", steps)] in
  sim_output_out.

(** Lines 347 to 355: find the marker in the captured stderr, take the
    token after it, delete the throwaway file, convert. *)
Definition get_sim_mem : prog double :=
  let! out := probe_run in
  let err_split := Py.split (snd out) in
  let! mem := lift (Py.index "memory:" err_split) in
  let! sim_mem := lift (Py.getitem err_split (mem + 1)) in
  let! _ := os_remove "temp" in
  lift (float sim_mem).

(** ** Worker: [SimulationManager.worker_job] *)

(** Where a worker process stands in [worker_job]; [sim_mem] is its local
    variable. *)
Inductive worker_pc : Type :=
| WProbe                   (* sim_mem = self.get_sim_mem(sim, gpu_idx) *)
| WPublish (sim_mem : double)   (* self.gpu_memory_queue.put(sim_mem) *)
| WRun (sim_mem : double)       (* sim.oxpy_run.run(subprocess=False) *)
| WRelease (sim_mem : double)   (* self.process_queue.get() *)
| WExited
| WRaised (e : exn).

(** A worker process has the copy of the job that [fork] gave it, and
    with it the content of the job's directory as the methods called on
    this job have left it. *)
Record process : Type := mkProcess {
  p_sim : Simulation;
  p_gpu_idx : nat;
  p_pc : worker_pc
}.

(** ** Admission controller: [SimulationManager.worker_manager] *)

(** Where the head process stands in [worker_manager], with its local
    variables [sim], [free_gpu_memory], [gpu_idx] and [sim_mem]. *)
Inductive manager_pc : Type :=
| MLoop                    (* while not self.sim_queue.empty() *)
| MPut                     (* self.process_queue.put(...) *)
| MGet                     (* sim = self.sim_queue.get() *)
| MQuery (sim : Simulation)                        (* self.gpu_resources() *)
| MBind (sim : Simulation) (free : Z) (gpu_idx : nat)   (* sim.input_file(...) *)
| MSpawn (sim : Simulation) (free : Z) (gpu_idx : nat)  (* p.start(); append *)
| MRecv (free : Z) (gpu_idx : nat)                 (* self.gpu_memory_queue.get() *)
| MIf (free : Z) (gpu_idx : nat) (sim_mem : double)     (* if free < 3 * sim_mem *)
| MWhile (free : Z) (gpu_idx : nat) (sim_mem : double)  (* while wait_for_gpu_memory *)
| MSleep (free : Z) (gpu_idx : nat) (sim_mem : double)  (* sleep(5) *)
| MDrain                   (* while not self.process_queue.empty() *)
| MFinished
| MRaised (e : exn).

Record SimulationManager : Type := mkManager {
  n_processes : Z;
  sim_queue : list Simulation;
  process_queue : list string;
  gpu_memory_queue : list double;
  worker_process_list : list process;
  pc : manager_pc
}.

(** [SimulationManager.__init__], before [worker_manager] has started. *)
Definition init (n_processes : Z) : SimulationManager :=
  mkManager n_processes [] [] [] [] MLoop.

Definition set_sim_queue (q : list Simulation) (m : SimulationManager) :=
  mkManager (n_processes m) q (process_queue m) (gpu_memory_queue m)
            (worker_process_list m) (pc m).

Definition set_process_queue (q : list string) (m : SimulationManager) :=
  mkManager (n_processes m) (sim_queue m) q (gpu_memory_queue m)
            (worker_process_list m) (pc m).

Definition set_gpu_memory_queue (q : list double) (m : SimulationManager) :=
  mkManager (n_processes m) (sim_queue m) (process_queue m) q
            (worker_process_list m) (pc m).

Definition set_worker_process_list (l : list process) (m : SimulationManager) :=
  mkManager (n_processes m) (sim_queue m) (process_queue m)
            (gpu_memory_queue m) l (pc m).

Definition set_pc (c : manager_pc) (m : SimulationManager) :=
  mkManager (n_processes m) (sim_queue m) (process_queue m)
            (gpu_memory_queue m) (worker_process_list m) c.

(** [queue.Queue(maxsize)] is full when [0 < maxsize <= qsize]: a
    [maxsize] of zero or less gives a queue without bound. *)
Definition full {A} (maxsize : Z) (q : list A) : bool :=
  ((0 <? maxsize) && (maxsize <=? Z.of_nat (length q)))%Z.

(** [free_gpu_memory < (3 * sim_mem)]: the product is a product of
    [double]s, and numpy compares its integer with a Python [float] as
    [double]s. *)
Definition short (free : Z) (sim_mem : double) : bool :=
  PrimFloat.ltb (of_int free) (PrimFloat.mul (of_int 3) sim_mem).

(** What a step shows to an observer. *)
Inductive event : Type :=
| Queued (dir : string)
| Refused (e : exn)
| Tested (empty : bool)
| Acquired
| Dequeued (dir : string)
| Queried (free : Z) (gpu_idx : nat)
| Bound (dir : string) (gpu_idx : nat)
| Spawned (dir : string) (gpu_idx : nat)
| Received (sim_mem : double)
| Compared (is_short : bool)
| Slept (seconds : Z)
| Printed (msg : string)
| ManagerRaised (e : exn)
| Probed (i : nat) (sim_mem : double)
| Published (i : nat) (sim_mem : double)
| Ran (i : nat)
| Released (i : nat)
| WorkerRaised (i : nat) (e : exn).

(** [SimulationManager.queue_sim], called by the submitting process. *)
Definition queue_sim (sim : Simulation) (continue_run : bool)
    (m : SimulationManager) : event * SimulationManager :=
  let r :=
    if continue_run then
      match last_conf sim with
      | None => (Err (AttributeError "last_conf"), sim)
      | Some lc =>
          input_file [("conf_file", lc); ("refresh_vel", "0");
                      ("restart_step_counter", "0")] sim
      end
    else (Ok tt, sim) in
  match r with
  | (Ok _, sim) =>
      (* self.sim_queue.put(sim) pickles [sim]; a manager cannot be pickled *)
      if oxpy_manager sim then (Refused TypeError, m)
      else (Queued (sim_dir sim), set_sim_queue (sim_queue m ++ [sim]) m)
  | (Err e, _) => (Refused e, m)
  end.

(** One step of [worker_manager]; [smi] is what [nvidia-smi] answers if
    this step runs it. A step that blocks is [None]. *)
Definition manager_step (smi : completed) (m : SimulationManager)
  : option (event * SimulationManager) :=
  match pc m with
  | MLoop =>
      match sim_queue m with
      | [] => Some (Tested true, set_pc MDrain m)
      | _ :: _ => Some (Tested false, set_pc MPut m)
      end
  | MPut =>
      if full (n_processes m) (process_queue m) then None
      else Some (Acquired,
                 set_pc MGet
                   (set_process_queue
                      (process_queue m ++ ["Simulation worker finished"]) m))
  | MGet =>
      match sim_queue m with
      | [] => None
      | sim :: q => Some (Dequeued (sim_dir sim),
                          set_pc (MQuery sim) (set_sim_queue q m))
      end
  | MQuery sim =>
      match gpu_resources smi with
      | Ok (free, gpu_idx) =>
          Some (Queried free gpu_idx, set_pc (MBind sim free gpu_idx) m)
      | Err e => Some (ManagerRaised e, set_pc (MRaised e) m)
      end
  | MBind sim free gpu_idx =>
      match input_file [("CUDA_device", pretty gpu_idx)] sim with
      | (Ok _, sim) =>
          Some (Bound (sim_dir sim) gpu_idx, set_pc (MSpawn sim free gpu_idx) m)
      | (Err e, _) => Some (ManagerRaised e, set_pc (MRaised e) m)
      end
  | MSpawn sim free gpu_idx =>
      Some (Spawned (sim_dir sim) gpu_idx,
            set_pc (MRecv free gpu_idx)
              (set_worker_process_list
                 (worker_process_list m ++ [mkProcess sim gpu_idx WProbe]) m))
  | MRecv free gpu_idx =>
      match gpu_memory_queue m with
      | [] => None
      | sim_mem :: q =>
          Some (Received sim_mem,
                set_pc (MIf free gpu_idx sim_mem) (set_gpu_memory_queue q m))
      end
  | MIf free gpu_idx sim_mem =>
      if short free sim_mem
      then Some (Compared true, set_pc (MWhile free gpu_idx sim_mem) m)
      else Some (Compared false, set_pc MLoop m)
  | MWhile free gpu_idx sim_mem =>
      if short free sim_mem then
        match gpu_resources smi with
        | Ok (free, gpu_idx) =>
            Some (Queried free gpu_idx, set_pc (MSleep free gpu_idx sim_mem) m)
        | Err e => Some (ManagerRaised e, set_pc (MRaised e) m)
        end
      else Some (Printed "gpu memory freed", set_pc MLoop m)
  | MSleep free gpu_idx sim_mem =>
      Some (Slept 5, set_pc (MWhile free gpu_idx sim_mem) m)
  | MDrain =>
      match process_queue m with
      | [] => Some (Printed "All queued simulations finished", set_pc MFinished m)
      | _ :: _ => Some (Slept 1, m)
      end
  | MFinished => None
  | MRaised _ => None
  end.

(** One step of the [i]-th process of [worker_process_list]. *)
Definition set_worker (i : nat) (p : process) (m : SimulationManager) :=
  set_worker_process_list (<[i := p]> (worker_process_list m)) m.

Definition worker_step (i : nat) (m : SimulationManager)
  : option (event * SimulationManager) :=
  match worker_process_list m !! i with
  | None => None
  | Some p =>
      match p_pc p with
      | WProbe =>
          match get_sim_mem (p_sim p) with
          | (Ok sim_mem, sim) =>
              Some (Probed i sim_mem,
                    set_worker i (mkProcess sim (p_gpu_idx p) (WPublish sim_mem)) m)
          | (Err e, sim) =>
              Some (WorkerRaised i e,
                    set_worker i (mkProcess sim (p_gpu_idx p) (WRaised e)) m)
          end
      | WPublish sim_mem =>
          if full 1 (gpu_memory_queue m) then None
          else Some (Published i sim_mem,
                     set_worker i (mkProcess (p_sim p) (p_gpu_idx p) (WRun sim_mem))
                       (set_gpu_memory_queue (gpu_memory_queue m ++ [sim_mem]) m))
      | WRun sim_mem =>
          match oxpy_run true (p_sim p) with
          | (Ok _, sim) =>
              Some (Ran i,
                    set_worker i (mkProcess sim (p_gpu_idx p) (WRelease sim_mem)) m)
          | (Err e, sim) =>
              Some (WorkerRaised i e,
                    set_worker i (mkProcess sim (p_gpu_idx p) (WRaised e)) m)
          end
      | WRelease sim_mem =>
          match process_queue m with
          | [] => None
          | _ :: q =>
              Some (Released i,
                    set_worker i (mkProcess (p_sim p) (p_gpu_idx p) WExited)
                      (set_process_queue q m))
          end
      | WExited => None
      | WRaised _ => None
      end
  end.

(** ** Interleavings *)

Inductive choice : Type :=
| Caller (sim : Simulation) (continue_run : bool)
| Manager (smi : completed)
| Worker (i : nat).

Definition step (c : choice) (m : SimulationManager)
  : option (event * SimulationManager) :=
  match c with
  | Caller sim continue_run => Some (queue_sim sim continue_run m)
  | Manager smi => manager_step smi m
  | Worker i => worker_step i m
  end.

Fixpoint exec (sched : list choice) (m : SimulationManager)
  : option (list event * SimulationManager) :=
  match sched with
  | [] => Some ([], m)
  | c :: sched =>
      match step c m with
      | None => None
      | Some (ev, m) =>
          match exec sched m with
          | None => None
          | Some (tr, m) => Some (ev :: tr, m)
          end
      end
  end.

Definition reachable (n : Z) (tr : list event) (m : SimulationManager) : Prop :=
  exists sched, exec sched (init n) = Some (tr, m).

End Engine.

(** ** Runs with options: [OxpyRun.run] and [OxpyRun.run_complete] *)

(** [sim.oxpy_run.run(subprocess=False, steps=steps,
    continue_run=continue_run, log=log)]: [run] sets a fresh
    [sim_output], then [run_complete] calls [input_file] for
    [continue_run] and for [steps] before it reads [input.json]. [steps]
    is the text that [f'{self.steps}'] gives. *)
Definition run_complete (engine : engine_type) (steps : option string)
    (continue_run log : bool) : prog unit :=
  let! _ :=
    (if continue_run then
       fun s =>
         match last_conf s with
         | None => (Err (AttributeError "last_conf"), s)
         | Some lc =>
             input_file [("conf_file", lc); ("refresh_vel", "0");
                         ("restart_step_counter", "0")] s
         end
     else lift (Ok tt)) in
  let! _ :=
    match steps with
    | Some n => input_file [("steps", n)]
    | None => lift (Ok tt)
    end in
  oxpy_run engine log.

Definition run (engine : engine_type) (steps : option string)
    (continue_run log : bool) : prog unit :=
  fun s =>
    run_complete engine steps continue_run log
      (set_sim_output None (set_oxpy_manager s)).

(** ** Force and observable files: [BuildSimulation.build_force] *)

(** A [dict] as [json.loads] gives it: the keys in insertion order, no
    key twice. *)
Definition odict (V : Type) : Type := list (string * V).

Module Dict.
Section Dict.

Context {V : Type}.

(** [d[k] = v]: in place when [k] is a key, at the end otherwise. *)
Fixpoint setitem (k : string) (v : V) (d : odict V) : odict V :=
  match d with
  | [] => [(k, v)]
  | (k', v') :: r =>
      if String.eqb k' k then (k, v) :: r else (k', v') :: setitem k v r
  end.

(** [d[k]]. *)
Definition getitem (k : string) (d : odict V) : result V :=
  match List.find (fun kv => String.eqb (fst kv) k) d with
  | Some kv => Ok (snd kv)
  | None => Err (KeyError k)
  end.

(** [del d[k]] for a key [k] of [d]. *)
Definition delitem (k : string) (d : odict V) : odict V :=
  List.filter (fun kv => negb (String.eqb (fst kv) k)) d.

(** [list(d.values())]. *)
Definition values (d : odict V) : list V := map snd d.

(** [d.update(items)]. *)
Definition update (d : odict V) (items : list (string * V)) : odict V :=
  fold_left (fun d kv => setitem (fst kv) (snd kv) d) items d.

End Dict.
End Dict.

Section Entries.

(** What a field of a force or of an observable holds, with Python's
    [==] on it and [list(v.values())], which raises unless [v] is a
    [dict]. Writing a value with [dumps] and reading it with [loads] is
    taken to give the value back. *)
Context {value : Type}.
Variable py_eq : value -> value -> bool.
Variable dict_values : value -> result (list value).

(** A [str] and a [dict] as values. *)
Variable str : string -> value.
Variable dict : odict value -> value.

(** [Force.com_force]; the arguments are the texts that the f-strings
    give. *)
Definition com_force (com_list ref_list stiff r0 PBC rate : string)
  : odict value :=
  [("force", dict [("type", str "com");
                   ("com_list", str com_list);
                   ("ref_list", str ref_list);
                   ("stiff", str stiff);
                   ("r0", str r0);
                   ("PBC", str PBC);
                   ("rate", str rate)])].

(** [Force.mutual_trap]: the fields themselves, not under a key. *)
Definition mutual_trap (particle ref_particle stiff r0 PBC : value)
  : odict value :=
  [("type", str "mutual_trap");
   ("particle", particle);
   ("ref_particle", ref_particle);
   ("stiff", stiff);
   ("r0", r0);
   ("PBC", PBC)].

(** [Force.harmonic_trap] and [Force.repulsion_sphere]. *)
Definition harmonic_trap (particle pos0 stiff rate direction : value)
  : odict value :=
  [("type", str "trap");
   ("particle", particle);
   ("pos0", pos0);
   ("rate", rate);
   ("dir", direction)].

Definition repulsion_sphere (particle center stiff r0 rate : value)
  : odict value :=
  [("type", str "sphere");
   ("center", center);
   ("stiff", stiff);
   ("r0", r0);
   ("rate", rate)].

(** [list(force.values())[1]]. *)
Definition second_value (force : value) : result value :=
  let? vs := dict_values force in
  Py.getitem vs 1.

(** The loop over [list(read_force_js.values())]: [true] when it
    returns. The right-hand side of [==] is evaluated at every turn,
    after the left-hand side. *)
Fixpoint on_file (forces : list value) (force_js : odict value) : result bool :=
  match forces with
  | [] => Ok false
  | force :: r =>
      let? a := second_value force in
      let? first := Py.getitem (Dict.values force_js) 0 in
      let? b := second_value first in
      if py_eq a b then Ok true else on_file r force_js
  end.

(** [build_force] and [build_observable] differ in the file they write
    and in the key, [name], that they number. The argument [file] is the
    content of the file, when it exists; the result is its content
    afterwards. *)
Definition build_entry (name : string) (js : odict value)
    (file : option (odict value)) : result (option (odict value)) :=
  match file with
  | None => Ok (Some js)
  | Some read_js =>
      let? found := on_file (Dict.values read_js) js in
      if found then Ok (Some read_js)
      else
        let? old := Dict.getitem name read_js in
        let read_js :=
          Dict.setitem (name +:+ "_" +:+ pretty (length read_js)) old read_js in
        let read_js := Dict.delitem name read_js in
        let read_js := Dict.update read_js js in
        Ok (Some read_js)
  end.

Definition build_force := build_entry "force".

Definition build_observable := build_entry "output".

(** Successive calls, each with one entry under [name], as
    [Force.com_force] and [Observable.distance] give it. *)
Definition build_all (name : string) (entries : list value)
    (file : option (odict value)) : result (option (odict value)) :=
  fold_left (fun r v => let? file := r in build_entry name [(name, v)] file)
            entries (Ok file).

End Entries.

(** ** Run file: [SlurmRun.write_run_file] *)




(** * Vocabulary of the properties *)

(** ** What the device monitor reads *)

(** No character of [s] satisfies [p]. *)
Definition free_of (p : ascii -> bool) (s : string) : bool :=
  forallb (fun c => negb (p c)) (list_ascii_of_string s).

Definition one_line (s : string) : bool :=
  free_of (fun c => Ascii.eqb c "010") s.

(** A non-empty run of non-blank characters. *)
Definition token (s : string) : bool :=
  negb (String.eqb s "") && free_of Py.isspace s.

(** An output of the command: a header line, the lines [lines], each
    ended by a newline, and whatever follows the last newline. *)
Definition csv (header : string) (lines : list string) (rest : string) : string :=
  header +:+ String "010"
    (fold_right (fun l out => l +:+ String "010" out) rest lines).

(** ** Methods and jobs *)

(** A property of the object that a method keeps, however it ends. *)
Definition preserves (P : Simulation -> Prop) {A} (c : prog A) : Prop :=
  forall s, P s -> P (snd (c s)).

(** The job as the scheduler sees it: its directory and the value of
    [CUDA_device], in memory and in [input.json]. *)
Definition bound_to (dir : string) (dev : option string) (s : Simulation) : Prop :=
  sim_dir s = dir
  /\ input s !! "CUDA_device" = dev
  /\ forall j, input_json s = Some j -> j !! "CUDA_device" = dev.

(** The file after entries [init], then [last], were added to a
    directory without one: the earlier entries numbered from 1 in the
    order of their arrival, the latest under [name]. *)
Definition numbered {V} (name : string) (init : list V) (last : V) : odict V :=
  imap (fun i v => (name +:+ "_" +:+ pretty (S i), v)) init ++ [(name, last)].

(** The second values of [entries] are there and differ, each from
    those before it. *)
Definition distinct_seconds {V} (py_eq : V -> V -> bool)
    (dict_values : V -> result (list V)) (entries : list V) : Prop :=
  exists seconds,
    Forall2 (fun v a => second_value dict_values v = Ok a) entries seconds
    /\ forall i j a b, (i < j)%nat -> seconds !! i = Some a ->
                       seconds !! j = Some b -> py_eq a b = false.

(** The value that [parameters] gives [key]: its last binding. *)
Definition last_binding (key : string) (parameters : list (string * string))
  : option string :=
  fold_left (fun acc kv => if String.eqb (fst kv) key then Some (snd kv) else acc)
            parameters None.

(** ** The probe *)

(** The parameters handed to the engine, and the parameters afterwards. *)
Definition overridden (d : gmap string string) (top dat : string)
  : gmap string string :=
  <["topology" := top]>
    (<["conf_file" := dat]> (<["steps" := "0"]> (<["lastconf_file" := "temp"]> d))).

Definition restored (d : gmap string string) (steps lcf top dat : string)
  : gmap string string :=
  <["topology" := top]>
    (<["conf_file" := dat]> (<["steps" := steps]> (<["lastconf_file" := lcf]> d))).

Definition written (l : list string) : list string :=
  touch "input" (touch "input.json" l).

(** The files [get_last_conf_top] may pick. *)
Definition relevant (file : string) : bool :=
  is_top file || is_last_conf file || is_dat file.




(** [input.json] as it stands. *)
Definition persisted (s : Simulation) (key : string) : option string :=
  match input_json s with
  | Some j => j !! key
  | None => None
  end.

(** ** Slot tokens *)

(** A process that has not taken its token back out of [process_queue]. *)
Definition held (p : process) : nat :=
  match p_pc p with WExited => 0 | _ => 1 end.

(** A process that is still executing [worker_job]. *)
Definition running (p : process) : nat :=
  match p_pc p with
  | WProbe | WPublish _ | WRun _ | WRelease _ => 1
  | WExited | WRaised _ => 0
  end.

Definition count_by (f : process -> nat) (l : list process) : nat :=
  foldr (fun p acc => f p + acc)%nat 0%nat l.

(** The manager has put a token for a job it has not spawned yet. *)
Definition holding (c : manager_pc) : nat :=
  match c with
  | MGet | MQuery _ | MBind _ _ _ | MSpawn _ _ _ => 1
  | _ => 0
  end.

Definition tokens_inv (m : SimulationManager) : Prop :=
  match pc m with
  | MRaised _ =>
      (count_by held (worker_process_list m) <= length (process_queue m))%nat
  | c =>
      length (process_queue m)
      = (count_by held (worker_process_list m) + holding c)%nat
  end.

(** ** Events *)

Definition manager_event (ev : event) : bool :=
  match ev with
  | Tested _ | Acquired | Dequeued _ | Queried _ _ | Bound _ _ | Spawned _ _
  | Received _ | Compared _ | Slept _ | Printed _ | ManagerRaised _ => true
  | Queued _ | Refused _ | Probed _ _ | Published _ _ | Ran _ | Released _
  | WorkerRaised _ _ => false
  end.

(** The events by which a job leaves the queue and is launched. *)
Definition is_admission (ev : event) : bool :=
  match ev with
  | Acquired | Dequeued _ | Spawned _ _ => true
  | _ => false
  end.

Definition is_manager (c : choice) : bool :=
  match c with Manager _ => true | _ => false end.

(** ** The wait for headroom *)

(** The number that a finite [double] is. *)
Definition exact (x : double) : option Q :=
  match FloatOps.Prim2SF x with
  | SpecFloat.S754_zero _ => Some 0%Q
  | SpecFloat.S754_finite s m e =>
      Some ((if s then - (1) else 1) * inject_Z (Zpos m) * Qpower 2 e)%Q
  | _ => None
  end.

(** Re-queries, each followed by [sleep(5)]. *)
Definition polls (qs : list (Z * nat)) : list event :=
  flat_map (fun q => [Queried (fst q) (snd q); Slept 5]) qs.

(** Re-queries that are all short of [3 * mem], then one that is not, its
    sleep, and the message that ends the wait. *)
Definition wait_polls (mem : double) (l : list event) : Prop :=
  exists qs f i rest,
    l = polls qs ++ Queried f i :: Slept 5 :: Printed "gpu memory freed" :: rest
    /\ Forall (fun q => short (fst q) mem = true) qs
    /\ short f mem = false.

Definition queries (tr : list event) : list (Z * nat) :=
  omap (fun ev => match ev with Queried f i => Some (f, i) | _ => None end) tr.

(** The locals [free_gpu_memory] and [gpu_idx], where they are set. *)
Definition locals (c : manager_pc) : option (Z * nat) :=
  match c with
  | MBind _ f i | MSpawn _ f i | MRecv f i | MIf f i _ | MWhile f i _
  | MSleep f i _ => Some (f, i)
  | _ => None
  end.

(** A process that has not put its sample in [gpu_memory_queue] yet. *)
Definition unpublished (p : process) : bool :=
  match p_pc p with
  | WProbe | WPublish _ => true
  | _ => false
  end.

(** The local [sim_mem] of the manager, once it has one. *)
Definition sample (c : manager_pc) : option double :=
  match c with
  | MIf _ _ mem | MWhile _ _ mem | MSleep _ _ mem => Some mem
  | _ => None
  end.

Definition receiving (c : manager_pc) : Prop :=
  match c with MRecv _ _ => True | _ => False end.

Definition probed_last (tr : list event) (m : SimulationManager) (mem : double) : Prop :=
  exists front p,
    worker_process_list m = front ++ [p] /\ Probed (length front) mem ∈ tr.

Definition sample_inv (tr : list event) (m : SimulationManager) : Prop :=
  (forall f i, locals (pc m) = Some (f, i) -> last (queries tr) = Some (f, i))
  /\ (forall j p mem,
        worker_process_list m !! j = Some p -> p_pc p = WPublish mem ->
        Probed j mem ∈ tr)
  /\ (forall j p,
        worker_process_list m !! j = Some p -> unpublished p = true ->
        receiving (pc m) /\ gpu_memory_queue m = []
        /\ S j = length (worker_process_list m))
  /\ match gpu_memory_queue m with
     | [] => True
     | [mem] => receiving (pc m) /\ probed_last tr m mem
     | _ => False
     end
  /\ (forall mem, sample (pc m) = Some mem -> probed_last tr m mem).

(** ** Launches, devices, releases *)

Definition all_released (m : SimulationManager) : Prop :=
  Forall (fun p => p_pc p = WExited) (worker_process_list m).

Definition enqueued (tr : list event) : list string :=
  omap (fun ev => match ev with Queued d => Some d | _ => None end) tr.

Definition dequeued (tr : list event) : list string :=
  omap (fun ev => match ev with Dequeued d => Some d | _ => None end) tr.

Definition binds (tr : list event) : list (string * nat) :=
  omap (fun ev => match ev with Bound d i => Some (d, i) | _ => None end) tr.

Definition spawns (tr : list event) : list (string * nat) :=
  omap (fun ev => match ev with Spawned d i => Some (d, i) | _ => None end) tr.

Definition launched (tr : list event) : list string := map fst (spawns tr).


(** The job the manager has taken off the queue and not spawned yet. *)
Definition in_hand (c : manager_pc) : list string :=
  match c with
  | MQuery sim | MBind sim _ _ | MSpawn sim _ _ => [sim_dir sim]
  | _ => []
  end.

(** The job the manager has bound to a device and not spawned yet. *)
Definition pending (c : manager_pc) : list (string * nat) :=
  match c with
  | MSpawn sim _ gpu_idx => [(sim_dir sim, gpu_idx)]
  | _ => []
  end.

Definition job (p : process) : string * nat := (sim_dir (p_sim p), p_gpu_idx p).

Definition bound (p : process) : Prop :=
  bound_to (sim_dir (p_sim p)) (Some (pretty (p_gpu_idx p))) (p_sim p).

Definition jobs_inv (tr : list event) (m : SimulationManager) : Prop :=
  enqueued tr = dequeued tr ++ map sim_dir (sim_queue m)
  /\ (exists dropped,
        dequeued tr = launched tr ++ dropped
        /\ match pc m with MRaised _ => True | c => dropped = in_hand c end)
  /\ binds tr = spawns tr ++ pending (pc m)
  /\ (forall sim f idx, pc m = MSpawn sim f idx ->
                        bound_to (sim_dir sim) (Some (pretty idx)) sim)
  /\ map job (worker_process_list m) = spawns tr
  /\ Forall bound (worker_process_list m).


Definition event_worker (ev : event) : option nat :=
  match ev with
  | Probed i _ | Published i _ | Ran i | Released i | WorkerRaised i _ => Some i
  | _ => None
  end.

(** * Example data *)

(** A toy engine for examples: it writes the file named by
    [lastconf_file] and reports a footprint that is the value of
    [box_footprint], when the parameters have one. *)
Definition toy_engine : engine_type := fun d l =>
  let l' := match d !! "lastconf_file" with Some f => touch f l | None => l end in
  match d !! "box_footprint" with
  | Some v => (Some ("", "INFO: CUDA memory: " +:+ v +:+ " MB"), l')
  | None => (Some ("", "INFO: no device"), l')
  end.

(** The quotient of a natural number by a positive one, rounded to the
    nearest [double]: a quotient of at least 63 bits, with one more bit
    that tells whether the division left a remainder, is rounded as an
    integer. *)
Definition round_ratio (n d : Z) : double :=
  if (n =? 0)%Z then of_int 0
  else
    let k := 64 + Z.log2 d - Z.log2 n in
    let num := if (0 <=? k)%Z then n * 2 ^ k else n in
    let den := if (0 <=? k)%Z then d else d * 2 ^ (- k) in
    let sticky := if (num mod den =? 0)%Z then 0 else 1 in
    FloatOps.SF2Prim
      (SpecFloat.binary_normalize 53 1024 (2 * (num / den) + sticky) (- k - 1)
         false).

(** Digits, a point, digits: the value times [scale], and [scale]. *)
Fixpoint fraction (s : string) (acc scale : Z) (after_digit : bool)
  : option (Z * Z) :=
  match s with
  | EmptyString => if after_digit then Some (acc, scale) else None
  | String c r =>
      match Py.digit c with
      | Some d => fraction r (10 * acc + d) (10 * scale) true
      | None => None
      end
  end.

Fixpoint decimal (s : string) (acc : Z) (after_digit : bool) : option (Z * Z) :=
  match s with
  | EmptyString => None
  | String c r =>
      if Ascii.eqb c "."
      then if after_digit then fraction r acc 1 false else None
      else
        match Py.digit c with
        | Some d => decimal r (10 * acc + d) true
        | None => None
        end
  end.

(** A part of Python's [float] for examples: the integer literals of
    [int], and unsigned decimal literals with digits on both sides of
    the point, each rounded to the nearest [double]. On the other
    tokens that Python converts (exponents, [inf], [nan]) it raises;
    the examples use none. *)
Definition toy_float (tok : string) : result double :=
  match Py.int tok with
  | Ok n => Ok (of_int n)
  | Err e =>
      match decimal tok 0 false with
      | Some (n, d) => Ok (round_ratio n d)
      | None => Err (ValueError "could not convert string to float")
      end
  end.

Definition toy_sim (dir footprint : string) : Simulation :=
  mkSimulation dir
    (<["steps" := "1e9"]> (<["lastconf_file" := "last_conf.dat"]>
       (<["box_footprint" := footprint]> ∅)))
    None ["init.dat"; "sys.top"] None None false.

(** What [nvidia-smi] prints for two devices. *)
Definition smi (a b : string) : completed :=
  Completed 0 ("memory.free [MiB]
" +:+ a +:+ " MiB
" +:+ b +:+ " MiB
").

(** A job whose engine run prints no [memory:] token. *)
Definition toy_sim_silent (dir : string) : Simulation :=
  mkSimulation dir
    (<["steps" := "1e9"]> (<["lastconf_file" := "last_conf.dat"]> ∅))
    None ["init.dat"; "sys.top"] None None false.

(** An engine that raises, and one that writes its [lastconf_file] and
    prints [err] on stderr. *)
Definition failing_engine : engine_type := fun d l => (None, l).

Definition echo_engine (err : string) : engine_type := fun d l =>
  (Some ("", err),
   match d !! "lastconf_file" with Some f => touch f l | None => l end).

(** A job in a directory without topology. *)
Definition toy_sim_bare (dir : string) : Simulation :=
  mkSimulation dir (<["steps" := "1e9"]> ∅) None ["energy.dat"] None None false.

(** Two jobs and one device that reads 5; the first job's footprint is
    the [double] nearest to five thirds. *)
Definition rounding_run : list choice :=
  [Caller (toy_sim "/j1" "1.6666666666666667") false;
   Caller (toy_sim "/j2" "1000") false]
  ++ repeat (Manager (smi "5" "1")) 6 ++ [Worker 0; Worker 0]
  ++ repeat (Manager (smi "5" "1")) 5.

(** One job with one slot: launched with 9000 free for a footprint of
    5000, it runs and releases its token while the manager waits. *)
Definition waiting_run : list choice :=
  Caller (toy_sim "/j1" "5000") false
  :: repeat (Manager (smi "9000" "100")) 6
  ++ [Worker 0; Worker 0; Manager (smi "9000" "100");
      Manager (smi "9000" "100"); Worker 0; Worker 0].

(** One job, launched, whose probe has raised. *)
Definition crashed_probe : list choice :=
  Caller (toy_sim_silent "/j1") false
  :: repeat (Manager (smi "10000" "100")) 6 ++ [Worker 0].

(** One job, launched, whose sample is in [gpu_memory_queue]. *)
Definition published_one : list choice :=
  Caller (toy_sim "/j1" "5000") false
  :: repeat (Manager (smi "10000" "100")) 6 ++ [Worker 0; Worker 0].

(** Values for examples: texts, integers and [dict]s, with [==] as
    Python has it on them. *)
#[warnings="-register-all"] Inductive toy_value : Type :=
| TStr (s : string)
| TNum (z : Z)
| TDict (d : list (string * toy_value)).

Fixpoint toy_py_eq (a b : toy_value) : bool :=
  match a, b with
  | TStr x, TStr y => String.eqb x y
  | TNum x, TNum y => Z.eqb x y
  | TDict d, TDict e =>
      Nat.eqb (length d) (length e)
      && forallb (fun kv =>
                    match kv with
                    | (k, v) =>
                        match List.find (fun kv' => String.eqb (fst kv') k) e with
                        | Some (_, v') => toy_py_eq v v'
                        | None => false
                        end
                    end) d
  | _, _ => false
  end.

Definition toy_dict_values (v : toy_value) : result (list toy_value) :=
  match v with
  | TDict d => Ok (Dict.values d)
  | _ => Err (AttributeError "values")
  end.

(** A force on the particles [com_list], as [Force.com_force] wraps it. *)
Definition toy_force (com_list stiff : string) : toy_value :=
  TDict [("type", TStr "com"); ("com_list", TStr com_list);
         ("stiff", TStr stiff)].

(** Submit one job, launch it, let it probe and publish. *)
Definition launch_one (sim : Simulation) (free : string) : list choice :=
  [Caller sim false;
   Manager (smi free "100"); Manager (smi free "100"); Manager (smi free "100");
   Manager (smi free "100"); Manager (smi free "100"); Manager (smi free "100");
   Worker 0; Worker 0; Manager (smi free "100")].

(** One job from submission to its release, with one slot. *)
Definition run_one : list choice :=
  launch_one (toy_sim "/j1" "1000") "10000"
  ++ [Manager (smi "10000" "100"); Manager (smi "10000" "100");
      Worker 0; Worker 0].

(** * Properties *)

(** ** Device monitor *)

Lemma fold_max_spec (r : list Z) (x : Z) :
  let m := fold_left Z.max r x in
  x <= m /\ Forall (fun y => y <= m) r /\ m ∈ x :: r.
Proof.
  revert x. induction r as [|y r IH]; intros x; simpl.
  - split; [lia|]. split; [constructor|]. apply list_elem_of_here.
  - destruct (IH (Z.max x y)) as (Hx & Hall & Hin).
    split; [lia|]. split.
    + constructor; [lia | exact Hall].
    + apply elem_of_cons in Hin as [Heq | Hin].
      * rewrite Heq. destruct (Z.max_spec x y) as [[_ ->] | [_ ->]].
        -- apply list_elem_of_further, list_elem_of_here.
        -- apply list_elem_of_here.
      * apply list_elem_of_further, list_elem_of_further, Hin.
Qed.

Lemma index_from_spec `{EqDecision A} (x : A) (l : list A) (k : nat) :
  x ∈ l ->
  exists i, Py.index_from x l k = Some (k + i)%nat /\ l !! i = Some x
            /\ forall j, (j < i)%nat -> l !! j <> Some x.
Proof.
  revert k. induction l as [|y l IH]; intros k Hin.
  - apply elem_of_nil in Hin as [].
  - simpl. destruct (decide (y = x)) as [-> | Hne].
    + exists 0%nat. split; [f_equal; lia|]. split; [reflexivity|]. intros j Hj. lia.
    + apply elem_of_cons in Hin as [Heq | Hin]; [congruence|].
      destruct (IH (S k) Hin) as (i & Hi & Hl & Hfirst).
      exists (S i). split; [rewrite Hi; f_equal; lia|]. split; [exact Hl|].
      intros [|j] Hj; simpl; [congruence|]. apply Hfirst. lia.
Qed.

Lemma index_from_None `{EqDecision A} (x : A) (l : list A) (k : nat) :
  x ∉ l -> Py.index_from x l k = None.
Proof.
  revert k. induction l as [|y l IH]; intros k Hnin; simpl; [reflexivity|].
  destruct (decide (y = x)) as [-> | Hne].
  - exfalso. apply Hnin, list_elem_of_here.
  - apply IH. intros Hin. apply Hnin, list_elem_of_further, Hin.
Qed.

Lemma np_round_spec (x : Z) :
  (- 2 ^ 63 <= x < 2 ^ 64 -> Py.np_round x 2 = Ok x)
  /\ (~ (- 2 ^ 63 <= x < 2 ^ 64) -> Py.np_round x 2 = Err TypeError).
Proof.
  unfold Py.np_round.
  destruct (Z.leb_spec (- 2 ^ 63) x) as [Hlo | Hlo];
    destruct (Z.ltb_spec x (2 ^ 64)) as [Hhi | Hhi]; simpl;
    split; intros Hx; first [reflexivity | lia].
Qed.

Lemma most_free_spec (mem : list Z) :
  mem <> [] ->
  exists m i, mem !! i = Some m
              /\ Forall (fun y => y <= m) mem
              /\ (forall j, (j < i)%nat -> mem !! j <> Some m)
              /\ most_free mem = (let? rounded := Py.np_round m 2 in Ok (rounded, i)).
Proof.
  intros Hne. destruct mem as [|x r]; [congruence|].
  destruct (fold_max_spec r x) as (Hx & Hall & Hin).
  destruct (index_from_spec (fold_left Z.max r x) (x :: r) 0 Hin)
    as (i & Hi & Hl & Hfirst).
  exists (fold_left Z.max r x), i.
  split; [exact Hl|]. split; [constructor; assumption|]. split; [exact Hfirst|].
  unfold most_free, Py.max, Py.index. cbn [bind_result]. rewrite Hi. reflexivity.
Qed.

Lemma most_free_empty : is_ok (most_free []) = false.
Proof. reflexivity. Qed.

(** C5. When the command succeeds and its output, header dropped, reads as
    the list [mem] of free-memory values, one per device, and there is at
    least one device, the largest value [m] of [mem] and the index [i] of
    the first device that has it decide the call: [gpu_resources] returns
    [(m, i)] when [m] is an integer that numpy holds in 64 bits, signed
    or unsigned, and raises [TypeError] at [np.round] when it is not. *)
Theorem gpu_resources_returns_max (c : completed) (mem : list Z) :
  avalible_memory c = Ok mem ->
  mem <> [] ->
  exists m i,
    mem !! i = Some m
    /\ Forall (fun y => y <= m) mem
    /\ (forall j, (j < i)%nat -> mem !! j <> Some m)
    /\ (- 2 ^ 63 <= m < 2 ^ 64 -> gpu_resources c = Ok (m, i))
    /\ (~ (- 2 ^ 63 <= m < 2 ^ 64) -> gpu_resources c = Err TypeError).
Proof.
  intros Hmem Hne.
  destruct (most_free_spec mem Hne) as (m & i & Hl & Hall & Hfirst & Hmf).
  destruct (np_round_spec m) as [Hfits Hnot].
  exists m, i. split; [exact Hl|]. split; [exact Hall|]. split; [exact Hfirst|].
  unfold gpu_resources. rewrite Hmem. cbn [bind_result]. rewrite Hmf.
  split; intros H; [rewrite (Hfits H) | rewrite (Hnot H)]; reflexivity.
Qed.

Lemma gpu_resources_returns_max_witness :
  exists m i,
    [11019; 24000; 24000] !! i = Some m
    /\ Forall (fun y => y <= m) [11019; 24000; 24000]
    /\ (forall j, (j < i)%nat -> [11019; 24000; 24000] !! j <> Some m)
    /\ (- 2 ^ 63 <= m < 2 ^ 64 ->
        gpu_resources (Completed 0 "memory.free [MiB]
11019 MiB
24000 MiB
24000 MiB
") = Ok (m, i))
    /\ (~ (- 2 ^ 63 <= m < 2 ^ 64) ->
        gpu_resources (Completed 0 "memory.free [MiB]
11019 MiB
24000 MiB
24000 MiB
") = Err TypeError).
Proof.
  apply (gpu_resources_returns_max _ [11019; 24000; 24000]).
  - vm_compute. reflexivity.
  - discriminate.
Defined.

(** The claim of a returned maximum fails on a reading that numpy cannot
    hold in 64 bits: with a first device that reports [2 ^ 70], the
    readings are taken and nothing is returned. *)
Lemma reading_beyond_64_bits :
  avalible_memory (Completed 0 "memory.free [MiB]
1180591620717411303424 MiB
5 MiB
") = Ok [2 ^ 70; 5]
  /\ gpu_resources (Completed 0 "memory.free [MiB]
1180591620717411303424 MiB
5 MiB
") = Err TypeError
  /\ ~ (exists m i,
          gpu_resources (Completed 0 "memory.free [MiB]
1180591620717411303424 MiB
5 MiB
") = Ok (m, i)).
Proof.
  split; [vm_compute; reflexivity|].
  assert (H : gpu_resources (Completed 0 "memory.free [MiB]
1180591620717411303424 MiB
5 MiB
") = Err TypeError) by (vm_compute; reflexivity).
  split; [exact H|]. intros (m & i & Hm). rewrite H in Hm. discriminate.
Qed.

Lemma append_cons (c : ascii) (a s : string) :
  String c a +:+ s = String c (a +:+ s).
Proof. reflexivity. Qed.

Lemma append_snoc (l : list ascii) (c : ascii) (s : string) :
  string_of_list_ascii (l ++ [c]) +:+ s = string_of_list_ascii l +:+ String c s.
Proof.
  induction l as [|a l IH]; [reflexivity|].
  cbn [app string_of_list_ascii]. rewrite !append_cons, IH. reflexivity.
Qed.

Lemma append_empty (s : string) : s +:+ "" = s.
Proof.
  induction s as [|c s IH]; [reflexivity|]. rewrite append_cons, IH. reflexivity.
Qed.

Lemma split_sep_from_line (cur : list ascii) (a r : string) :
  one_line a = true ->
  Py.split_sep_from "010" cur (a +:+ String "010" r)
  = (string_of_list_ascii (rev cur) +:+ a) :: Py.split_sep_from "010" [] r.
Proof.
  revert cur. induction a as [|c a IH]; intros cur Ha.
  - simpl. rewrite append_empty. reflexivity.
  - unfold one_line, free_of in Ha. simpl in Ha.
    apply andb_true_iff in Ha as [Hc Ha].
    rewrite append_cons. cbn [Py.split_sep_from].
    apply negb_true_iff in Hc. rewrite Hc.
    rewrite (IH (c :: cur) Ha). cbn [rev]. rewrite append_snoc. reflexivity.
Qed.

Lemma split_sep_from_last (cur : list ascii) (a : string) :
  one_line a = true ->
  Py.split_sep_from "010" cur a = [string_of_list_ascii (rev cur) +:+ a].
Proof.
  revert cur. induction a as [|c a IH]; intros cur Ha.
  - simpl. rewrite append_empty. reflexivity.
  - unfold one_line, free_of in Ha. simpl in Ha.
    apply andb_true_iff in Ha as [Hc Ha].
    cbn [Py.split_sep_from]. apply negb_true_iff in Hc. rewrite Hc.
    rewrite (IH (c :: cur) Ha). cbn [rev]. rewrite append_snoc. reflexivity.
Qed.

Lemma split_sep_csv (header : string) (lines : list string) (rest : string) :
  one_line header = true ->
  Forall (fun l => one_line l = true) lines ->
  one_line rest = true ->
  Py.split_sep "010" (csv header lines rest) = (header :: lines) ++ [rest].
Proof.
  intros Hh Hl Hr. unfold Py.split_sep, csv.
  rewrite (split_sep_from_line [] header _ Hh). simpl. f_equal.
  induction Hl as [|l lines Hx _ IH]; simpl.
  - apply (split_sep_from_last [] rest Hr).
  - rewrite (split_sep_from_line [] l _ Hx). simpl. rewrite IH. reflexivity.
Qed.

Lemma memory_free_info_csv (header : string) (lines : list string) (rest : string) :
  Py.decode_ascii (csv header lines rest) = Ok (csv header lines rest) ->
  one_line header = true ->
  Forall (fun l => one_line l = true) lines ->
  one_line rest = true ->
  memory_free_info (csv header lines rest) = Ok lines.
Proof.
  intros Hd Hh Hl Hr.
  unfold memory_free_info, output_to_list. rewrite Hd. cbn [bind_result].
  rewrite (split_sep_csv _ _ _ Hh Hl Hr), removelast_last. reflexivity.
Qed.

(** X12. The lines that are read. When the command succeeds with an
    ASCII output made of a header line, the lines [lines] and some text
    [rest] after the last newline, the free-memory values are read from
    [lines] alone: the header is dropped whatever it says, and [rest],
    which [split('\n')[:-1]] cuts off, is never looked at, even when it
    is a device line whose newline is missing. *)
Theorem csv_output_lines (header : string) (lines : list string) (rest : string) :
  Py.decode_ascii (csv header lines rest) = Ok (csv header lines rest) ->
  one_line header = true ->
  Forall (fun l => one_line l = true) lines ->
  one_line rest = true ->
  memory_free_info (csv header lines rest) = Ok lines
  /\ avalible_memory (Completed 0 (csv header lines rest)) = readings lines
  /\ gpu_resources (Completed 0 (csv header lines rest))
     = (let? mem := readings lines in most_free mem).
Proof.
  intros Hd Hh Hl Hr.
  pose proof (memory_free_info_csv header lines rest Hd Hh Hl Hr) as H.
  split; [exact H|].
  unfold gpu_resources, avalible_memory, check_output. simpl.
  rewrite H. split; reflexivity.
Qed.

(** X13. An output without a device line. When the command succeeds and
    its ASCII output has no newline at all, or nothing but text without
    a newline after its first line, there is no reading, and
    [gpu_resources] raises the [ValueError] of [max] on an empty
    list. *)
Theorem no_device_line (out header rest : string) :
  Py.decode_ascii out = Ok out ->
  one_line header = true ->
  one_line rest = true ->
  out = rest \/ out = header +:+ String "010" rest ->
  gpu_resources (Completed 0 out)
  = Err (ValueError "max() arg is an empty sequence").
Proof.
  intros Hd Hh Hr [-> | ->].
  - unfold gpu_resources, avalible_memory, check_output, memory_free_info,
      output_to_list. simpl. rewrite Hd. cbn [bind_result].
    unfold Py.split_sep. rewrite (split_sep_from_last [] rest Hr). reflexivity.
  - pose proof (memory_free_info_csv header [] rest Hd Hh (List.Forall_nil _) Hr)
      as H.
    unfold gpu_resources, avalible_memory, check_output. simpl.
    change (header +:+ String "010" rest) with (csv header [] rest).
    rewrite H. reflexivity.
Qed.

Lemma split_from_token (cur : list ascii) (tok s : string) :
  free_of Py.isspace tok = true ->
  Py.split_from cur (tok +:+ s)
  = Py.split_from (rev (list_ascii_of_string tok) ++ cur) s.
Proof.
  revert cur. induction tok as [|c tok IH]; intros cur Ht; [reflexivity|].
  unfold free_of in Ht. simpl in Ht. apply andb_true_iff in Ht as [Hc Ht].
  apply negb_true_iff in Hc.
  rewrite append_cons. cbn [Py.split_from]. rewrite Hc, (IH (c :: cur) Ht). cbn [list_ascii_of_string rev].
  rewrite <- app_assoc. reflexivity.
Qed.

Lemma token_rev (tok : string) :
  token tok = true ->
  exists c l, rev (list_ascii_of_string tok) = c :: l
              /\ string_of_list_ascii (rev (c :: l)) = tok.
Proof.
  intros Ht. unfold token in Ht. apply andb_true_iff in Ht as [Hne _].
  destruct (rev (list_ascii_of_string tok)) as [|c l] eqn:Hrev.
  - apply (f_equal (@rev ascii)) in Hrev. rewrite rev_involutive in Hrev.
    apply (f_equal string_of_list_ascii) in Hrev.
    rewrite string_of_list_ascii_of_string in Hrev. subst tok. discriminate.
  - exists c, l. split; [reflexivity|].
    rewrite <- Hrev, rev_involutive. apply string_of_list_ascii_of_string.
Qed.

(** X15. The value of a device line. The reading of a line is [int] of
    its first run of non-blank characters, whatever follows the first
    blank after it: the unit is never looked at. A line with no such run
    raises [IndexError]. *)
Theorem reading_first_token (tok : string) (c : ascii) (rest blank : string) :
  token tok = true ->
  Py.isspace c = true ->
  forallb Py.isspace (list_ascii_of_string blank) = true ->
  reading (blank +:+ tok +:+ String c rest) = Py.int tok
  /\ reading (blank +:+ tok) = Py.int tok
  /\ reading blank = Err IndexError.
Proof.
  intros Ht Hc Hb.
  assert (Hblank : forall s, Py.split_from [] (blank +:+ s) = Py.split_from [] s).
  { intros s. induction blank as [|b blank IH]; [reflexivity|].
    simpl in Hb. apply andb_true_iff in Hb as [Hb1 Hb2].
    rewrite append_cons. cbn [Py.split_from]. rewrite Hb1. apply IH, Hb2. }
  pose proof Ht as Hfree. unfold token in Hfree.
  apply andb_true_iff in Hfree as [_ Hfree].
  destruct (token_rev tok Ht) as (a & l & Hrev & Hback).
  unfold reading, Py.split. split; [|split].
  - rewrite Hblank, (split_from_token [] tok _ Hfree), app_nil_r, Hrev.
    cbn [Py.split_from]. rewrite Hc, Hback. reflexivity.
  - rewrite Hblank. rewrite <- (append_empty tok) at 1.
    rewrite (split_from_token [] tok _ Hfree), app_nil_r, Hrev.
    cbn [Py.split_from]. rewrite Hback. reflexivity.
  - rewrite <- (append_empty blank), Hblank. reflexivity.
Qed.

Lemma readings_app (l1 l2 : list string) :
  readings (l1 ++ l2)
  = (let? ns1 := readings l1 in let? ns2 := readings l2 in Ok (ns1 ++ ns2)).
Proof.
  induction l1 as [|x l1 IH]; simpl.
  - destruct (readings l2); reflexivity.
  - destruct (reading x) as [n|e]; simpl; [|reflexivity].
    rewrite IH. destruct (readings l1) as [ns1|e]; simpl; [|reflexivity].
    destruct (readings l2); reflexivity.
Qed.

(** X16. One unreadable line fails the whole query. When the lines
    before [x] are readable and [x] is not (its first token is no
    integer, as with [[N/A]], or it is blank), [gpu_resources] raises
    what reading [x] raises, whatever the other devices report. *)
Theorem unreadable_line_aborts (c : completed) (out : string)
    (l1 l2 : list string) (x : string) (ns : list Z) (e : exn) :
  check_output c = Ok out ->
  memory_free_info out = Ok (l1 ++ x :: l2) ->
  readings l1 = Ok ns ->
  reading x = Err e ->
  gpu_resources c = Err e.
Proof.
  intros Hc Hinfo H1 Hx. unfold gpu_resources, avalible_memory.
  rewrite Hc. cbn [bind_result]. rewrite Hinfo. cbn [bind_result].
  rewrite readings_app, H1. simpl. rewrite Hx. reflexivity.
Qed.

Lemma gpu_resources_failure (c : completed) :
  returncode c <> 0 ->
  gpu_resources c = Err (RuntimeError (returncode c) (stdout c)).
Proof.
  intros Hrc. unfold gpu_resources, avalible_memory, check_output.
  destruct (Z.eqb_spec (returncode c) 0) as [H0 | _]; [contradiction|].
  reflexivity.
Qed.

(** ** Methods of a [Simulation] *)

Lemma bind_ok {A B} (c : prog A) (k : A -> prog B) s b s' :
  bind c k s = (Ok b, s') ->
  exists a s1, c s = (Ok a, s1) /\ k a s1 = (Ok b, s').
Proof.
  unfold bind. destruct (c s) as [[a|e] s1]; [eauto | discriminate].
Qed.

Lemma bind_step {A B} (c : prog A) (k : A -> prog B) s a s1 :
  c s = (Ok a, s1) -> bind c k s = k a s1.
Proof. unfold bind. intros ->. reflexivity. Qed.

Lemma bind_err {A B} (c : prog A) (k : A -> prog B) s e s1 :
  c s = (Err e, s1) -> bind c k s = (Err e, s1).
Proof. unfold bind. intros ->. reflexivity. Qed.

Lemma bind_assoc {A B C} (c : prog A) (k : A -> prog B) (h : B -> prog C) s :
  bind (bind c k) h s = bind c (fun a => bind (k a) h) s.
Proof. unfold bind. destruct (c s) as [[a|e] s1]; reflexivity. Qed.

Lemma preserves_bind P {A B} (c : prog A) (k : A -> prog B) :
  preserves P c -> (forall a, preserves P (k a)) -> preserves P (bind c k).
Proof.
  intros Hc Hk s Hs. unfold bind. specialize (Hc s Hs).
  destruct (c s) as [[a|e] s1]; simpl in *; [apply Hk; exact Hc | exact Hc].
Qed.

Lemma preserves_lift P {A} (r : result A) : preserves P (lift r).
Proof. intros s Hs. exact Hs. Qed.

Lemma preserves_input_getitem P key : preserves P (input_getitem key).
Proof.
  intros s Hs. unfold input_getitem. destruct (input s !! key); exact Hs.
Qed.

Lemma preserves_sim_output_out P : preserves P sim_output_out.
Proof.
  intros s Hs. unfold sim_output_out. destruct (sim_output s); exact Hs.
Qed.

Lemma lookup_update_other (d : gmap string string) params key :
  Forall (fun kv => fst kv <> key) params ->
  update d params !! key = d !! key.
Proof.
  unfold update. revert d. induction params as [|[k v] params IH]; intros d Hall.
  - reflexivity.
  - apply Forall_cons in Hall as [Hk Hall]. simpl in *.
    rewrite IH by exact Hall. apply lookup_insert_ne. exact Hk.
Qed.

Lemma input_file_inv params s s' :
  input_file params s = (Ok tt, s') ->
  exists top dat,
    get_last_conf_top (files s) = Ok (top, dat)
    /\ let d := <["topology" := top]>
                  (<["conf_file" := dat]> (update (input s) params)) in
       s' = mkSimulation (sim_dir s) d (Some d)
              (touch "input" (touch "input.json" (files s)))
              (last_conf s) (sim_output s) (oxpy_manager s).
Proof.
  unfold input_file, modify_input, write_input. simpl.
  destruct (get_last_conf_top (files s)) as [[top dat]|e]; [|discriminate].
  intros [= <-]. exists top, dat. split; reflexivity.
Qed.

Lemma input_file_ok params s top dat :
  get_last_conf_top (files s) = Ok (top, dat) ->
  let d := <["topology" := top]>
             (<["conf_file" := dat]> (update (input s) params)) in
  input_file params s
  = (Ok tt, mkSimulation (sim_dir s) d (Some d)
              (touch "input" (touch "input.json" (files s)))
              (last_conf s) (sim_output s) (oxpy_manager s)).
Proof.
  intros H. unfold input_file, modify_input, write_input. simpl. rewrite H.
  reflexivity.
Qed.

Lemma preserves_input_file dir dev params :
  Forall (fun kv => fst kv <> "CUDA_device") params ->
  preserves (bound_to dir dev) (input_file params).
Proof.
  intros Hkeys s (Hdir & Hmem & Hjson).
  unfold input_file, modify_input, write_input. simpl.
  destruct (get_last_conf_top (files s)) as [[top dat]|e]; simpl.
  - assert (Hd : <["topology" := top]>
                   (<["conf_file" := dat]> (update (input s) params))
                 !! "CUDA_device" = dev).
    { rewrite lookup_insert_ne by discriminate.
      rewrite lookup_insert_ne by discriminate.
      rewrite lookup_update_other by exact Hkeys. exact Hmem. }
    split; [exact Hdir|]. split; [exact Hd|].
    intros j [= <-]. exact Hd.
  - split; [exact Hdir|]. split; [|exact Hjson]. simpl.
    rewrite lookup_update_other by exact Hkeys. exact Hmem.
Qed.

Lemma preserves_os_remove dir dev f : preserves (bound_to dir dev) (os_remove f).
Proof.
  intros s Hs. unfold os_remove. destruct (exists_file f (files s)); exact Hs.
Qed.

Lemma parse_current_files_fields s :
  sim_dir (parse_current_files s) = sim_dir s
  /\ input (parse_current_files s) = input s
  /\ input_json (parse_current_files s) = input_json s
  /\ files (parse_current_files s) = files s
  /\ sim_output (parse_current_files s) = sim_output s.
Proof.
  unfold parse_current_files.
  destruct (exists_file "last_conf.dat" (files s)); repeat split.
Qed.

(** ** Choosing topology and configuration; writing parameters *)

Lemma filter_head {A} (P : A -> bool) (l : list A) :
  match List.filter P l with
  | [] => Forall (fun y => P y = false) l
  | x :: _ =>
      exists l1 l2, l = l1 ++ x :: l2 /\ P x = true
                    /\ Forall (fun y => P y = false) l1
  end.
Proof.
  induction l as [|y l IH]; simpl; [constructor|].
  destruct (P y) eqn:Hy.
  - exists [], l. split; [reflexivity|]. split; [exact Hy | constructor].
  - destruct (List.filter P l) as [|x r].
    + constructor; assumption.
    + destruct IH as (l1 & l2 & -> & Hx & Hall).
      exists (y :: l1), l2. split; [reflexivity|]. split; [exact Hx|].
      constructor; assumption.
Qed.

Lemma get_last_conf_top_err (l : list string) (e : exn) :
  get_last_conf_top l = Err e -> e = IndexError.
Proof.
  unfold get_last_conf_top, Py.getitem.
  destruct (List.filter is_top l); simpl; [congruence|].
  destruct (List.filter is_last_conf l); simpl; [|discriminate].
  destruct (List.filter is_dat l); simpl; [congruence | discriminate].
Qed.

Lemma input_file_err params s e :
  get_last_conf_top (files s) = Err e ->
  input_file params s = (Err IndexError, set_input (update (input s) params) s).
Proof.
  intros He. rewrite (get_last_conf_top_err _ _ He) in He.
  unfold input_file, modify_input, write_input. simpl. rewrite He. reflexivity.
Qed.

(** X6. What [get_last_conf_top] picks and when it raises. The topology
    is the first file of the listing that ends in [.top]. The
    configuration is the first file whose name starts with [last_conf],
    whatever its extension and wherever it stands; only when there is no
    such file is it the first [.dat] file that is no energy, trajectory
    or error file. The call raises [IndexError], and nothing else,
    exactly when the listing has no [.top] file or no candidate
    configuration. *)
Theorem get_last_conf_top_spec (l : list string) :
  (forall top dat,
      get_last_conf_top l = Ok (top, dat) ->
      (exists l1 l2, l = l1 ++ top :: l2 /\ is_top top = true
                     /\ Forall (fun f => is_top f = false) l1)
      /\ ((exists l1 l2, l = l1 ++ dat :: l2 /\ is_last_conf dat = true
                         /\ Forall (fun f => is_last_conf f = false) l1)
          \/ (Forall (fun f => is_last_conf f = false) l
              /\ exists l1 l2, l = l1 ++ dat :: l2 /\ is_dat dat = true
                               /\ Forall (fun f => is_dat f = false) l1)))
  /\ (forall e,
        get_last_conf_top l = Err e ->
        e = IndexError
        /\ (Forall (fun f => is_top f = false) l
            \/ Forall (fun f => is_last_conf f = false /\ is_dat f = false) l))
  /\ (Forall (fun f => is_top f = false) l
      \/ Forall (fun f => is_last_conf f = false /\ is_dat f = false) l ->
      get_last_conf_top l = Err IndexError).
Proof.
  unfold get_last_conf_top, Py.getitem.
  pose proof (filter_head is_top l) as Ht.
  pose proof (filter_head is_last_conf l) as Hl.
  pose proof (filter_head is_dat l) as Hd.
  assert (Hex : forall (P Q : string -> Prop) x l1 l2,
             l = l1 ++ x :: l2 -> Forall P l -> Q x -> (P x -> Q x -> False) ->
             False).
  { intros P Q x l1 l2 -> Hall Hq Hpq.
    apply Forall_app in Hall as [_ Hall].
    apply Forall_cons in Hall as [Hp _]. exact (Hpq Hp Hq). }
  destruct (List.filter is_top l) as [|t rt]; simpl.
  { split; [discriminate|]. split; [|reflexivity].
    intros e [= <-]. split; [reflexivity | left; exact Ht]. }
  destruct Ht as (t1 & t2 & Htl & Htt & Htf).
  destruct (List.filter is_last_conf l) as [|c rc]; simpl.
  - destruct (List.filter is_dat l) as [|d rd]; simpl.
    + split; [discriminate|]. split; [|reflexivity].
      intros e [= <-]. split; [reflexivity | right].
      rewrite Forall_lookup. intros i f Hf. split.
      * exact (Forall_lookup_1 _ _ _ _ Hl Hf).
      * exact (Forall_lookup_1 _ _ _ _ Hd Hf).
    + destruct Hd as (d1 & d2 & Hdl & Hdt & Hdf).
      split; [|split; [discriminate|]].
      * intros top dat [= <- <-]. split; [exists t1, t2; auto|].
        right. split; [exact Hl | exists d1, d2; auto].
      * intros [Hno | Hno]; exfalso.
        -- apply (Hex _ (fun f => is_top f = true) t t1 t2 Htl Hno Htt).
           congruence.
        -- apply (Hex _ (fun f => is_dat f = true) d d1 d2 Hdl Hno Hdt).
           intros [_ H]. congruence.
  - destruct Hl as (c1 & c2 & Hcl & Hct & Hcf).
    split; [|split; [discriminate|]].
    + intros top dat [= <- <-]. split; [exists t1, t2; auto|].
      left. exists c1, c2. auto.
    + intros [Hno | Hno]; exfalso.
      * apply (Hex _ (fun f => is_top f = true) t t1 t2 Htl Hno Htt).
        congruence.
      * apply (Hex _ (fun f => is_last_conf f = true) c c1 c2 Hcl Hno Hct).
        intros [H _]. congruence.
Qed.

Lemma lookup_update (d : gmap string string) params key :
  update d params !! key
  = match last_binding key params with
    | Some v => Some v
    | None => d !! key
    end.
Proof.
  unfold update, last_binding.
  assert (H : forall acc (d0 : gmap string string),
             d0 !! key = match acc with Some v => Some v | None => d !! key end ->
             fold_left (fun d kv => <[fst kv := snd kv]> d) params d0 !! key
             = match fold_left (fun acc kv =>
                                  if String.eqb (fst kv) key then Some (snd kv)
                                  else acc) params acc with
               | Some v => Some v
               | None => d !! key
               end).
  { induction params as [|[k v] params IH]; intros acc d0 H0; simpl; [exact H0|].
    apply IH. destruct (String.eqb_spec k key) as [-> | Hne].
    - apply lookup_insert_eq.
    - rewrite lookup_insert_ne by exact Hne. exact H0. }
  apply (H None d). reflexivity.
Qed.

(** X7. A call of [input_file] that returns has chosen [topology] and
    [conf_file] from the directory, whatever [parameters] said about
    them; every other name has the last value [parameters] gave it, or
    else the value it had; [input.json] holds exactly the dictionary in
    memory; and the directory has kept all its files and has [input.json]
    and [input]. *)
Theorem input_file_lookup (parameters : list (string * string))
    (s s' : Simulation) :
  input_file parameters s = (Ok tt, s') ->
  exists top dat,
    get_last_conf_top (files s) = Ok (top, dat)
    /\ input s' !! "topology" = Some top
    /\ input s' !! "conf_file" = Some dat
    /\ (forall key, key <> "topology" -> key <> "conf_file" ->
                    input s' !! key
                    = match last_binding key parameters with
                      | Some v => Some v
                      | None => input s !! key
                      end)
    /\ input_json s' = Some (input s')
    /\ (forall f, exists_file f (files s) = true -> exists_file f (files s') = true)
    /\ exists_file "input.json" (files s') = true
    /\ exists_file "input" (files s') = true
    /\ sim_dir s' = sim_dir s.
Proof.
  intros H. apply input_file_inv in H as (top & dat & Htop & ->). simpl.
  exists top, dat. split; [exact Htop|].
  split; [apply lookup_insert_eq|].
  split; [rewrite lookup_insert_ne by discriminate; apply lookup_insert_eq|].
  split.
  { intros key H1 H2. rewrite !lookup_insert_ne by congruence.
    apply lookup_update. }
  split; [reflexivity|].
  assert (Htouch : forall f g l, exists_file f l = true ->
                                 exists_file f (touch g l) = true).
  { intros f g l Hf. unfold touch. destruct (exists_file g l); [exact Hf|].
    unfold exists_file in *. rewrite existsb_app, Hf. reflexivity. }
  assert (Hnew : forall g l, exists_file g (touch g l) = true).
  { intros g l. unfold touch. destruct (exists_file g l) eqn:Hg; [exact Hg|].
    unfold exists_file. rewrite existsb_app. simpl. rewrite String.eqb_refl.
    apply orb_true_r. }
  split; [intros f Hf; apply Htouch, Htouch, Hf|].
  split; [apply Htouch, Hnew|]. split; [apply Hnew | reflexivity].
Qed.

(** X8. A call of [input_file] on a directory from which no topology or
    configuration can be chosen raises [IndexError] after the dictionary
    in memory has taken the new values and before anything is written:
    memory and [input.json] are then out of step on every name whose
    value the call changed. *)
Theorem input_file_failure (parameters : list (string * string))
    (s : Simulation) (e : exn) :
  get_last_conf_top (files s) = Err e ->
  exists s',
    input_file parameters s = (Err IndexError, s')
    /\ (forall key, input s' !! key
                    = match last_binding key parameters with
                      | Some v => Some v
                      | None => input s !! key
                      end)
    /\ input_json s' = input_json s
    /\ files s' = files s
    /\ (forall key v, last_binding key parameters = Some v ->
                      persisted s key <> Some v ->
                      persisted s' key <> input s' !! key).
Proof.
  intros He.
  exists (set_input (update (input s) parameters) s).
  split; [exact (input_file_err parameters s e He)|].
  split; [intros key; apply lookup_update|].
  split; [reflexivity|]. split; [reflexivity|].
  intros key v Hb Hp. simpl. rewrite lookup_update, Hb. exact Hp.
Qed.

(** X14. [queue_sim]. A job on which [run] has been called holds a
    manager, which [sim_queue.put] cannot pickle: the call raises
    [TypeError] and nothing is queued, after [input_file] has run when
    [continue_run] is set. For a job that has not been run: without
    [continue_run] it goes on the queue as it is; with [continue_run]
    and no [last_conf] known, [AttributeError] is raised and nothing is
    queued; with [continue_run] and a [last_conf], the job is queued
    only if [input_file] succeeds, and it then has [refresh_vel] and
    [restart_step_counter] at ["0"], and its [conf_file] is the file
    chosen from the directory, not the [last_conf] path that was
    passed. *)
Theorem queue_sim_continue (sim : Simulation) (m : SimulationManager) :
  (oxpy_manager sim = true ->
   queue_sim sim false m = (Refused TypeError, m))
  /\ (oxpy_manager sim = false ->
      queue_sim sim false m
      = (Queued (sim_dir sim), set_sim_queue (sim_queue m ++ [sim]) m))
  /\ (last_conf sim = None ->
      queue_sim sim true m = (Refused (AttributeError "last_conf"), m))
  /\ (forall lc e,
        last_conf sim = Some lc ->
        get_last_conf_top (files sim) = Err e ->
        queue_sim sim true m = (Refused IndexError, m))
  /\ (forall lc top dat,
        last_conf sim = Some lc ->
        get_last_conf_top (files sim) = Ok (top, dat) ->
        oxpy_manager sim = true ->
        queue_sim sim true m = (Refused TypeError, m))
  /\ (forall lc top dat,
        last_conf sim = Some lc ->
        get_last_conf_top (files sim) = Ok (top, dat) ->
        oxpy_manager sim = false ->
        exists sim',
          queue_sim sim true m
          = (Queued (sim_dir sim), set_sim_queue (sim_queue m ++ [sim']) m)
          /\ input sim' !! "refresh_vel" = Some "0"
          /\ input sim' !! "restart_step_counter" = Some "0"
          /\ input sim' !! "conf_file" = Some dat
          /\ input sim' !! "topology" = Some top
          /\ input_json sim' = Some (input sim')).
Proof.
  unfold queue_sim.
  split; [intros ->; reflexivity|]. split; [intros ->; reflexivity|].
  split; [intros ->; reflexivity|]. split; [|split].
  - intros lc e -> He. rewrite (input_file_err _ sim e He). reflexivity.
  - intros lc top dat -> Htop Hrun.
    rewrite (input_file_ok _ sim top dat Htop). simpl. rewrite Hrun. reflexivity.
  - intros lc top dat -> Htop Hrun.
    rewrite (input_file_ok _ sim top dat Htop). simpl. rewrite Hrun.
    eexists. split; [reflexivity|].
    simpl. unfold update. simpl.
    repeat split; rewrite ?lookup_insert_ne by discriminate;
      apply lookup_insert_eq.
Qed.

(** ** Force and observable files *)

Lemma append_inj (p a b : string) : p +:+ a = p +:+ b -> a = b.
Proof.
  induction p as [|c p IH]; intros H; [exact H|].
  rewrite !append_cons in H. injection H as H. exact (IH H).
Qed.

Lemma numbered_key_fresh (name : string) (i : nat) :
  name +:+ "_" +:+ pretty i <> name.
Proof.
  intros H. rewrite <- (append_empty name) in H at 2.
  apply append_inj in H. rewrite append_cons in H. discriminate.
Qed.

Lemma numbered_key_inj (name : string) (i j : nat) :
  name +:+ "_" +:+ pretty i = name +:+ "_" +:+ pretty j -> i = j.
Proof.
  intros H. apply append_inj, append_inj in H. exact (pretty_nat_inj _ _ H).
Qed.

Lemma setitem_fresh {V} (k : string) (v : V) (d : odict V) :
  Forall (fun kv => fst kv <> k) d -> Dict.setitem k v d = d ++ [(k, v)].
Proof.
  induction 1 as [|[k' v'] d Hk _ IH]; simpl; [reflexivity|].
  destruct (String.eqb_spec k' k) as [Heq | _]; [contradiction|].
  rewrite IH. reflexivity.
Qed.

Lemma delitem_middle {V} (k : string) (v : V) (d r : odict V) :
  Forall (fun kv => fst kv <> k) d ->
  Forall (fun kv => fst kv <> k) r ->
  Dict.delitem k (d ++ (k, v) :: r) = d ++ r.
Proof.
  intros Hd Hr. unfold Dict.delitem.
  assert (Hkeep : forall l : odict V,
             Forall (fun kv => fst kv <> k) l ->
             List.filter (fun kv => negb (String.eqb (fst kv) k)) l = l).
  { induction 1 as [|[k' v'] l Hk _ IH]; simpl; [reflexivity|].
    destruct (String.eqb_spec k' k) as [Heq | _]; [contradiction|].
    simpl. rewrite IH. reflexivity. }
  rewrite List.filter_app. simpl. rewrite String.eqb_refl. simpl.
  rewrite (Hkeep d Hd), (Hkeep r Hr). reflexivity.
Qed.

Lemma getitem_first {V} (k : string) (v : V) (d r : odict V) :
  Forall (fun kv => fst kv <> k) d ->
  Dict.getitem k (d ++ (k, v) :: r) = Ok v.
Proof.
  intros Hd. unfold Dict.getitem.
  induction Hd as [|[k' v'] d Hk _ IH]; simpl.
  - rewrite String.eqb_refl. reflexivity.
  - destruct (String.eqb_spec k' k) as [Heq | _]; [contradiction | exact IH].
Qed.

Lemma numbered_keys {V} (name : string) (init : list V) (k : string) :
  (forall i, (i < length init)%nat -> name +:+ "_" +:+ pretty (S i) <> k) ->
  Forall (fun kv => fst kv <> k)
         (imap (fun i v => (name +:+ "_" +:+ pretty (S i), v)) init).
Proof.
  intros Hk. apply Forall_lookup_2. intros i kv Hi.
  rewrite list_lookup_imap in Hi.
  destruct (init !! i) as [v|] eqn:Hv; [|discriminate].
  injection Hi as <-. simpl. apply Hk. apply (lookup_lt_Some _ _ _ Hv).
Qed.

Lemma values_numbered {V} (name : string) (init : list V) (last : V) :
  Dict.values (numbered name init last) = init ++ [last].
Proof.
  unfold Dict.values, numbered. rewrite map_app. simpl. f_equal.
  apply list_eq. intros i. rewrite list_lookup_fmap, list_lookup_imap.
  destruct (init !! i); reflexivity.
Qed.

Section EntryFiles.

Context {value : Type}.
Variable py_eq : value -> value -> bool.
Variable dict_values : value -> result (list value).
Variable str : string -> value.
Variable dict : odict value -> value.


Lemma on_file_step (f : value) (forces : list value) (k : string) (v a b : value)
    (rest : odict value) :
  second_value dict_values f = Ok a ->
  second_value dict_values v = Ok b ->
  on_file py_eq dict_values (f :: forces) ((k, v) :: rest)
  = if py_eq a b then Ok true else on_file py_eq dict_values forces ((k, v) :: rest).
Proof.
  intros Ha Hv. cbn [on_file]. rewrite Ha. cbn [bind_result].
  change (Py.getitem (Dict.values ((k, v) :: rest)) 0) with (Ok v).
  cbn [bind_result]. rewrite Hv. reflexivity.
Qed.

Lemma on_file_new (forces seconds : list value) (k : string) (v b : value)
    (rest : odict value) :
  Forall2 (fun f a => second_value dict_values f = Ok a) forces seconds ->
  second_value dict_values v = Ok b ->
  Forall (fun a => py_eq a b = false) seconds ->
  on_file py_eq dict_values forces ((k, v) :: rest) = Ok false.
Proof.
  intros Hf Hv. induction Hf as [|f a forces seconds Ha _ IH]; intros Hne.
  - reflexivity.
  - apply Forall_cons in Hne as [Hab Hne].
    rewrite (on_file_step _ _ _ _ _ _ _ Ha Hv), Hab. exact (IH Hne).
Qed.

Lemma on_file_old (forces : list value) (k : string) (v b : value)
    (rest : odict value) :
  Forall (fun f => is_ok (second_value dict_values f) = true) forces ->
  second_value dict_values v = Ok b ->
  (exists f a, f ∈ forces /\ second_value dict_values f = Ok a /\ py_eq a b = true) ->
  on_file py_eq dict_values forces ((k, v) :: rest) = Ok true.
Proof.
  intros Hall Hv.
  induction Hall as [|f forces Hf _ IH]; intros (g & a & Hin & Hg & Hab).
  - apply elem_of_nil in Hin as [].
  - destruct (second_value dict_values f) as [a0|e] eqn:Hsf; [|discriminate Hf].
    rewrite (on_file_step _ _ _ _ _ _ _ Hsf Hv).
    destruct (py_eq a0 b) eqn:E; [reflexivity|]. apply IH.
    apply elem_of_cons in Hin as [-> | Hin].
    + rewrite Hg in Hsf. injection Hsf as ->. congruence.
    + exists g, a. auto.
Qed.

Lemma distinct_seconds_last (entries : list value) (last : value) :
  distinct_seconds py_eq dict_values (entries ++ [last]) ->
  exists seconds b,
    Forall2 (fun f a => second_value dict_values f = Ok a) entries seconds
    /\ second_value dict_values last = Ok b
    /\ Forall (fun a => py_eq a b = false) seconds
    /\ distinct_seconds py_eq dict_values entries.
Proof.
  intros (ss & Hall & Hd).
  apply Forall2_app_inv_l in Hall as (ss1 & ss2 & H1 & H2 & ->).
  inversion H2 as [|? b ? ? Hb Hnil]; subst. inversion Hnil; subst.
  exists ss1, b. split; [exact H1|]. split; [exact Hb|]. split.
  - apply Forall_lookup_2. intros i a Hi.
    apply (Hd i (length ss1) a b).
    + apply (lookup_lt_Some _ _ _ Hi).
    + rewrite lookup_app_l by apply (lookup_lt_Some _ _ _ Hi). exact Hi.
    + rewrite list_lookup_middle; reflexivity.
  - exists ss1. split; [exact H1|]. intros i j a c Hij Hi Hj.
    apply (Hd i j a c Hij).
    + rewrite lookup_app_l by apply (lookup_lt_Some _ _ _ Hi). exact Hi.
    + rewrite lookup_app_l by apply (lookup_lt_Some _ _ _ Hj). exact Hj.
Qed.

Lemma build_all_snoc (name : string) (entries : list value) (v : value) file :
  build_all py_eq dict_values name (entries ++ [v]) file
  = (let? file := build_all py_eq dict_values name entries file in
     build_entry py_eq dict_values name [(name, v)] file).
Proof. unfold build_all. rewrite fold_left_app. reflexivity. Qed.

Lemma build_entry_numbered (name : string) (init : list value) (x last : value) :
  on_file py_eq dict_values (init ++ [x]) [(name, last)] = Ok false ->
  build_entry py_eq dict_values name [(name, last)] (Some (numbered name init x))
  = Ok (Some (numbered name (init ++ [x]) last)).
Proof.
  intros Hon. unfold build_entry. rewrite values_numbered, Hon.
  cbn [bind_result].
  set (d0 := imap (fun i v => (name +:+ "_" +:+ pretty (S i), v)) init).
  set (kn := name +:+ "_" +:+ pretty (S (length init))).
  assert (Hd0 : Forall (fun kv : string * value => fst kv <> name) d0).
  { apply numbered_keys. intros i _. apply numbered_key_fresh. }
  assert (Hd1 : Forall (fun kv : string * value => fst kv <> kn) d0).
  { apply numbered_keys. intros i Hi H. apply numbered_key_inj in H. lia. }
  assert (Hkn : kn <> name) by apply numbered_key_fresh.
  assert (Hlen : length (numbered name init x) = S (length init)).
  { unfold numbered. rewrite length_app, length_imap. simpl. lia. }
  assert (Hget : Dict.getitem name (numbered name init x) = Ok x)
    by apply (getitem_first name x d0 [] Hd0).
  assert (Hset : Dict.setitem kn x (numbered name init x)
                 = d0 ++ (name, x) :: [(kn, x)]).
  { unfold numbered. fold d0. rewrite setitem_fresh.
    - rewrite <- app_assoc. reflexivity.
    - apply Forall_app. split; [exact Hd1|].
      repeat constructor. simpl. congruence. }
  rewrite Hget. cbn [bind_result]. rewrite Hlen. fold kn. rewrite Hset.
  rewrite (delitem_middle name x d0 [(kn, x)] Hd0)
    by (repeat constructor; simpl; exact Hkn).
  unfold Dict.update. cbn [fold_left fst snd].
  rewrite setitem_fresh
    by (apply Forall_app; split; [exact Hd0|];
        repeat constructor; simpl; exact Hkn).
  unfold numbered. rewrite imap_app. fold d0. cbn [imap].
  rewrite Nat.add_0_r. reflexivity.
Qed.

(** X17. How the files number their entries. In a directory without the
    file, successive calls of [build_force], each with one force under
    the key [force] whose second value differs from those of the forces
    before it, leave a file that holds every force once, in the order of
    the calls: the latest under [force], the others under [force_1],
    [force_2], and so on. [build_observable] does the same with
    [output]. *)
Theorem build_all_numbers (name : string) (init : list value) (last : value) :
  distinct_seconds py_eq dict_values (init ++ [last]) ->
  build_all py_eq dict_values name (init ++ [last]) None
  = Ok (Some (numbered name init last))
  /\ Dict.values (numbered name init last) = init ++ [last].
Proof.
  intros Hd. split; [|apply values_numbered].
  revert last Hd. induction init as [|x init IH] using rev_ind; intros last Hd.
  - reflexivity.
  - apply distinct_seconds_last in Hd as (ss & b & Hss & Hb & Hne & Hd).
    rewrite build_all_snoc, (IH x Hd). cbn [bind_result].
    apply build_entry_numbered.
    exact (on_file_new _ _ _ _ _ _ Hss Hb Hne).
Qed.

(** X18. An entry whose second value is already on file is dropped. When
    every entry of the file has a second value and one of them equals,
    by [==], the second value of the first entry passed, the call
    returns without writing, whatever the other fields of the entry
    passed and whatever else is passed with it. *)
Theorem same_second_value_dropped (name k : string) (v b : value)
    (rest read_js : odict value) :
  Forall (fun f => is_ok (second_value dict_values f) = true) (Dict.values read_js) ->
  second_value dict_values v = Ok b ->
  (exists f a, f ∈ Dict.values read_js /\ second_value dict_values f = Ok a
               /\ py_eq a b = true) ->
  build_entry py_eq dict_values name ((k, v) :: rest) (Some read_js) = Ok (Some read_js).
Proof.
  intros Hall Hv Hex. unfold build_entry.
  rewrite (on_file_old _ k v b rest Hall Hv Hex). reflexivity.
Qed.

(** X19. Two forces from [Force.com_force] with the same [com_list]:
    the second value of such a force is its [com_list], so the second
    call leaves the file of the first as it is and the second force,
    whatever its reference list, stiffness, distance or rate, is not
    written. *)
Theorem com_force_same_com_list
    (com_list ref_list stiff r0 PBC rate ref_list' stiff' r0' PBC' rate' : string) :
  (forall d, dict_values (dict d) = Ok (Dict.values d)) ->
  (forall a b, py_eq (str a) (str b) = String.eqb a b) ->
  let first := com_force str dict com_list ref_list stiff r0 PBC rate in
  let second := com_force str dict com_list ref_list' stiff' r0' PBC' rate' in
  build_force py_eq dict_values first None = Ok (Some first)
  /\ build_force py_eq dict_values second (Some first) = Ok (Some first).
Proof.
  intros Hdict Heq first second. split; [reflexivity|].
  unfold build_force, build_entry, first, second, com_force.
  cbn [Dict.values map snd].
  match goal with
  | |- context [on_file _ _ [?f] ((_, ?v) :: _)] =>
      assert (Hf : second_value dict_values f = Ok (str com_list))
        by (unfold second_value; rewrite Hdict; reflexivity);
      assert (Hv : second_value dict_values v = Ok (str com_list))
        by (unfold second_value; rewrite Hdict; reflexivity)
  end.
  rewrite (on_file_step _ _ _ _ _ _ _ Hf Hv), Heq, String.eqb_refl.
  reflexivity.
Qed.

(** X20. A force from [Force.mutual_trap] is a [dict] of fields, not a
    [dict] with a force under a key. The first call of [build_force]
    writes it as it is; every later call in that directory, whatever
    force it is given, then asks the text [mutual_trap] for its values
    and raises, and the file stays as the first call left it. *)
Theorem mutual_trap_breaks_next_call
    (particle ref_particle stiff r0 PBC : value) (js : odict value) (e : exn) :
  dict_values (str "mutual_trap") = Err e ->
  let first := mutual_trap str particle ref_particle stiff r0 PBC in
  build_force py_eq dict_values first None = Ok (Some first)
  /\ build_force py_eq dict_values js (Some first) = Err e.
Proof.
  intros He first. split; [reflexivity|].
  unfold build_force, build_entry, first, mutual_trap.
  cbn [Dict.values map snd on_file]. unfold second_value at 1.
  rewrite He. reflexivity.
Qed.

(** X23. Two arguments that are not written. The force that
    [Force.harmonic_trap] returns has no [stiff] field and is the same
    whatever stiffness is passed; the force that
    [Force.repulsion_sphere] returns has no [particle] field and is the
    same whatever particle is passed. *)
Theorem dropped_arguments (particle pos0 stiff rate direction center r0 : value) :
  (forall stiff',
     harmonic_trap str particle pos0 stiff' rate direction
     = harmonic_trap str particle pos0 stiff rate direction)
  /\ Dict.getitem "stiff" (harmonic_trap str particle pos0 stiff rate direction)
     = Err (KeyError "stiff")
  /\ (forall particle',
        repulsion_sphere str particle' center stiff r0 rate
        = repulsion_sphere str particle center stiff r0 rate)
  /\ Dict.getitem "particle" (repulsion_sphere str particle center stiff r0 rate)
     = Err (KeyError "particle").
Proof. repeat split. Qed.

End EntryFiles.

(** ** Run file *)



Section Probe.

Variable engine : engine_type.
Variable float : string -> result double.

Local Abbreviation oxpy_run := (oxpy_run engine).
Local Abbreviation probe_run := (probe_run engine).
Local Abbreviation get_sim_mem := (get_sim_mem engine float).

Lemma oxpy_run_inv log s s' :
  oxpy_run log s = (Ok tt, s') ->
  exists d out l,
    input_json s = Some d
    /\ engine d (files s) = (Some out, l)
    /\ sim_dir s' = sim_dir s
    /\ input s' = input s
    /\ input_json s' = input_json s
    /\ files s' = (if log then touch "log.log" l else l)
    /\ sim_output s' = Some out.
Proof.
  unfold oxpy_run. simpl.
  destruct (input_json s) as [d|] eqn:Hd; [|discriminate].
  destruct (engine d (files s)) as [[out|] l] eqn:He; [|discriminate].
  intros [= <-]. exists d, out, l.
  destruct (parse_current_files_fields
              (set_sim_output (Some out)
                 (set_files (if log then touch "log.log" l else l)
                    (set_sim_output None (set_oxpy_manager s)))))
    as (-> & -> & -> & -> & ->).
  simpl. rewrite Hd. repeat split. exact He.
Qed.

Lemma preserves_oxpy_run dir dev log : preserves (bound_to dir dev) (oxpy_run log).
Proof.
  intros s Hs. unfold oxpy_run. simpl.
  destruct (input_json s) as [d|]; [|exact Hs].
  destruct (engine d (files s)) as [[out|] l]; simpl; [|exact Hs].
  unfold bound_to in *.
  destruct (parse_current_files_fields
              (set_sim_output (Some out)
                 (set_files (if log then touch "log.log" l else l)
                    (set_sim_output None (set_oxpy_manager s)))))
    as (-> & -> & -> & _). exact Hs.
Qed.

Lemma preserves_probe_run dir dev : preserves (bound_to dir dev) probe_run.
Proof.
  unfold probe_run.
  apply preserves_bind; [apply preserves_input_getitem|]. intros steps.
  apply preserves_bind; [apply preserves_input_getitem|]. intros last_conf_file.
  apply preserves_bind.
  { apply preserves_input_file. repeat constructor; discriminate. }
  intros _. apply preserves_bind; [apply preserves_oxpy_run|]. intros _.
  apply preserves_bind.
  { apply preserves_input_file. repeat constructor; discriminate. }
  intros _. apply preserves_sim_output_out.
Qed.

(** The probe never touches the job's directory name or [CUDA_device]. *)
Lemma preserves_get_sim_mem dir dev : preserves (bound_to dir dev) get_sim_mem.
Proof.
  unfold get_sim_mem.
  apply preserves_bind; [apply preserves_probe_run|]. intros out.
  apply preserves_bind; [apply preserves_lift|]. intros mem.
  apply preserves_bind; [apply preserves_lift|]. intros sim_mem.
  apply preserves_bind; [apply preserves_os_remove|]. intros _.
  apply preserves_lift.
Qed.

(** *** What a probe that got through its engine run has done *)

Lemma input_getitem_inv key s v s' :
  input_getitem key s = (Ok v, s') -> input s !! key = Some v /\ s' = s.
Proof.
  unfold input_getitem. destruct (input s !! key); [|discriminate].
  intros [= -> ->]. auto.
Qed.

Lemma probe_run_inv s out s1 :
  probe_run s = (Ok out, s1) ->
  exists steps lcf top dat l top1 dat1,
    input s !! "steps" = Some steps
    /\ input s !! "lastconf_file" = Some lcf
    /\ get_last_conf_top (files s) = Ok (top, dat)
    /\ engine (overridden (input s) top dat) (written (files s)) = (Some out, l)
    /\ get_last_conf_top l = Ok (top1, dat1)
    /\ input s1 = restored (overridden (input s) top dat) steps lcf top1 dat1
    /\ input_json s1 = Some (input s1)
    /\ files s1 = written l
    /\ sim_dir s1 = sim_dir s
    /\ sim_output s1 = Some out.
Proof.
  unfold probe_run. intros H.
  apply bind_ok in H as (steps & sa & Ha & H).
  apply input_getitem_inv in Ha as [Hsteps ->].
  apply bind_ok in H as (lcf & sb & Hb & H).
  apply input_getitem_inv in Hb as [Hlcf ->].
  apply bind_ok in H as ([] & sc & Hc & H).
  apply input_file_inv in Hc as (top & dat & Htop & Hsc). simpl in Hsc.
  apply bind_ok in H as ([] & sd & Hd & H).
  apply oxpy_run_inv in Hd as (d & out' & l & Hjson & Heng & Hdir & Hin & Hj & Hfiles & Hout).
  apply bind_ok in H as ([] & se & He & H).
  apply input_file_inv in He as (top1 & dat1 & Htop1 & Hse). simpl in Hse.
  unfold sim_output_out in H. rewrite Hse in H. simpl in H. rewrite Hout in H.
  injection H as <- <-.
  rewrite Hsc in Hjson, Heng. simpl in Hjson, Heng. injection Hjson as <-.
  exists steps, lcf, top, dat, l, top1, dat1.
  rewrite Hfiles in Htop1. rewrite Hin, Hfiles, Hdir, Hsc. simpl.
  repeat split; assumption.
Qed.


Lemma oxpy_run_err log s d l :
  input_json s = Some d ->
  engine d (files s) = (None, l) ->
  oxpy_run log s = (Err EngineError, set_files l (set_sim_output None (set_oxpy_manager s))).
Proof.
  intros Hd He. unfold oxpy_run. simpl. rewrite Hd, He. reflexivity.
Qed.




(** The marker is missing: [err_split.index('memory:')] raises. *)
Lemma probe_parse_fault s out s1 :
  probe_run s = (Ok out, s1) ->
  "memory:" ∉ Py.split (snd out) ->
  get_sim_mem s = (Err (ValueError "x is not in list"), s1).
Proof.
  intros Hprobe Hnin. unfold get_sim_mem.
  rewrite (bind_step _ _ _ _ _ Hprobe). unfold bind, lift, Py.index.
  rewrite (index_from_None _ _ 0 Hnin). reflexivity.
Qed.

Lemma restored_lookup d steps lcf top dat :
  restored d steps lcf top dat !! "steps" = Some steps
  /\ restored d steps lcf top dat !! "lastconf_file" = Some lcf.
Proof.
  unfold restored. split.
  - rewrite lookup_insert_ne by discriminate.
    rewrite lookup_insert_ne by discriminate. apply lookup_insert_eq.
  - rewrite lookup_insert_ne by discriminate.
    rewrite lookup_insert_ne by discriminate.
    rewrite lookup_insert_ne by discriminate. apply lookup_insert_eq.
Qed.

Lemma overridden_lookup d top dat :
  overridden d top dat !! "steps" = Some "0"
  /\ overridden d top dat !! "lastconf_file" = Some "temp".
Proof. apply (restored_lookup d "0" "temp" top dat). Qed.

(** C10. When the probe has run the engine and the marker [memory:] is
    not among the tokens of the captured stderr, [get_sim_mem] raises at
    [err_split.index], and the object it leaves has [steps] and
    [lastconf_file] back at their values, in memory and in [input.json],
    while its directory is exactly what the engine left plus the input
    files: [os.remove('./temp')] has not run, so [temp], once written by
    the engine, is still there. *)
Theorem parse_fault_leaves_temp (s : Simulation) out s1 :
  probe_run s = (Ok out, s1) ->
  "memory:" ∉ Py.split (snd out) ->
  get_sim_mem s = (Err (ValueError "x is not in list"), s1)
  /\ input s1 !! "steps" = input s !! "steps"
  /\ input s1 !! "lastconf_file" = input s !! "lastconf_file"
  /\ input_json s1 = Some (input s1)
  /\ exists d l,
       engine d (written (files s)) = (Some out, l)
       /\ d !! "steps" = Some "0"
       /\ d !! "lastconf_file" = Some "temp"
       /\ files s1 = written l
       /\ (exists_file "temp" l = true -> exists_file "temp" (files s1) = true).
Proof.
  intros Hprobe Hnin. split; [apply (probe_parse_fault s out s1); assumption|].
  apply probe_run_inv in Hprobe
    as (steps & lcf & top & dat & l & top1 & dat1 & Hsteps & Hlcf & Htop & Heng
        & Htop1 & Hin & Hjson & Hfiles & _ & _).
  destruct (restored_lookup (overridden (input s) top dat) steps lcf top1 dat1)
    as [Hr1 Hr2].
  rewrite Hin, Hr1, Hr2, Hsteps, Hlcf. repeat split; try reflexivity.
  - rewrite Hjson, Hin. reflexivity.
  - destruct (overridden_lookup (input s) top dat) as [Ho1 Ho2].
    exists (overridden (input s) top dat), l.
    repeat split; try assumption.
    rewrite Hfiles. unfold written, touch. intros Hex.
    destruct (exists_file "input.json" l) eqn:H1;
      destruct (exists_file "input" _) eqn:H2;
      unfold exists_file in *; rewrite ?existsb_app, ?Hex; reflexivity.
Qed.

(** *** Probing twice *)

Lemma filter_sub {A} (P R : A -> bool) (l : list A) :
  (forall x, P x = true -> R x = true) ->
  List.filter P (List.filter R l) = List.filter P l.
Proof.
  intros Hsub. induction l as [|x l IH]; simpl; [reflexivity|].
  destruct (R x) eqn:HR; simpl.
  - rewrite IH. reflexivity.
  - destruct (P x) eqn:HP; [|exact IH]. apply Hsub in HP. congruence.
Qed.

Lemma get_last_conf_top_relevant l l' :
  List.filter relevant l = List.filter relevant l' ->
  get_last_conf_top l = get_last_conf_top l'.
Proof.
  intros H. unfold get_last_conf_top.
  rewrite <- (filter_sub is_top relevant l), <- (filter_sub is_top relevant l'),
    <- (filter_sub is_last_conf relevant l), <- (filter_sub is_last_conf relevant l'),
    <- (filter_sub is_dat relevant l), <- (filter_sub is_dat relevant l');
    try (intros x Hx; unfold relevant; rewrite Hx, ?orb_true_r; reflexivity).
  rewrite H. reflexivity.
Qed.

Lemma filter_touch (P : string -> bool) f l :
  P f = false -> List.filter P (touch f l) = List.filter P l.
Proof.
  intros HP. unfold touch. destruct (exists_file f l); [reflexivity|].
  rewrite List.filter_app. simpl. rewrite HP. apply app_nil_r.
Qed.


Lemma relevant_written l :
  List.filter relevant (written l) = List.filter relevant l.
Proof.
  unfold written. rewrite !filter_touch by reflexivity. reflexivity.
Qed.





(** *** Faults of a probe *)

Lemma index_first `{EqDecision A} (x : A) (pre post : list A) :
  x ∉ pre -> Py.index x (pre ++ x :: post) = Ok (length pre).
Proof.
  intros Hnin. unfold Py.index.
  assert (H : forall k, Py.index_from x (pre ++ x :: post) k
                        = Some (k + length pre)%nat).
  { induction pre as [|y pre IH]; intros k; simpl.
    - rewrite decide_True by reflexivity. f_equal. lia.
    - rewrite decide_False.
      + rewrite IH; [f_equal; lia|].
        intros Hin. apply Hnin, list_elem_of_further, Hin.
      + intros ->. apply Hnin, list_elem_of_here. }
  rewrite H. reflexivity.
Qed.

(** X9. A probe whose engine run raises stops there: [get_sim_mem] has
    no handler, so the parameters are not put back. The job is left, in
    memory and in [input.json], with [steps] at ["0"] and
    [lastconf_file] at ["temp"]: run afterwards as it is, it would do no
    step. *)
Theorem engine_fault_keeps_override (s : Simulation) steps lcf top dat l :
  input s !! "steps" = Some steps ->
  input s !! "lastconf_file" = Some lcf ->
  get_last_conf_top (files s) = Ok (top, dat) ->
  engine (overridden (input s) top dat) (written (files s)) = (None, l) ->
  exists s1,
    get_sim_mem s = (Err EngineError, s1)
    /\ input s1 !! "steps" = Some "0"
    /\ input s1 !! "lastconf_file" = Some "temp"
    /\ persisted s1 "steps" = Some "0"
    /\ persisted s1 "lastconf_file" = Some "temp"
    /\ files s1 = l
    /\ sim_output s1 = None.
Proof.
  intros Hsteps Hlcf Htop Heng.
  destruct (overridden_lookup (input s) top dat) as [Ho1 Ho2].
  assert (Hp : exists s1,
             probe_run s = (Err EngineError, s1)
             /\ input s1 = overridden (input s) top dat
             /\ input_json s1 = Some (overridden (input s) top dat)
             /\ files s1 = l /\ sim_output s1 = None).
  { unfold probe_run.
    rewrite (bind_step _ _ s steps s)
      by (unfold input_getitem; rewrite Hsteps; reflexivity).
    rewrite (bind_step _ _ s lcf s)
      by (unfold input_getitem; rewrite Hlcf; reflexivity).
    erewrite bind_step by (apply input_file_ok; exact Htop).
    match goal with
    | |- context [bind (oxpy_run false) _ ?sc] =>
        pose proof (oxpy_run_err false sc (overridden (input s) top dat) l
                      eq_refl Heng) as Hrun
    end.
    rewrite (bind_err _ _ _ _ _ Hrun).
    eexists. split; [reflexivity|]. simpl. repeat split. }
  destruct Hp as (s1 & Hp & Hin & Hjson & Hfiles & Hout).
  exists s1. unfold get_sim_mem. rewrite (bind_err _ _ _ _ _ Hp).
  split; [reflexivity|]. unfold persisted. rewrite Hin, Hjson.
  repeat split; assumption.
Qed.

(** X10. The footprint is the token after the first [memory:] of the
    captured stderr, whatever follows it, later markers included. Once
    that token is found and [temp] is in the directory, [temp] is
    deleted before the token is converted: a token that [float] rejects
    makes the probe raise with [temp] already gone, while the
    parameters are restored either way. *)
Theorem probe_reads_first_marker (s : Simulation) out s1 pre tok post :
  probe_run s = (Ok out, s1) ->
  Py.split (snd out) = pre ++ "memory:" :: tok :: post ->
  "memory:" ∉ pre ->
  exists_file "temp" (files s1) = true ->
  let s2 := set_files (remove_file "temp" (files s1)) s1 in
  get_sim_mem s = (float tok, s2)
  /\ exists_file "temp" (files s2) = false
  /\ input s2 !! "steps" = input s !! "steps"
  /\ input s2 !! "lastconf_file" = input s !! "lastconf_file"
  /\ input_json s2 = Some (input s2).
Proof.
  intros Hprobe Hsplit Hnin Hex s2. split; [|split].
  - unfold get_sim_mem. rewrite (bind_step _ _ _ _ _ Hprobe).
    unfold bind, lift, os_remove, Py.getitem.
    rewrite Hsplit, (index_first _ _ _ Hnin).
    replace (pre ++ "memory:" :: tok :: post)
      with ((pre ++ ["memory:"]) ++ tok :: post)
      by (rewrite <- app_assoc; reflexivity).
    rewrite (list_lookup_middle _ _ _ (length pre + 1))
      by (rewrite length_app; reflexivity).
    rewrite Hex. fold s2. destruct (float tok); reflexivity.
  - unfold s2, exists_file, remove_file. simpl.
    apply not_true_is_false. intros H. apply existsb_exists in H as (g & Hg & Hfg).
    apply filter_In in Hg as [_ Hg]. rewrite Hfg in Hg. discriminate.
  - apply probe_run_inv in Hprobe
      as (steps & lcf & top & dat & l & top1 & dat1 & Hsteps & Hlcf & _ & _
          & _ & Hin & Hjson & _).
    destruct (restored_lookup (overridden (input s) top dat) steps lcf top1 dat1)
      as [Hr1 Hr2].
    unfold s2. simpl. rewrite Hin, Hr1, Hr2, Hsteps, Hlcf.
    repeat split. rewrite Hjson, Hin. reflexivity.
Qed.

(** X11. Two late faults of a probe. When [memory:] is the last token of
    the captured stderr, the probe raises [IndexError] before
    [os.remove]: the directory is as the engine run and the two
    [input_file] calls left it. When the marker and its token are there
    but the directory has no [temp], the probe raises
    [FileNotFoundError] instead of returning the footprint it has
    already read. *)
Theorem probe_late_faults (s : Simulation) out s1 pre :
  probe_run s = (Ok out, s1) ->
  "memory:" ∉ pre ->
  (Py.split (snd out) = pre ++ ["memory:"] ->
   get_sim_mem s = (Err IndexError, s1))
  /\ (forall tok post,
        Py.split (snd out) = pre ++ "memory:" :: tok :: post ->
        exists_file "temp" (files s1) = false ->
        get_sim_mem s = (Err (FileNotFoundError "temp"), s1)).
Proof.
  intros Hprobe Hnin. split.
  - intros Hsplit. unfold get_sim_mem. rewrite (bind_step _ _ _ _ _ Hprobe).
    unfold bind, lift, Py.getitem.
    rewrite Hsplit, (index_first _ _ _ Hnin).
    rewrite lookup_ge_None_2 by (rewrite length_app; simpl; lia).
    reflexivity.
  - intros tok post Hsplit Hex. unfold get_sim_mem.
    rewrite (bind_step _ _ _ _ _ Hprobe).
    unfold bind, lift, os_remove, Py.getitem.
    rewrite Hsplit, (index_first _ _ _ Hnin).
    replace (pre ++ "memory:" :: tok :: post)
      with ((pre ++ ["memory:"]) ++ tok :: post)
      by (rewrite <- app_assoc; reflexivity).
    rewrite (list_lookup_middle _ _ _ (length pre + 1))
      by (rewrite length_app; reflexivity).
    rewrite Hex. reflexivity.
Qed.

(** *** Runs with options *)

Lemma run_plain log s : run engine None false log s = oxpy_run log s.
Proof. reflexivity. Qed.

Lemma get_last_conf_top_written l :
  get_last_conf_top (written l) = get_last_conf_top l.
Proof. apply get_last_conf_top_relevant, relevant_written. Qed.

Ltac look :=
  unfold update; simpl; rewrite ?lookup_insert_ne by discriminate;
  apply lookup_insert_eq.

(** X22. Called with [subprocess=False], as [worker_job] and
    [get_sim_mem] call it, [run] writes its options to [input.json], and
    they stay there. A run that ends normally has given the engine the
    content of [input.json] as it is after the calls of [input_file]
    that the options ask for: with [steps], the number of steps is the one
    passed, in memory and in the file, after the run as well; with
    [continue_run], [refresh_vel] and [restart_step_counter] are ["0"]
    and the configuration is the one chosen from the directory; with
    neither, the engine runs what [input.json] holds, whatever the
    dictionary in memory says. With [continue_run] and no [last_conf]
    known, the run raises [AttributeError] before the engine is
    called. *)
Theorem run_options_persist (steps : option string) (continue_run log : bool)
    (s : Simulation) :
  (last_conf s = None ->
   run engine steps true log s
   = (Err (AttributeError "last_conf"),
      set_sim_output None (set_oxpy_manager s)))
  /\ forall s',
       run engine steps continue_run log s = (Ok tt, s') ->
       exists d out l fs,
         engine d fs = (Some out, l)
         /\ input_json s' = Some d
         /\ (steps = None -> continue_run = false ->
             input_json s = Some d /\ input s' = input s)
         /\ (forall n, steps = Some n -> d !! "steps" = Some n /\ input s' = d)
         /\ (continue_run = true ->
             input s' = d
             /\ d !! "refresh_vel" = Some "0"
             /\ d !! "restart_step_counter" = Some "0"
             /\ exists top dat,
                  get_last_conf_top (files s) = Ok (top, dat)
                  /\ d !! "conf_file" = Some dat
                  /\ d !! "topology" = Some top).
Proof.
  split.
  { intros Hlc. unfold run, run_complete, bind. simpl. rewrite Hlc. reflexivity. }
  intros s' H. unfold run, run_complete in H.
  apply bind_ok in H as ([] & sa & Ha & H).
  apply bind_ok in H as ([] & sb & Hb & H).
  apply oxpy_run_inv in H
    as (d & out & l & Hjson & Heng & _ & Hin & Hj & _ & _).
  exists d, out, l, (files sb).
  split; [exact Heng|]. split; [rewrite Hj; exact Hjson|].
  destruct continue_run.
  - (* continue_run *)
    simpl in Ha. destruct (last_conf s) as [lc|] eqn:Hlc; [|discriminate].
    apply input_file_inv in Ha as (top & dat & Htop & ->). simpl in Htop.
    destruct steps as [n|].
    + apply input_file_inv in Hb as (top1 & dat1 & Htop1 & ->).
      simpl in Htop1, Hjson, Hin.
      change (touch "input" (touch "input.json" (files s)))
        with (written (files s)) in Htop1.
      rewrite get_last_conf_top_written in Htop1.
      rewrite Htop in Htop1. injection Htop1 as <- <-.
      injection Hjson as <-. rewrite Hin.
      split; [discriminate|]. split.
      * intros n' [= <-]. split; [|reflexivity].
        look.
      * intros _. split; [reflexivity|].
        split; [look|].
        split; [look|].
        exists top, dat. split; [exact Htop|].
        split; look.
    + unfold lift in Hb. injection Hb as <-. simpl in Hjson, Hin.
      injection Hjson as <-. rewrite Hin.
      split; [discriminate|]. split; [discriminate|].
      intros _. split; [reflexivity|].
      split; [look|].
      split; [look|].
      exists top, dat. split; [exact Htop|].
      split; look.
  - unfold lift in Ha. injection Ha as <-.
    destruct steps as [n|].
    + apply input_file_inv in Hb as (top1 & dat1 & Htop1 & ->).
      simpl in Hjson, Hin. injection Hjson as <-. rewrite Hin.
      split; [discriminate|]. split; [|discriminate].
      intros n' [= <-]. split; [|reflexivity].
      look.
    + unfold lift in Hb. injection Hb as <-. simpl in Hjson, Hin.
      split; [intros _ _; split; assumption|].
      split; discriminate.
Qed.

End Probe.

(** ** Executions *)

Section Executions.

Variable engine : engine_type.
Variable float : string -> result double.

Local Abbreviation oxpy_run := (oxpy_run engine).
Local Abbreviation probe_run := (probe_run engine).
Local Abbreviation get_sim_mem := (get_sim_mem engine float).
Local Abbreviation worker_step := (worker_step engine float).
Local Abbreviation step := (step engine float).
Local Abbreviation exec := (exec engine float).
Local Abbreviation reachable := (reachable engine float).

Lemma exec_app (s1 s2 : list choice) (m : SimulationManager) :
  exec (s1 ++ s2) m =
  match exec s1 m with
  | None => None
  | Some (tr1, m1) =>
      match exec s2 m1 with
      | None => None
      | Some (tr2, m2) => Some (tr1 ++ tr2, m2)
      end
  end.
Proof.
  revert m. induction s1 as [|c s1 IH]; intros m; simpl.
  - destruct (exec s2 m) as [[tr2 m2]|]; reflexivity.
  - destruct (step c m) as [[ev m1]|]; [|reflexivity].
    rewrite IH. destruct (exec s1 m1) as [[tr1 m1']|]; [|reflexivity].
    destruct (exec s2 m1') as [[tr2 m2]|]; reflexivity.
Qed.

Lemma exec_cons_inv c sched m tr m' :
  exec (c :: sched) m = Some (tr, m') ->
  exists ev m1 tr1,
    step c m = Some (ev, m1) /\ exec sched m1 = Some (tr1, m') /\ tr = ev :: tr1.
Proof.
  simpl. destruct (step c m) as [[ev m1]|]; [|discriminate].
  destruct (exec sched m1) as [[tr1 m2]|] eqn:Hrest; [|discriminate].
  intros [= <- <-]. exists ev, m1, tr1. rewrite Hrest. auto.
Qed.

(** Induction over the states an execution reaches, last step first. *)
Lemma reachable_ind (n : Z) (P : list event -> SimulationManager -> Prop) :
  P [] (init n) ->
  (forall tr m c ev m',
      reachable n tr m -> P tr m -> step c m = Some (ev, m') ->
      P (tr ++ [ev]) m') ->
  forall tr m, reachable n tr m -> P tr m.
Proof.
  intros Hinit Hstep tr m [sched Hexec].
  revert tr m Hexec. induction sched as [|c sched IH] using rev_ind; intros tr m.
  - simpl. intros [= <- <-]. exact Hinit.
  - rewrite exec_app.
    destruct (exec sched (init n)) as [[tr1 m1]|] eqn:H1; [|discriminate].
    simpl. destruct (step c m1) as [[ev m2]|] eqn:H2; [|discriminate].
    intros [= <- <-]. apply (Hstep tr1 m1 c ev m2); [exists sched; exact H1 | | exact H2].
    apply IH. reflexivity.
Qed.

(** Case analysis of one step. *)
Ltac invert_step H :=
  repeat match type of H with
    | context [match ?x with _ => _ end] => destruct x eqn:?
    | context [if ?x then _ else _] => destruct x eqn:?
    end;
  try discriminate H;
  try (injection H as <- <-).

Lemma caller_step_inv sim continue_run m ev m' :
  step (Caller sim continue_run) m = Some (ev, m') ->
  (exists e, ev = Refused e /\ m' = m)
  \/ (exists sim', ev = Queued (sim_dir sim') /\ sim_dir sim' = sim_dir sim
                   /\ m' = set_sim_queue (sim_queue m ++ [sim']) m).
Proof.
  simpl. unfold queue_sim. intros H.
  destruct continue_run.
  - destruct (last_conf sim) as [lc|].
    + unfold input_file, modify_input, write_input in H. simpl in H.
      destruct (get_last_conf_top (files sim)) as [[top dat]|e].
      * simpl in H. destruct (oxpy_manager sim).
        -- injection H as <- <-. left. eauto.
        -- injection H as <- <-. right.
           match goal with
           | |- context [sim_queue m ++ [?x]] => exists x
           end.
           split; [reflexivity|]. split; reflexivity.
      * injection H as <- <-. left. eauto.
    + injection H as <- <-. left. eauto.
  - destruct (oxpy_manager sim).
    + injection H as <- <-. left. eauto.
    + injection H as <- <-. right. exists sim. auto.
Qed.

(** ** Slot tokens *)

Lemma count_by_app f l1 l2 :
  count_by f (l1 ++ l2) = (count_by f l1 + count_by f l2)%nat.
Proof. induction l1 as [|p l1 IH]; simpl; [reflexivity | rewrite IH; lia]. Qed.

Lemma count_by_insert f (l : list process) i p q :
  l !! i = Some p ->
  (count_by f (<[i := q]> l) + f p = count_by f l + f q)%nat.
Proof.
  revert i. induction l as [|x l IH]; intros [|i] H; simpl in *; try discriminate.
  - injection H as ->. lia.
  - specialize (IH i H). lia.
Qed.

Lemma count_by_le f g l :
  (forall p, (f p <= g p)%nat) -> (count_by f l <= count_by g l)%nat.
Proof.
  intros Hle. induction l as [|p l IH]; simpl; [lia|]. specialize (Hle p). lia.
Qed.

Lemma running_le_held p : (running p <= held p)%nat.
Proof. unfold running, held. destruct (p_pc p); lia. Qed.

Lemma worker_step_pc i m ev m' :
  worker_step i m = Some (ev, m') ->
  pc m' = pc m /\ sim_queue m' = sim_queue m /\ n_processes m' = n_processes m.
Proof.
  unfold worker_step. intros H. invert_step H; simpl; auto.
Qed.

Lemma tokens_inv_step c m ev m' :
  tokens_inv m -> step c m = Some (ev, m') -> tokens_inv m'.
Proof.
  intros Hinv Hstep. destruct c as [sim cr | smi | i].
  - apply caller_step_inv in Hstep as [(e & -> & ->) | (sim' & -> & _ & ->)];
      [exact Hinv|].
    unfold tokens_inv in *. simpl. exact Hinv.
  - destruct m as [n sq pq gq wl c]. unfold tokens_inv in *.
    simpl in Hstep. unfold manager_step in Hstep. simpl in *.
    invert_step Hstep; simpl in *;
      rewrite ?length_app, ?count_by_app in *; simpl in *; lia.
  - simpl in Hstep. pose proof (worker_step_pc _ _ _ _ Hstep) as (Hpc & _ & _).
    unfold tokens_inv in *. rewrite Hpc. clear Hpc.
    unfold worker_step in Hstep.
    destruct (worker_process_list m !! i) as [p|] eqn:Hp; [|discriminate].
    destruct (p_pc p) eqn:Hpp; invert_step Hstep; simpl;
      match goal with
      | |- context [count_by held (<[i := ?q]> ?l)] =>
          pose proof (count_by_insert held l i p q Hp) as Hc;
          set (after := count_by held (<[i := q]> l)) in *;
          set (before := count_by held l) in *;
          unfold held in Hc; simpl in Hc; rewrite Hpp in Hc
      end;
      destruct (pc m); simpl in *; rewrite ?length_app in *; simpl in *; lia.
Qed.

Lemma tokens_inv_reachable n tr m : reachable n tr m -> tokens_inv m.
Proof.
  revert tr m. apply reachable_ind.
  - reflexivity.
  - intros tr m c ev m' _ Hinv Hstep. exact (tokens_inv_step c m ev m' Hinv Hstep).
Qed.

Lemma n_processes_step c m ev m' :
  step c m = Some (ev, m') -> n_processes m' = n_processes m.
Proof.
  destruct c as [sim cr | smi | i]; intros Hstep.
  - apply caller_step_inv in Hstep as [(e & -> & ->) | (sim' & -> & _ & ->)];
      reflexivity.
  - simpl in Hstep. unfold manager_step in Hstep. invert_step Hstep; reflexivity.
  - apply worker_step_pc in Hstep. tauto.
Qed.

Lemma process_queue_step_le c m ev m' :
  step c m = Some (ev, m') ->
  (length (process_queue m') <= length (process_queue m))%nat
  \/ (pc m = MPut /\ full (n_processes m) (process_queue m) = false
      /\ length (process_queue m') = S (length (process_queue m))).
Proof.
  destruct c as [sim cr | smi | i]; intros Hstep.
  - apply caller_step_inv in Hstep as [(e & -> & ->) | (sim' & -> & _ & ->)];
      left; simpl; lia.
  - destruct m as [n sq pq gq wl c].
    simpl in Hstep. unfold manager_step in Hstep. simpl in *.
    destruct c; invert_step Hstep; try (left; simpl; lia).
    right. split; [reflexivity|]. split; [reflexivity|].
    simpl. rewrite length_app. simpl. lia.
  - simpl in Hstep. unfold worker_step in Hstep. invert_step Hstep; simpl; left; lia.
Qed.

(** X1. With a positive capacity the pool is bounded: at most [n] tokens
    are out and at most as many processes run as tokens are out. *)
Lemma pool_bounded (n : Z) tr m :
  0 < n ->
  reachable n tr m ->
  n_processes m = n
  /\ Z.of_nat (length (process_queue m)) <= n
  /\ (count_by running (worker_process_list m) <= length (process_queue m))%nat.
Proof.
  intros Hn Hreach. split; [|split].
  - revert tr m Hreach. apply reachable_ind; [reflexivity|].
    intros tr m c ev m' _ IH Hstep. rewrite (n_processes_step _ _ _ _ Hstep). exact IH.
  - assert (H : n_processes m = n /\ Z.of_nat (length (process_queue m)) <= n);
      [|tauto].
    revert tr m Hreach. apply reachable_ind; [simpl; lia|].
    intros tr m c ev m' _ [IHn IH] Hstep.
    split; [rewrite (n_processes_step _ _ _ _ Hstep); exact IHn|].
    destruct (process_queue_step_le _ _ _ _ Hstep) as [Hle | (_ & Hfull & Hlen)];
      [lia|].
    unfold full in Hfull. rewrite IHn in Hfull. rewrite Hlen.
    apply andb_false_iff in Hfull as [Hf | Hf]; [apply Z.ltb_ge in Hf; lia|].
    apply Z.leb_gt in Hf. lia.
  - pose proof (tokens_inv_reachable n tr m Hreach) as Hinv.
    pose proof (count_by_le running held (worker_process_list m) running_le_held).
    unfold tokens_inv in Hinv. destruct (pc m); simpl in Hinv; lia.
Qed.

(** ** Events of the manager *)

Lemma other_step c m ev m' :
  is_manager c = false ->
  step c m = Some (ev, m') ->
  manager_event ev = false /\ pc m' = pc m.
Proof.
  intros Hc Hstep. destruct c as [sim cr | smi | i]; [| discriminate |].
  - apply caller_step_inv in Hstep as [(e & -> & ->) | (sim' & -> & _ & ->)];
      split; reflexivity.
  - split; [|apply worker_step_pc in Hstep; tauto].
    simpl in Hstep. unfold worker_step in Hstep. invert_step Hstep; reflexivity.
Qed.

Lemma manager_step_event smi m ev m' :
  manager_step smi m = Some (ev, m') -> manager_event ev = true.
Proof.
  unfold manager_step. intros H. invert_step H; reflexivity.
Qed.

(** Once [worker_manager] has raised, the manager process is gone. *)
Lemma raised_stuck e sched m tr m' :
  pc m = MRaised e ->
  exec sched m = Some (tr, m') ->
  pc m' = MRaised e /\ Forall (fun ev => manager_event ev = false) tr.
Proof.
  revert m tr. induction sched as [|c sched IH]; intros m tr Hpc Hexec.
  - simpl in Hexec. injection Hexec as <- <-. split; [exact Hpc | constructor].
  - apply exec_cons_inv in Hexec as (ev & m1 & tr1 & Hstep & Hrest & ->).
    destruct (is_manager c) eqn:Hc.
    + destruct c as [| smi |]; try discriminate.
      simpl in Hstep. unfold manager_step in Hstep. rewrite Hpc in Hstep. discriminate.
    + destruct (other_step c m ev m1 Hc Hstep) as [Hev Hpc1].
      destruct (IH m1 tr1) as [Hfin Hall]; [congruence | exact Hrest |].
      split; [exact Hfin | constructor; assumption].
Qed.

(** C7. When [nvidia-smi] exits with a non-zero status at a point where
    the manager queries it (before a spawn, or in the wait loop),
    [gpu_resources] raises a [RuntimeError], [worker_manager] ends with
    that exception, and whatever runs afterwards contains no further
    event of the manager: no second query, no admission. *)
Theorem query_failure_aborts (smi : completed) (m : SimulationManager) :
  returncode smi <> 0 ->
  ((exists sim, pc m = MQuery sim)
   \/ (exists free idx mem, pc m = MWhile free idx mem /\ short free mem = true)) ->
  let e := RuntimeError (returncode smi) (stdout smi) in
  gpu_resources smi = Err e
  /\ manager_step smi m = Some (ManagerRaised e, set_pc (MRaised e) m)
  /\ forall sched tr m',
       exec sched (set_pc (MRaised e) m) = Some (tr, m') ->
       pc m' = MRaised e /\ Forall (fun ev => manager_event ev = false) tr.
Proof.
  intros Hrc Hpc e. pose proof (gpu_resources_failure smi Hrc) as Hq.
  split; [exact Hq|]. split.
  - unfold manager_step.
    destruct Hpc as [(sim & ->) | (free & idx & mem & -> & ->)];
      fold e in Hq; rewrite Hq; reflexivity.
  - intros sched tr m' Hexec. eapply raised_stuck; [|exact Hexec]. reflexivity.
Qed.

(** ** The wait for headroom *)

Lemma wait_polls_cons mem f i l :
  short f mem = true -> wait_polls mem l ->
  wait_polls mem (Queried f i :: Slept 5 :: l).
Proof.
  intros Hs (qs & f' & i' & rest & -> & Hall & Hf').
  exists ((f, i) :: qs), f', i', rest. split; [reflexivity|].
  split; [constructor; assumption | exact Hf'].
Qed.

Lemma wait_phases (mem : double) (sched : list choice) :
  forall m tr m',
    exec sched m = Some (tr, m') ->
    forall tr1 ev tr2,
      tr = tr1 ++ ev :: tr2 -> is_admission ev = true ->
      let l := List.filter manager_event tr1 in
      (forall f i, pc m = MIf f i mem -> short f mem = true ->
                   exists l', l = Compared true :: l' /\ wait_polls mem l')
      /\ (forall f i, pc m = MWhile f i mem -> short f mem = true ->
                      wait_polls mem l)
      /\ (forall f i, pc m = MSleep f i mem -> short f mem = true ->
                      exists l', l = Slept 5 :: l' /\ wait_polls mem l')
      /\ (forall f i, pc m = MSleep f i mem -> short f mem = false ->
                      exists rest,
                        l = Slept 5 :: Printed "gpu memory freed" :: rest)
      /\ (forall f i, pc m = MWhile f i mem -> short f mem = false ->
                      exists rest, l = Printed "gpu memory freed" :: rest).
Proof.
  induction sched as [|c sched IH]; intros m tr m' Hexec tr1 ev tr2 Htr Hev l.
  - simpl in Hexec. injection Hexec as <- <-. destruct tr1; discriminate.
  - apply exec_cons_inv in Hexec as (e & m1 & tr' & Hstep & Hrest & ->).
    destruct (is_manager c) eqn:Hc.
    + destruct c as [| smi |]; try discriminate. simpl in Hstep.
      destruct tr1 as [|e1 tr1]; simpl in Htr; injection Htr as <- Htr.
      * (* the first event would be an admission *)
        unfold manager_step in Hstep.
        repeat split; intros f i Hpc Hs; rewrite Hpc, ?Hs in Hstep;
          invert_step Hstep; discriminate.
      * specialize (IH m1 tr' m' Hrest tr1 ev tr2 Htr Hev).
        destruct IH as (_ & IHB & IHC & IHD & IHE).
        subst l. simpl. rewrite (manager_step_event _ _ _ _ Hstep).
        unfold manager_step in Hstep.
        repeat split; intros f i Hpc Hs; rewrite Hpc, ?Hs in Hstep.
        -- injection Hstep as <- <-. eexists. split; [reflexivity|].
           apply (IHB f i); [reflexivity | exact Hs].
        -- destruct (gpu_resources smi) as [[f' i']|err] eqn:Hq.
           ++ injection Hstep as <- <-. destruct (short f' mem) eqn:Hs'.
              ** destruct (IHC f' i' eq_refl Hs') as (l' & -> & Hl').
                 apply wait_polls_cons; assumption.
              ** destruct (IHD f' i' eq_refl Hs') as (rest & ->).
                 exists [], f', i', rest. split; [reflexivity|].
                 split; [constructor | exact Hs'].
           ++ injection Hstep as <- <-.
              destruct (raised_stuck err sched (set_pc (MRaised err) m) tr' m'
                          eq_refl Hrest) as [_ Hall].
              rewrite Htr in Hall. apply Forall_app in Hall as [_ Hall].
              apply Forall_cons in Hall as [Hall _].
              destruct ev; discriminate.
        -- injection Hstep as <- <-. eexists. split; [reflexivity|].
           apply (IHB f i); [reflexivity | exact Hs].
        -- injection Hstep as <- <-.
           destruct (IHE f i eq_refl Hs) as (rest & ->). eexists. reflexivity.
        -- injection Hstep as <- <-. eexists. reflexivity.
    + destruct (other_step c m e m1 Hc Hstep) as [He Hpc1].
      destruct tr1 as [|e1 tr1]; simpl in Htr; injection Htr as <- Htr.
      * destruct e; discriminate.
      * specialize (IH m1 tr' m' Hrest tr1 ev tr2 Htr Hev).
        subst l. simpl. rewrite He. rewrite Hpc1 in IH. exact IH.
Qed.

(** *** Whose sample, which reading *)

Lemma queries_app tr tr' : queries (tr ++ tr') = queries tr ++ queries tr'.
Proof. unfold queries. apply omap_app. Qed.

Lemma probed_last_mono tr ev m mem :
  probed_last tr m mem -> probed_last (tr ++ [ev]) m mem.
Proof.
  intros (front & p & Hwl & Hin). exists front, p. split; [exact Hwl|].
  apply elem_of_app. left. exact Hin.
Qed.

Lemma sample_inv_step c m tr ev m' :
  sample_inv tr m -> step c m = Some (ev, m') -> sample_inv (tr ++ [ev]) m'.
Proof.
  intros (Hread & Hpub & Hunp & Hmail & Hsam) Hstep.
  assert (Hmono : forall j mem, Probed j mem ∈ tr -> Probed j mem ∈ tr ++ [ev])
    by (intros j mem H; apply elem_of_app; left; exact H).
  destruct c as [sim cr | smi | i].
  - (* the caller leaves processes, mailbox and manager alone *)
    assert (Hq : queries [ev] = [] /\ worker_process_list m' = worker_process_list m
                 /\ gpu_memory_queue m' = gpu_memory_queue m /\ pc m' = pc m).
    { apply caller_step_inv in Hstep as [(e & -> & ->) | (sim' & -> & _ & ->)];
        auto. }
    destruct Hq as (Hq & Hwl & Hgq & Hpc).
    unfold sample_inv, probed_last in *.
    rewrite queries_app, Hq, app_nil_r, Hwl, Hgq, Hpc.
    split; [exact Hread|]. split; [intros j p mem H1 H2; eauto|].
    split; [exact Hunp|]. split.
    + destruct (gpu_memory_queue m) as [|mem [|]]; [exact I | | exact Hmail].
      destruct Hmail as [Hr (front & p & Hf & Hin)]. split; [exact Hr|].
      exists front, p. auto.
    + intros mem Hs. destruct (Hsam mem Hs) as (front & p & Hf & Hin).
      exists front, p. auto.
  - (* the manager *)
    assert (Hnone : ~ receiving (pc m) ->
                    gpu_memory_queue m = []
                    /\ forall j p, worker_process_list m !! j = Some p ->
                                   unpublished p = false).
    { intros Hnr. split.
      - destruct (gpu_memory_queue m) as [|mem [|]]; [reflexivity | | contradiction].
        destruct Hmail as [Hr _]. contradiction.
      - intros j p Hp. destruct (unpublished p) eqn:Hu; [|reflexivity].
        destruct (Hunp j p Hp Hu) as [Hr _]. contradiction. }
    simpl in Hstep. unfold manager_step in Hstep.
    unfold sample_inv in *. rewrite queries_app.
    destruct m as [k sq pq gq wl c]. simpl in *.
    destruct c; invert_step Hstep; simpl in *; rewrite ?app_nil_r;
      try (destruct (Hnone ltac:(tauto)) as [Hgq Hall]);
      try discriminate Hgq; subst;
      try (split; [first [ discriminate
                         | intros ? ? [= <- <-]; first [ apply Hread; reflexivity
                                                        | apply last_snoc ] ]|];
           split; [intros j p mem H1 H2; eauto|];
           split; [intros j p H1 H2; rewrite (Hall j p H1) in H2; discriminate|];
           split; [exact I|];
           first [ discriminate
                 | intros ? [= <-]; apply probed_last_mono;
                   apply Hsam; reflexivity ]; fail).
    + (* spawn *)
      split; [intros ? ? [= <- <-]; apply Hread; reflexivity|].
      split.
      { intros j p mem H1 H2. apply lookup_app_Some in H1 as [H1 | [_ H1]].
        - eauto.
        - apply list_lookup_singleton_Some in H1 as [_ <-]. discriminate. }
      split.
      { intros j p H1 H2. apply lookup_app_Some in H1 as [H1 | [Hj H1]].
        - rewrite (Hall j p H1) in H2. discriminate.
        - apply list_lookup_singleton_Some in H1 as [Hj0 _].
          split; [exact I|]. split; [reflexivity|].
          rewrite length_app. simpl. lia. }
      split; [exact I | discriminate].
    + (* receive *)
      destruct l as [|? ?]; [|contradiction].
      destruct Hmail as [_ Hlast].
      split; [intros ? ? [= <- <-]; apply Hread; reflexivity|].
      split; [intros j p mem H1 H2; eauto|].
      split.
      { intros j p H1 H2. destruct (Hunp j p H1 H2) as (_ & Hgq & _). discriminate. }
      split; [exact I|].
      intros ? [= <-]. apply probed_last_mono. exact Hlast.
  - (* a worker *)
    simpl in Hstep.
    assert (Hq : queries [ev] = [] /\ pc m' = pc m).
    { split; [|apply worker_step_pc in Hstep; tauto].
      unfold worker_step in Hstep. invert_step Hstep; reflexivity. }
    destruct Hq as [Hq Hpc].
    unfold sample_inv. rewrite queries_app, Hq, app_nil_r, Hpc.
    split; [exact Hread|].
    unfold worker_step in Hstep.
    destruct (worker_process_list m !! i) as [p|] eqn:Hp; [|discriminate].
    assert (Hlt : (i < length (worker_process_list m))%nat)
      by (eapply lookup_lt_Some; exact Hp).
    assert (Hplast : forall mem' tr',
               probed_last tr' m mem' ->
               forall q, probed_last tr' (set_worker i q m) mem').
    { intros mem' tr' (front & p0 & Hf & Hin) q. unfold probed_last. simpl.
      rewrite Hf. rewrite Hf, length_app in Hlt. simpl in Hlt.
      destruct (decide (i < length front)%nat) as [Hi | Hi].
      - rewrite insert_app_l by exact Hi. eexists _, p0.
        split; [reflexivity|]. rewrite length_insert. exact Hin.
      - rewrite insert_app_r_alt by lia.
        replace (i - length front)%nat with 0%nat by lia. simpl.
        exists front, q. auto. }
    assert (Hframe : forall q mail,
               unpublished q = false ->
               (match mail with
                | [] => True
                | [mem] => receiving (pc m) /\ probed_last tr m mem
                | _ => False
                end) ->
               (mail <> [] -> forall j p0, j <> i ->
                  worker_process_list m !! j = Some p0 -> unpublished p0 = false) ->
               (forall k p0 mem, <[i := q]> (worker_process_list m) !! k = Some p0 ->
                                 p_pc p0 = WPublish mem -> Probed k mem ∈ tr ++ [ev])
               /\ (forall k p0, <[i := q]> (worker_process_list m) !! k = Some p0 ->
                                unpublished p0 = true ->
                                receiving (pc m) /\ mail = []
                                /\ S k = length (<[i := q]> (worker_process_list m)))
               /\ match mail with
                  | [] => True
                  | [mem] => receiving (pc m)
                             /\ probed_last (tr ++ [ev]) (set_worker i q m) mem
                  | _ => False
                  end
               /\ (forall mem, sample (pc m) = Some mem ->
                               probed_last (tr ++ [ev]) (set_worker i q m) mem)).
    { intros q mail Hq' Hmail' Hothers. split; [|split; [|split]].
      - intros k p0 mem Hk Hpp. destruct (decide (k = i)) as [-> | Hne].
        + rewrite list_lookup_insert_eq in Hk by exact Hlt. injection Hk as <-.
          unfold unpublished in Hq'. rewrite Hpp in Hq'. discriminate.
        + rewrite list_lookup_insert_ne in Hk by congruence. eauto.
      - intros k p0 Hk Hu. destruct (decide (k = i)) as [-> | Hne].
        + rewrite list_lookup_insert_eq in Hk by exact Hlt. injection Hk as <-.
          congruence.
        + rewrite list_lookup_insert_ne in Hk by congruence.
          destruct (Hunp k p0 Hk Hu) as (Hr & Hgq & Hlen).
          split; [exact Hr|]. rewrite length_insert. split; [|exact Hlen].
          destruct mail as [|x mail]; [reflexivity|].
          rewrite (Hothers ltac:(discriminate) k p0 Hne Hk) in Hu. discriminate.
      - destruct mail as [|mem [|]]; [exact I | | exact Hmail'].
        destruct Hmail' as [Hr Hl]. split; [exact Hr|].
        apply probed_last_mono, Hplast. exact Hl.
      - intros mem Hs. apply probed_last_mono, Hplast, Hsam. exact Hs. }
    destruct (p_pc p) eqn:Hpp.
    + (* the probe *)
      assert (Hu : unpublished p = true) by (unfold unpublished; rewrite Hpp; reflexivity).
      destruct (Hunp i p Hp Hu) as (Hr & Hgq & Hlen).
      destruct (get_sim_mem (p_sim p)) as [[mem|e] s'] eqn:Hg;
        injection Hstep as <- <-; simpl.
      * rewrite Hgq. split; [|split; [|split; [exact I|]]].
        -- intros k p0 mem' Hk Hpp0. destruct (decide (k = i)) as [-> | Hne].
           ++ rewrite list_lookup_insert_eq in Hk by exact Hlt. injection Hk as <-.
              simpl in Hpp0. injection Hpp0 as <-.
              apply elem_of_app. right. apply list_elem_of_here.
           ++ rewrite list_lookup_insert_ne in Hk by congruence. eauto.
        -- intros k p0 Hk Hu0. rewrite length_insert.
           destruct (decide (k = i)) as [-> | Hne]; [auto|].
           rewrite list_lookup_insert_ne in Hk by congruence.
           destruct (Hunp k p0 Hk Hu0) as (_ & _ & Hk'). auto.
        -- intros mem' Hs. apply probed_last_mono.
           apply (Hplast mem' tr (Hsam mem' Hs)).
      * apply Hframe; [reflexivity | exact Hmail |].
        intros Hne. rewrite Hgq in Hne. contradiction.
    + (* the publication *)
      assert (Hu : unpublished p = true) by (unfold unpublished; rewrite Hpp; reflexivity).
      destruct (Hunp i p Hp Hu) as (Hr & Hgq & Hlen).
      rewrite Hgq in Hstep. simpl in Hstep. injection Hstep as <- <-. simpl.
      assert (Hlast : probed_last tr m sim_mem).
      { exists (take i (worker_process_list m)), p. split.
        - rewrite <- (take_S_r _ _ _ Hp). rewrite take_ge by lia. reflexivity.
        - rewrite length_take, Nat.min_l by lia. exact (Hpub i p sim_mem Hp Hpp). }
      apply (Hframe (mkProcess (p_sim p) (p_gpu_idx p) (WRun sim_mem)) [sim_mem]);
        [reflexivity | split; [exact Hr | exact Hlast] |].
      intros _ j p0 Hne Hj. destruct (unpublished p0) eqn:Hu0; [|reflexivity].
      destruct (Hunp j p0 Hj Hu0) as (_ & _ & Hj'). lia.
    + (* the run *)
      assert (Hoth : gpu_memory_queue m <> [] -> forall j p0, j <> i ->
                 worker_process_list m !! j = Some p0 -> unpublished p0 = false).
      { intros Hne j p0 _ Hj. destruct (unpublished p0) eqn:Hu0; [|reflexivity].
        destruct (Hunp j p0 Hj Hu0) as (_ & Hgq & _). contradiction. }
      destruct (oxpy_run true (p_sim p)) as [[[]|e] s'];
        injection Hstep as <- <-; simpl;
        apply Hframe; auto.
    + (* the release *)
      assert (Hoth : gpu_memory_queue m <> [] -> forall j p0, j <> i ->
                 worker_process_list m !! j = Some p0 -> unpublished p0 = false).
      { intros Hne j p0 _ Hj. destruct (unpublished p0) eqn:Hu0; [|reflexivity].
        destruct (Hunp j p0 Hj Hu0) as (_ & Hgq & _). contradiction. }
      destruct (process_queue m); [discriminate|].
      injection Hstep as <- <-. simpl. apply Hframe; auto.
    + discriminate.
    + discriminate.
Qed.

Lemma sample_inv_reachable n tr m : reachable n tr m -> sample_inv tr m.
Proof.
  revert tr m. apply reachable_ind.
  - unfold sample_inv. simpl. split; [discriminate|].
    split; [intros j p mem H; discriminate|].
    split; [intros j p H; discriminate|]. split; [exact I | discriminate].
  - intros tr m c ev m' _ Hinv Hstep. exact (sample_inv_step c m tr ev m' Hinv Hstep).
Qed.

(** C2. Take the manager at its comparison after a launch: [free] is
    then the last reading of the device monitor, the one taken before the
    spawn, and [mem] is the sample that the process spawned last got from
    its probe. If [free < 3 * mem] as the program evaluates it, with
    the product rounded to a [double] and the reading converted to one
    ([short]), every later admission event of the manager (a token put,
    a job taken off the queue, a spawn) comes after this sequence of the
    manager's own events: the failed comparison, re-queries that are
    each followed by [sleep(5)] and that all read short of [3 * mem] by
    the same test, one re-query that does not, its [sleep(5)], and the
    end of the wait. *)
Theorem headroom_wait (n : Z) tr0 (m : SimulationManager)
    (free : Z) (idx : nat) (mem : double) (sched : list choice) tr m' tr1 ev tr2 :
  reachable n tr0 m ->
  pc m = MIf free idx mem ->
  short free mem = true ->
  exec sched m = Some (tr, m') ->
  tr = tr1 ++ ev :: tr2 ->
  is_admission ev = true ->
  (last (queries tr0) = Some (free, idx)
   /\ exists front p,
        worker_process_list m = front ++ [p]
        /\ Probed (length front) mem ∈ tr0)
  /\ exists qs f i rest,
       List.filter manager_event tr1
       = Compared true
           :: polls qs
           ++ Queried f i :: Slept 5 :: Printed "gpu memory freed" :: rest
       /\ Forall (fun q => short (fst q) mem = true) qs
       /\ short f mem = false.
Proof.
  intros Hreach Hpc Hs Hexec Htr Hev. split.
  - destruct (sample_inv_reachable n tr0 m Hreach) as (Hread & _ & _ & _ & Hsam).
    split; [apply Hread; rewrite Hpc; reflexivity|].
    apply Hsam. rewrite Hpc. reflexivity.
  - destruct (wait_phases mem sched m tr m' Hexec tr1 ev tr2 Htr Hev)
      as (HA & _).
    destruct (HA free idx Hpc Hs)
      as (l' & -> & qs & f & i & rest & -> & Hall & Hf).
    exists qs, f, i, rest. auto.
Qed.

(** ** Draining *)

Lemma count_held_released (l : list process) :
  Forall (fun p => p_pc p = WExited) l -> count_by held l = 0%nat.
Proof.
  induction 1 as [|p l Hp _ IH]; simpl; [reflexivity|].
  unfold held at 1. rewrite Hp, IH. reflexivity.
Qed.

(** C6. In a state that [worker_manager] can reach: completion is printed
    only from the drain loop and only when [process_queue] is empty; in
    the drain loop a non-empty [process_queue] makes the manager sleep one
    second and test again; and once every spawned worker has taken its
    token back, [process_queue] is empty wherever the manager stands
    without a token in hand, so that in the drain loop its next step
    prints completion (from the head of the main loop with an empty
    [sim_queue], its next two steps do). *)
Theorem drain_reports_completion (n : Z) tr (m : SimulationManager) :
  reachable n tr m ->
  (forall smi ev m',
      manager_step smi m = Some (ev, m') ->
      ev = Printed "All queued simulations finished" \/ pc m' = MFinished ->
      pc m = MDrain /\ process_queue m = []
      /\ ev = Printed "All queued simulations finished" /\ m' = set_pc MFinished m)
  /\ (pc m = MDrain -> process_queue m <> [] ->
      forall smi, manager_step smi m = Some (Slept 1, m))
  /\ (all_released m ->
      (holding (pc m) = 0%nat -> (forall e, pc m <> MRaised e) ->
       process_queue m = [])
      /\ (pc m = MDrain ->
       process_queue m = []
       /\ forall smi,
            manager_step smi m
            = Some (Printed "All queued simulations finished", set_pc MFinished m))
      /\ (pc m = MLoop -> sim_queue m = [] ->
          process_queue m = []
          /\ forall smi smi',
               exec [Manager smi; Manager smi'] m
               = Some ([Tested true; Printed "All queued simulations finished"],
                       set_pc MFinished (set_pc MDrain m)))).
Proof.
  intros Hreach. split; [|split].
  - intros smi ev m' Hstep Hfin. unfold manager_step in Hstep.
    destruct m as [k sq pq gq wl c]. simpl in *.
    destruct c; invert_step Hstep; simpl in Hfin;
      destruct Hfin as [Hfin | Hfin]; try discriminate; auto.
  - intros Hpc Hne smi. unfold manager_step. rewrite Hpc.
    destruct (process_queue m); [contradiction | reflexivity].
  - intros Hrel. pose proof (tokens_inv_reachable n tr m Hreach) as Hinv.
    unfold tokens_inv in Hinv. rewrite (count_held_released _ Hrel) in Hinv.
    split; [|split].
    + intros Hhold Hnr. apply length_zero_iff_nil.
      destruct (pc m); simpl in *; try lia. destruct (Hnr e). reflexivity.
    + intros Hpc. rewrite Hpc in Hinv. simpl in Hinv.
      apply length_zero_iff_nil in Hinv. split; [exact Hinv|].
      intros smi. unfold manager_step. rewrite Hpc, Hinv. reflexivity.
    + intros Hpc Hq. rewrite Hpc in Hinv. simpl in Hinv.
      apply length_zero_iff_nil in Hinv. split; [exact Hinv|].
      intros smi smi'. simpl. unfold manager_step. rewrite Hpc, Hq. simpl.
      rewrite Hinv. reflexivity.
Qed.

(** ** Order of launches and binding of devices *)

Lemma worker_step_inv i m ev m' :
  worker_step i m = Some (ev, m') ->
  exists p p',
    worker_process_list m !! i = Some p
    /\ worker_process_list m' = <[i := p']> (worker_process_list m)
    /\ p_gpu_idx p' = p_gpu_idx p
    /\ (forall dir dev, bound_to dir dev (p_sim p) -> bound_to dir dev (p_sim p'))
    /\ enqueued [ev] = [] /\ dequeued [ev] = []
    /\ binds [ev] = [] /\ spawns [ev] = [] /\ launched [ev] = [].
Proof.
  unfold worker_step. intros H.
  destruct (worker_process_list m !! i) as [p|] eqn:Hp; [|discriminate].
  destruct (p_pc p) eqn:Hpp.
  - pose proof (preserves_get_sim_mem engine float) as Hpres.
    destruct (get_sim_mem (p_sim p)) as [[mem|e] s'] eqn:Hg;
      injection H as <- <-; eexists p, _; (split; [reflexivity|]);
      (split; [reflexivity|]); (split; [reflexivity|]);
      (split; [|repeat split]); intros dir dev Hb;
      specialize (Hpres dir dev (p_sim p) Hb); rewrite Hg in Hpres; exact Hpres.
  - destruct (full 1 (gpu_memory_queue m)); [discriminate|].
    injection H as <- <-. eexists p, _. split; [reflexivity|].
    split; [reflexivity|]. split; [reflexivity|]. split; [|repeat split].
    intros dir dev Hb. exact Hb.
  - pose proof (preserves_oxpy_run engine) as Hpres.
    destruct (oxpy_run true (p_sim p)) as [[[]|e] s'] eqn:Hg;
      injection H as <- <-; eexists p, _; (split; [reflexivity|]);
      (split; [reflexivity|]); (split; [reflexivity|]);
      (split; [|repeat split]); intros dir dev Hb;
      specialize (Hpres dir dev true (p_sim p) Hb); rewrite Hg in Hpres;
      exact Hpres.
  - destruct (process_queue m); [discriminate|].
    injection H as <- <-. eexists p, _. split; [reflexivity|].
    split; [reflexivity|]. split; [reflexivity|]. split; [|repeat split].
    intros dir dev Hb. exact Hb.
  - discriminate.
  - discriminate.
Qed.

Lemma map_job_insert (l : list process) i p p' :
  l !! i = Some p -> job p' = job p -> map job (<[i := p']> l) = map job l.
Proof.
  revert i. induction l as [|x l IH]; intros [|i] H Hj; simpl in *;
    try discriminate; try reflexivity.
  - injection H as ->. rewrite Hj. reflexivity.
  - rewrite (IH i H Hj). reflexivity.
Qed.

Lemma bind_device_ok sim (idx : nat) sim' :
  input_file [("CUDA_device", pretty idx)] sim = (Ok tt, sim') ->
  sim_dir sim' = sim_dir sim
  /\ bound_to (sim_dir sim') (Some (pretty idx)) sim'.
Proof.
  intros H. apply input_file_inv in H as (top & dat & _ & ->). simpl.
  split; [reflexivity|].
  assert (Hd : <["topology" := top]>
                 (<["conf_file" := dat]>
                    (update (input sim) [("CUDA_device", pretty idx)]))
               !! "CUDA_device" = Some (pretty idx)).
  { rewrite lookup_insert_ne by discriminate.
    rewrite lookup_insert_ne by discriminate.
    unfold update. simpl. apply lookup_insert_eq. }
  split; [reflexivity|]. split; [exact Hd|]. simpl. intros j [= <-]. exact Hd.
Qed.

Lemma projections_app tr tr' :
  enqueued (tr ++ tr') = enqueued tr ++ enqueued tr'
  /\ dequeued (tr ++ tr') = dequeued tr ++ dequeued tr'
  /\ binds (tr ++ tr') = binds tr ++ binds tr'
  /\ spawns (tr ++ tr') = spawns tr ++ spawns tr'
  /\ launched (tr ++ tr') = launched tr ++ launched tr'.
Proof.
  unfold launched, enqueued, dequeued, binds, spawns.
  rewrite !omap_app, map_app. auto.
Qed.

Lemma jobs_inv_step c m tr ev m' :
  jobs_inv tr m -> step c m = Some (ev, m') -> jobs_inv (tr ++ [ev]) m'.
Proof.
  intros (Henq & (dropped & Hdeq & Hdrop) & Hbind & Hpend & Hjobs & Hbound) Hstep.
  unfold jobs_inv.
  destruct (projections_app tr [ev]) as (-> & -> & -> & -> & ->).
  destruct c as [sim cr | smi | i].
  - apply caller_step_inv in Hstep as [(e & -> & ->) | (sim' & -> & _ & ->)];
      simpl; rewrite ?app_nil_r.
    + split; [exact Henq|]. split; [exists dropped; auto|]. auto.
    + split; [rewrite Henq, map_app, app_assoc; reflexivity|].
      split; [exists dropped; auto|]. auto.
  - simpl in Hstep. unfold manager_step in Hstep.
    destruct m as [k sq pq gq wl c]. simpl in *.
    destruct c; invert_step Hstep; simpl in *; rewrite ?app_nil_r in *;
      try (split; [exact Henq|]; split; [exists dropped; auto|];
           split; [exact Hbind|]; split; [discriminate|]; auto; fail).
    + (* sim_queue.get() *)
      subst dropped. rewrite app_nil_r in Hdeq.
      split; [rewrite Henq, <- app_assoc; reflexivity|].
      split; [eexists; split; [rewrite Hdeq; reflexivity | reflexivity]|].
      split; [exact Hbind|]. split; [discriminate|]. auto.
    + (* input_file binds the device *)
      match goal with
      | Hf : input_file _ _ = (Ok ?u, _) |- _ =>
          destruct u; apply bind_device_ok in Hf as [Hdir Hb]
      end.
      split; [exact Henq|].
      split; [exists dropped; split; [exact Hdeq | rewrite Hdir; exact Hdrop]|].
      split; [rewrite Hbind; reflexivity|].
      split; [intros ? ? ? [= <- <- <-]; exact Hb|]. auto.
    + (* spawn *)
      subst dropped.
      split; [exact Henq|].
      split; [exists []; rewrite app_nil_r; auto|].
      split; [rewrite Hbind; reflexivity|].
      split; [discriminate|].
      split; [rewrite map_app, Hjobs; reflexivity|].
      apply Forall_app. split; [exact Hbound|].
      constructor; [|constructor]. unfold bound. simpl. eapply Hpend. reflexivity.
  - simpl in Hstep.
    pose proof (worker_step_pc _ _ _ _ Hstep) as (Hpc & Hsq & _).
    apply worker_step_inv in Hstep
      as (p & p' & Hp & Hwl & Hidx & Hpres & -> & -> & -> & -> & ->).
    rewrite !app_nil_r, Hpc, Hsq, Hwl.
    assert (Hb : bound p).
    { eapply Forall_lookup_1; [exact Hbound | exact Hp]. }
    pose proof (Hpres _ _ Hb) as Hb'.
    assert (Hjob : job p' = job p).
    { unfold job. destruct Hb' as (Hd & _). rewrite Hd, Hidx. reflexivity. }
    split; [exact Henq|]. split; [exists dropped; auto|].
    split; [exact Hbind|]. split; [exact Hpend|].
    split; [rewrite (map_job_insert _ _ _ _ Hp Hjob); exact Hjobs|].
    apply Forall_insert; [exact Hbound|].
    unfold bound. injection Hjob as -> ->. exact Hb'.
Qed.

Lemma jobs_inv_reachable n tr m : reachable n tr m -> jobs_inv tr m.
Proof.
  revert tr m. apply reachable_ind.
  - unfold jobs_inv. simpl. split; [reflexivity|].
    split; [exists []; auto|]. split; [reflexivity|].
    split; [discriminate|]. split; [reflexivity | constructor].
  - intros tr m c ev m' _ Hinv Hstep. exact (jobs_inv_step c m tr ev m' Hinv Hstep).
Qed.

Lemma reachable_exec n tr m sched tr' m' :
  reachable n tr m -> exec sched m = Some (tr', m') -> reachable n (tr ++ tr') m'.
Proof.
  intros [sched0 H0] H. exists (sched0 ++ sched). rewrite exec_app, H0, H.
  reflexivity.
Qed.

(** C3. In every execution the jobs taken off [sim_queue] are the first
    jobs put on it, in the same order, and the jobs spawned are the first
    jobs taken off it, in the same order; [worker_process_list] holds the
    spawned jobs in that order. So when the [i]-th submission comes before
    the [j]-th and the [j]-th has been launched, the [i]-th has been
    launched too, as the [i]-th launch. *)
Theorem launches_fifo (n : Z) tr (m : SimulationManager) :
  reachable n tr m ->
  launched tr `prefix_of` dequeued tr
  /\ dequeued tr `prefix_of` enqueued tr
  /\ map (fun p => sim_dir (p_sim p)) (worker_process_list m) = launched tr
  /\ forall i j a b,
       (i < j)%nat ->
       enqueued tr !! i = Some a ->
       enqueued tr !! j = Some b ->
       (j < length (launched tr))%nat ->
       launched tr !! i = Some a /\ launched tr !! j = Some b
       /\ dequeued tr !! i = Some a /\ dequeued tr !! j = Some b.
Proof.
  intros Hreach.
  destruct (jobs_inv_reachable n tr m Hreach)
    as (Henq & (dropped & Hdeq & _) & _ & _ & Hjobs & _).
  assert (Hpre1 : launched tr `prefix_of` dequeued tr)
    by (exists dropped; exact Hdeq).
  assert (Hpre2 : dequeued tr `prefix_of` enqueued tr)
    by (exists (map sim_dir (sim_queue m)); exact Henq).
  split; [exact Hpre1|]. split; [exact Hpre2|]. split.
  - unfold launched. rewrite <- Hjobs, map_map. reflexivity.
  - intros i j a b Hij Ha Hb Hj.
    assert (Hlen : (length (launched tr) <= length (dequeued tr))%nat)
      by (rewrite Hdeq, length_app; lia).
    assert (Hat : forall k x, (k < length (launched tr))%nat ->
                              enqueued tr !! k = Some x ->
                              launched tr !! k = Some x /\ dequeued tr !! k = Some x).
    { intros k x Hk Hx. rewrite Henq in Hx.
      rewrite lookup_app_l in Hx by lia.
      split; [|exact Hx]. rewrite Hdeq in Hx.
      rewrite lookup_app_l in Hx by lia. exact Hx. }
    destruct (Hat i a ltac:(lia) Ha) as [? ?].
    destruct (Hat j b Hj Hb) as [? ?]. auto.
Qed.

(** ** The device of a job *)







(** A re-query in the wait loop may name another device; the process
    spawned keeps the one it got. *)
Example requery_may_change_index :
  let p := mkProcess (mkSimulation "/job" ∅ None [] None None false) 0 WProbe in
  let m := mkManager 2 [] ["Simulation worker finished"] [] [p]
             (MWhile 9000 0 5000%float) in
  manager_step (Completed 0 "memory.free [MiB]
100 MiB
20000 MiB
") m = Some (Queried 20000 1, set_pc (MSleep 20000 1 5000%float) m)
  /\ worker_process_list (set_pc (MSleep 20000 1 5000%float) m) = [p].
Proof. vm_compute. split; reflexivity. Qed.

(** ** A worker that raised *)

Lemma step_worker_list c m ev m' :
  step c m = Some (ev, m') ->
  match c with
  | Worker j =>
      event_worker ev = Some j
      /\ exists p', worker_process_list m' = <[j := p']> (worker_process_list m)
  | _ =>
      event_worker ev = None
      /\ exists l, worker_process_list m' = worker_process_list m ++ l
  end.
Proof.
  intros Hstep. destruct c as [sim cr | smi | j].
  - apply caller_step_inv in Hstep as [(e & -> & ->) | (sim' & -> & _ & ->)];
      (split; [reflexivity|]); exists []; simpl; rewrite app_nil_r; reflexivity.
  - simpl in Hstep. unfold manager_step in Hstep.
    destruct m as [k sq pq gq wl c]. simpl in *.
    destruct c; invert_step Hstep; simpl; (split; [reflexivity|]);
      try (exists []; rewrite app_nil_r; reflexivity).
    eexists. reflexivity.
  - simpl in Hstep. unfold worker_step in Hstep.
    invert_step Hstep; simpl; (split; [reflexivity|]); eexists; reflexivity.
Qed.

Lemma worker_raised_stuck i p e sched m tr m' :
  worker_process_list m !! i = Some p ->
  p_pc p = WRaised e ->
  exec sched m = Some (tr, m') ->
  worker_process_list m' !! i = Some p
  /\ Forall (fun ev => event_worker ev <> Some i) tr.
Proof.
  revert m tr. induction sched as [|c sched IH]; intros m tr Hp Hpc Hexec.
  - simpl in Hexec. injection Hexec as <- <-. split; [exact Hp | constructor].
  - apply exec_cons_inv in Hexec as (ev & m1 & tr1 & Hstep & Hrest & ->).
    pose proof (step_worker_list c m ev m1 Hstep) as Hc.
    assert (H1 : worker_process_list m1 !! i = Some p
                 /\ event_worker ev <> Some i).
    { destruct c as [sim cr | smi | j].
      - destruct Hc as (-> & l & ->). split; [|discriminate].
        apply lookup_app_l_Some. exact Hp.
      - destruct Hc as (-> & l & ->). split; [|discriminate].
        apply lookup_app_l_Some. exact Hp.
      - destruct Hc as (-> & p' & ->).
        destruct (decide (j = i)) as [-> | Hne].
        + simpl in Hstep. unfold worker_step in Hstep.
          rewrite Hp, Hpc in Hstep. discriminate.
        + split; [|congruence]. rewrite list_lookup_insert_ne by exact Hne.
          exact Hp. }
    destruct H1 as [Hp1 Hev].
    destruct (IH m1 tr1 Hp1 Hpc Hrest) as [Hfin Hall].
    split; [exact Hfin | constructor; assumption].
Qed.

(** C8. A worker whose probe ran the engine and found no [memory:] token
    in the captured stderr: [get_sim_mem] raises [ValueError] at
    [err_split.index], [worker_job] ends with that exception, having
    published nothing and released nothing, and in whatever runs
    afterwards that process stays as it ended and takes no further step:
    nothing catches the exception and nothing runs the probe again. *)
Theorem probe_fault_uncaught (m : SimulationManager) (i : nat)
    (sim : Simulation) (idx : nat) out s1 :
  worker_process_list m !! i = Some (mkProcess sim idx WProbe) ->
  probe_run sim = (Ok out, s1) ->
  "memory:" ∉ Py.split (snd out) ->
  let e := ValueError "x is not in list" in
  let m1 := set_worker i (mkProcess s1 idx (WRaised e)) m in
  get_sim_mem sim = (Err e, s1)
  /\ worker_step i m = Some (WorkerRaised i e, m1)
  /\ gpu_memory_queue m1 = gpu_memory_queue m
  /\ process_queue m1 = process_queue m
  /\ forall sched tr m',
       exec sched m1 = Some (tr, m') ->
       worker_process_list m' !! i = Some (mkProcess s1 idx (WRaised e))
       /\ Forall (fun ev => event_worker ev <> Some i) tr.
Proof.
  intros Hp Hprobe Hnin e m1.
  pose proof (probe_parse_fault engine float sim out s1 Hprobe Hnin) as Hg.
  split; [exact Hg|]. split; [|split; [reflexivity | split; [reflexivity|]]].
  - unfold worker_step. rewrite Hp. simpl. rewrite Hg. reflexivity.
  - intros sched tr m' Hexec.
    apply (worker_raised_stuck i (mkProcess s1 idx (WRaised e)) e sched m1 tr m');
      [|reflexivity | exact Hexec].
    unfold m1, set_worker. simpl. apply list_lookup_insert_eq.
    apply lookup_lt_Some in Hp. exact Hp.
Qed.

(** ** More on the mailbox, crashes and the wait *)

(** X2. [gpu_memory_queue] never holds more than one sample; it holds one
    only while the manager is at [gpu_memory_queue.get()], and that one is
    the sample of the process spawned last; and a worker that is about to
    put its sample finds the queue empty, so that its [put] never
    blocks. *)
Theorem mailbox_single_slot (n : Z) tr (m : SimulationManager) :
  reachable n tr m ->
  (length (gpu_memory_queue m) <= 1)%nat
  /\ (forall mem, gpu_memory_queue m = [mem] ->
                  receiving (pc m) /\ probed_last tr m mem)
  /\ (forall j p mem,
        worker_process_list m !! j = Some p -> p_pc p = WPublish mem ->
        worker_step j m
        = Some (Published j mem,
                set_worker j (mkProcess (p_sim p) (p_gpu_idx p) (WRun mem))
                  (set_gpu_memory_queue [mem] m))).
Proof.
  intros Hreach.
  destruct (sample_inv_reachable n tr m Hreach) as (_ & _ & Hunp & Hmail & _).
  split; [|split].
  - destruct (gpu_memory_queue m) as [|a [|b q]]; simpl;
      first [lia | contradiction].
  - intros mem Hq. rewrite Hq in Hmail. exact Hmail.
  - intros j p mem Hp Hpp.
    assert (Hu : unpublished p = true) by (unfold unpublished; rewrite Hpp; reflexivity).
    destruct (Hunp j p Hp Hu) as (_ & Hq & _).
    unfold worker_step. rewrite Hp, Hpp, Hq. reflexivity.
Qed.

Lemma stalled_step c m ev m' :
  receiving (pc m) ->
  gpu_memory_queue m = [] ->
  Forall (fun p => unpublished p = false) (worker_process_list m) ->
  step c m = Some (ev, m') ->
  manager_event ev = false
  /\ pc m' = pc m
  /\ gpu_memory_queue m' = []
  /\ Forall (fun p => unpublished p = false) (worker_process_list m').
Proof.
  intros Hr Hq Hall Hstep. destruct c as [sim cr | smi | i].
  - apply caller_step_inv in Hstep as [(e & -> & ->) | (sim' & -> & _ & ->)];
      simpl; auto.
  - simpl in Hstep. unfold manager_step in Hstep.
    destruct (pc m); try contradiction. rewrite Hq in Hstep. discriminate.
  - simpl in Hstep. unfold worker_step in Hstep.
    destruct (worker_process_list m !! i) as [p|] eqn:Hp; [|discriminate].
    pose proof (Forall_lookup_1 _ _ _ _ Hall Hp) as Hu. unfold unpublished in Hu.
    destruct (p_pc p) eqn:Hpp; try discriminate.
    + destruct (oxpy_run true (p_sim p)) as [[[]|e] s'];
        injection Hstep as <- <-; simpl;
        (split; [reflexivity|]); (split; [reflexivity|]); (split; [exact Hq|]);
        apply Forall_insert; auto.
    + destruct (process_queue m); [discriminate|].
      injection Hstep as <- <-. simpl.
      split; [reflexivity|]. split; [reflexivity|]. split; [exact Hq|].
      apply Forall_insert; auto.
Qed.

(** X3. The process spawned last has ended without putting a sample in
    [gpu_memory_queue] (its probe raised) while the manager is at
    [gpu_memory_queue.get()]: the manager never takes another step. In
    whatever runs afterwards there is no event of the manager, so no
    further job is launched and completion is never printed. *)
Theorem probe_crash_stalls_manager (n : Z) tr (m : SimulationManager)
    (front : list process) (p : process) (sched : list choice) tr' m' :
  reachable n tr m ->
  receiving (pc m) ->
  gpu_memory_queue m = [] ->
  worker_process_list m = front ++ [p] ->
  unpublished p = false ->
  exec sched m = Some (tr', m') ->
  pc m' = pc m
  /\ Forall (fun ev => manager_event ev = false) tr'
  /\ gpu_memory_queue m' = [].
Proof.
  intros Hreach Hr Hq Hwl Hp Hexec.
  assert (Hall : Forall (fun p => unpublished p = false) (worker_process_list m)).
  { destruct (sample_inv_reachable n tr m Hreach) as (_ & _ & Hunp & _).
    apply Forall_lookup_2. intros j q Hj.
    destruct (unpublished q) eqn:Hu; [|reflexivity].
    destruct (Hunp j q Hj Hu) as (_ & _ & Hlen).
    rewrite Hwl, length_app in Hlen. simpl in Hlen.
    rewrite Hwl, lookup_app_r in Hj by lia.
    replace (j - length front)%nat with 0%nat in Hj by lia.
    injection Hj as <-. congruence. }
  clear Hreach Hwl Hp. revert m tr' Hr Hq Hall Hexec.
  induction sched as [|c sched IH]; intros m tr' Hr Hq Hall Hexec.
  - simpl in Hexec. injection Hexec as <- <-. auto.
  - apply exec_cons_inv in Hexec as (ev & m1 & tr1 & Hstep & Hrest & ->).
    destruct (stalled_step c m ev m1 Hr Hq Hall Hstep) as (Hev & Hpc & Hq1 & Hall1).
    destruct (IH m1 tr1) as (Hpc' & Htr & Hq'); auto; [rewrite Hpc; exact Hr|].
    split; [congruence|]. split; [constructor; assumption | exact Hq'].
Qed.

Lemma finished_queue_empty n tr m :
  reachable n tr m -> pc m = MFinished -> process_queue m = [].
Proof.
  revert tr m.
  apply (reachable_ind n (fun _ m => pc m = MFinished -> process_queue m = []));
    [discriminate|].
  intros tr m c ev m' _ IH Hstep Hpc. destruct c as [sim cr | smi | i].
  - apply caller_step_inv in Hstep as [(e & -> & ->) | (sim' & -> & _ & ->)];
      auto.
  - simpl in Hstep. unfold manager_step in Hstep.
    destruct m as [k sq pq gq wl c]. simpl in *.
    destruct c; invert_step Hstep; simpl in *; try discriminate; reflexivity.
  - simpl in Hstep. pose proof (worker_step_pc _ _ _ _ Hstep) as (Hpc' & _).
    rewrite Hpc' in Hpc. specialize (IH Hpc).
    unfold worker_step in Hstep. invert_step Hstep; simpl; try exact IH.
    discriminate.
Qed.

Lemma raised_holds_token n tr m i p e :
  reachable n tr m ->
  worker_process_list m !! i = Some p ->
  p_pc p = WRaised e ->
  process_queue m <> [] /\ pc m <> MFinished.
Proof.
  intros Hreach Hp Hpp.
  assert (Hheld : (1 <= count_by held (worker_process_list m))%nat).
  { pose proof (count_by_insert held _ i p p Hp) as Hc.
    clear Hreach. revert i Hp Hc.
    induction (worker_process_list m) as [|x l IHl]; intros [|i] Hp Hc;
      simpl in *; try discriminate.
    - injection Hp as ->. unfold held at 1. rewrite Hpp. lia.
    - assert (1 <= count_by held l)%nat; [|lia].
      apply (IHl i Hp). pose proof (count_by_insert held l i p p Hp). lia. }
  pose proof (tokens_inv_reachable n tr m Hreach) as Hinv.
  assert (Hq : process_queue m <> []).
  { intros Hq. unfold tokens_inv in Hinv. rewrite Hq in Hinv.
    destruct (pc m); simpl in Hinv; lia. }
  split; [exact Hq|]. intros Hfin.
  apply Hq. eapply finished_queue_empty; eassumption.
Qed.

(** X4. A worker that has raised never takes its token back: from then
    on, in every state of every execution, [process_queue] is not empty,
    the manager has not finished, and completion is not printed. *)
Theorem crashed_worker_blocks_completion (n : Z) tr (m : SimulationManager)
    (i : nat) (p : process) (e : exn) (sched : list choice) tr' m' :
  reachable n tr m ->
  worker_process_list m !! i = Some p ->
  p_pc p = WRaised e ->
  exec sched m = Some (tr', m') ->
  process_queue m' <> []
  /\ pc m' <> MFinished
  /\ Forall (fun ev => ev <> Printed "All queued simulations finished") tr'.
Proof.
  intros Hreach Hp Hpp Hexec.
  assert (Hend : process_queue m' <> [] /\ pc m' <> MFinished).
  { destruct (worker_raised_stuck i p e sched m tr' m' Hp Hpp Hexec) as [Hp' _].
    eapply raised_holds_token; [|exact Hp' | exact Hpp].
    eapply reachable_exec; eassumption. }
  destruct Hend as [Hq Hfin]. split; [exact Hq|]. split; [exact Hfin|].
  clear Hq Hfin. revert tr m Hreach Hp tr' Hexec.
  induction sched as [|c sched IH]; intros tr m Hreach Hp tr' Hexec.
  - simpl in Hexec. injection Hexec as <- <-. constructor.
  - apply exec_cons_inv in Hexec as (ev & m1 & tr1 & Hstep & Hrest & ->).
    assert (Hone : exec [c] m = Some ([ev], m1)) by (simpl; rewrite Hstep; reflexivity).
    destruct (worker_raised_stuck i p e [c] m [ev] m1 Hp Hpp Hone) as [Hp1 _].
    pose proof (reachable_exec n tr m [c] [ev] m1 Hreach Hone) as Hreach1.
    constructor; [|exact (IH _ m1 Hreach1 Hp1 tr1 Hrest)].
    intros ->. destruct (raised_holds_token n tr m i p e Hreach Hp Hpp) as [Hq _].
    destruct c as [sim cr | smi | j].
    + apply caller_step_inv in Hstep as [(e0 & He & _) | (sim' & He & _)];
        discriminate.
    + simpl in Hstep. unfold manager_step in Hstep.
      destruct m as [k sq pq gq wl c]. simpl in *.
      destruct c; invert_step Hstep; try discriminate. contradiction.
    + pose proof (step_worker_list (Worker j) m _ m1 Hstep) as [Hev _].
      discriminate.
Qed.

Lemma exec_step c sched m ev m1 :
  step c m = Some (ev, m1) ->
  exec (c :: sched) m
  = match exec sched m1 with
    | None => None
    | Some (tr, m2) => Some (ev :: tr, m2)
    end.
Proof. intros H. simpl. rewrite H. reflexivity. Qed.

Lemma wait_loop_runs (mem : double) (cs : list completed) (qs : list (Z * nat))
    (c : completed) (f : Z) (i : nat) :
  Forall2 (fun c q => gpu_resources c = Ok q /\ short (fst q) mem = true) cs qs ->
  gpu_resources c = Ok (f, i) ->
  short f mem = false ->
  forall m f0 i0,
    pc m = MWhile f0 i0 mem ->
    short f0 mem = true ->
    exec (flat_map (fun c => [Manager c; Manager c]) cs
          ++ [Manager c; Manager c; Manager c]) m
    = Some (polls qs ++ [Queried f i; Slept 5; Printed "gpu memory freed"],
            set_pc MLoop m).
Proof.
  intros Hcs Hc Hf. induction Hcs as [|c1 [f1 i1] cs qs [Hc1 Hs1] _ IH];
    intros m f0 i0 Hpc Hs.
  - simpl. unfold manager_step. rewrite Hpc, Hs, Hc. simpl. rewrite Hf.
    reflexivity.
  - simpl in Hs1.
    change (flat_map (fun c => [Manager c; Manager c]) (c1 :: cs)
            ++ [Manager c; Manager c; Manager c])
      with (Manager c1 :: Manager c1
            :: (flat_map (fun c => [Manager c; Manager c]) cs
                ++ [Manager c; Manager c; Manager c])).
    assert (H1 : step (Manager c1) m
                 = Some (Queried f1 i1, set_pc (MSleep f1 i1 mem) m)).
    { simpl. unfold manager_step. rewrite Hpc, Hs, Hc1. reflexivity. }
    assert (H2 : step (Manager c1) (set_pc (MSleep f1 i1 mem) m)
                 = Some (Slept 5, set_pc (MWhile f1 i1 mem)
                                    (set_pc (MSleep f1 i1 mem) m)))
      by reflexivity.
    rewrite (exec_step _ _ _ _ _ H1), (exec_step _ _ _ _ _ H2).
    rewrite (IH (set_pc (MWhile f1 i1 mem) (set_pc (MSleep f1 i1 mem) m))
               f1 i1 eq_refl Hs1).
    reflexivity.
Qed.

(** While the device reads short of [3 * mem], the wait goes on. *)
Lemma wait_repeats (smi : completed) (f : Z) (i : nat) (mem : double) (k : nat) :
  gpu_resources smi = Ok (f, i) ->
  short f mem = true ->
  forall m,
    pc m = MWhile f i mem \/ pc m = MSleep f i mem ->
    exists tr' m',
      exec (repeat (Manager smi) k) m = Some (tr', m')
      /\ Forall (fun ev => ev = Queried f i \/ ev = Slept 5) tr'
      /\ (pc m' = MWhile f i mem \/ pc m' = MSleep f i mem)
      /\ sim_queue m' = sim_queue m
      /\ process_queue m' = process_queue m
      /\ worker_process_list m' = worker_process_list m.
Proof.
  intros Hq Hs. induction k as [|k IH]; intros m Hpc.
  - exists [], m. simpl. repeat split; auto.
  - assert (Hstep : exists ev m1,
               step (Manager smi) m = Some (ev, m1)
               /\ (ev = Queried f i \/ ev = Slept 5)
               /\ (pc m1 = MWhile f i mem \/ pc m1 = MSleep f i mem)
               /\ sim_queue m1 = sim_queue m
               /\ process_queue m1 = process_queue m
               /\ worker_process_list m1 = worker_process_list m).
    { simpl. unfold manager_step. destruct Hpc as [Hpc | Hpc]; rewrite Hpc.
      - rewrite Hs, Hq. eexists _, _. split; [reflexivity|]. simpl. auto 10.
      - eexists _, _. split; [reflexivity|]. simpl. auto 10. }
    destruct Hstep as (ev & m1 & Hstep & Hev & Hpc1 & Hsq & Hpq & Hwl).
    destruct (IH m1 Hpc1) as (tr' & m' & Hexec & Hall & Hpc' & Hsq' & Hpq' & Hwl').
    exists (ev :: tr'), m'. cbn [repeat].
    rewrite (exec_step _ _ _ _ _ Hstep), Hexec.
    split; [reflexivity|]. split; [constructor; assumption|].
    split; [exact Hpc'|]. rewrite Hsq', Hpq', Hwl'. auto.
Qed.

(** X5. The wait ends as soon as the device reads enough: from the
    comparison with [free] short of [3 * mem] by the program's test in
    [double]s, when the manager's re-queries are answered by readings
    [qs] that are all short and then by one reading [f] that is not,
    the manager alone runs through the failed
    comparison, the re-queries with their [sleep(5)], the last re-query,
    one more [sleep(5)] and the message, and is back at the head of the
    main loop, with nothing else changed. *)
Theorem wait_ends_on_headroom (mem : double) (cs : list completed)
    (qs : list (Z * nat)) (c0 c : completed) (f : Z) (i : nat)
    (m : SimulationManager) (free : Z) (idx : nat) :
  Forall2 (fun c q => gpu_resources c = Ok q /\ short (fst q) mem = true) cs qs ->
  gpu_resources c = Ok (f, i) ->
  short f mem = false ->
  pc m = MIf free idx mem ->
  short free mem = true ->
  exec (Manager c0
        :: flat_map (fun c => [Manager c; Manager c]) cs
        ++ [Manager c; Manager c; Manager c]) m
  = Some (Compared true
          :: polls qs ++ [Queried f i; Slept 5; Printed "gpu memory freed"],
          set_pc MLoop m).
Proof.
  intros Hcs Hc Hf Hpc Hs.
  assert (H0 : step (Manager c0) m
               = Some (Compared true, set_pc (MWhile free idx mem) m)).
  { simpl. unfold manager_step. rewrite Hpc, Hs. reflexivity. }
  rewrite (exec_step _ _ _ _ _ H0).
  rewrite (wait_loop_runs mem cs qs c f i Hcs Hc Hf
             (set_pc (MWhile free idx mem) m) free idx eq_refl Hs).
  reflexivity.
Qed.

End Executions.

(** * Runs with the toy engine *)






(** C1. With [n_processes = 0], which is the default on a host with two
    usable CPUs, [Queue(0)] has no bound: two jobs are launched and run at
    once, two tokens are out, and the capacity is zero. *)
Theorem zero_capacity_is_unbounded :
  exists tr m,
    exec toy_engine toy_float
      [Caller (toy_sim "/j1" "1000") false; Caller (toy_sim "/j2" "4000") false;
       Manager (smi "10000" "100"); Manager (smi "10000" "100");
       Manager (smi "10000" "100"); Manager (smi "10000" "100");
       Manager (smi "10000" "100"); Manager (smi "10000" "100");
       Worker 0; Worker 0; Manager (smi "10000" "100");
       Manager (smi "10000" "100");
       Manager (smi "10000" "100"); Manager (smi "10000" "100");
       Manager (smi "10000" "100"); Manager (smi "12000" "100");
       Manager (smi "12000" "100"); Manager (smi "12000" "100");
       Worker 1; Worker 1]
      (init 0) = Some (tr, m)
    /\ n_processes m = 0
    /\ n_processes m < Z.of_nat (length (process_queue m))
    /\ length (process_queue m) = 2%nat
    /\ count_by running (worker_process_list m) = 2%nat
    /\ launched tr = ["/j1"; "/j2"].
Proof.
  eexists _, _. split; [vm_compute; reflexivity|]. vm_compute. auto 10.
Qed.

(** With [n_processes = 1] the same schedule blocks at the second
    [process_queue.put]. *)
Example one_slot_blocks_second_put :
  exec toy_engine toy_float
    [Caller (toy_sim "/j1" "1000") false; Caller (toy_sim "/j2" "4000") false;
     Manager (smi "10000" "100"); Manager (smi "10000" "100");
     Manager (smi "10000" "100"); Manager (smi "10000" "100");
     Manager (smi "10000" "100"); Manager (smi "10000" "100");
     Worker 0; Worker 0; Manager (smi "10000" "100");
     Manager (smi "10000" "100");
     Manager (smi "10000" "100"); Manager (smi "10000" "100")]
    (init 1) = None.
Proof. vm_compute. reflexivity. Qed.

(** The headroom wait comes before the drain loop: with the queue empty,
    the one worker released and no token out, a manager that is still
    waiting for [3 * 5000] keeps re-querying and sleeping for as long as
    the device reads less. *)
Example wait_outlasts_release :
  let m := mkManager 1 [] [] []
             [mkProcess (toy_sim "/j1" "5000") 0 WExited] (MWhile 9000 0 5000) in
  all_released m
  /\ exec toy_engine toy_float
       [Manager (smi "9000" "100"); Manager (smi "9000" "100")] m
     = Some ([Queried 9000 0; Slept 5], m).
Proof. split; [repeat constructor | vm_compute; reflexivity]. Qed.

Lemma headroom_wait_witness :
  exists tr0 m,
    exec toy_engine toy_float (launch_one (toy_sim "/j1" "5000") "9000") (init 2)
    = Some (tr0, m)
    /\ (last (queries tr0) = Some (9000, 0%nat)
        /\ exists front p,
             worker_process_list m = front ++ [p]
             /\ Probed (length front) 5000 ∈ tr0)
    /\ exists qs f i rest,
         List.filter manager_event
           [Compared true; Queried 9000 0; Slept 5; Queried 15000 0; Slept 5;
            Printed "gpu memory freed"; Queued "/j2"; Tested false]
         = Compared true
             :: polls qs
             ++ Queried f i :: Slept 5 :: Printed "gpu memory freed" :: rest
         /\ Forall (fun q => short (fst q) 5000 = true) qs
         /\ short f 5000 = false.
Proof.
  eexists _, _. split; [vm_compute; reflexivity|].
  eapply (headroom_wait toy_engine toy_float 2 _ _ 9000 0 5000
            [Manager (smi "9000" "100"); Manager (smi "9000" "100");
             Manager (smi "9000" "100"); Manager (smi "15000" "100");
             Manager (smi "15000" "100"); Manager (smi "15000" "100");
             Caller (toy_sim "/j2" "500") false;
             Manager (smi "15000" "100"); Manager (smi "15000" "100")]).
  - exists (launch_one (toy_sim "/j1" "5000") "9000"). vm_compute. reflexivity.
  - reflexivity.
  - reflexivity.
  - vm_compute. reflexivity.
  - reflexivity.
  - reflexivity.
Defined.

Lemma query_failure_aborts_witness :
  let smi_failed := Completed 6 "No devices were found" in
  let m := mkManager 2 [] ["Simulation worker finished"] [] []
             (MQuery (toy_sim "/j1" "1000")) in
  let e := RuntimeError 6 "No devices were found" in
  gpu_resources smi_failed = Err e
  /\ manager_step smi_failed m = Some (ManagerRaised e, set_pc (MRaised e) m)
  /\ forall sched tr m',
       exec toy_engine toy_float sched (set_pc (MRaised e) m) = Some (tr, m') ->
       pc m' = MRaised e /\ Forall (fun ev => manager_event ev = false) tr.
Proof.
  apply (query_failure_aborts toy_engine toy_float
           (Completed 6 "No devices were found")
           (mkManager 2 [] ["Simulation worker finished"] [] []
              (MQuery (toy_sim "/j1" "1000")))).
  - discriminate.
  - left. eexists. reflexivity.
Defined.

Lemma launches_fifo_witness :
  exists tr m,
    exec toy_engine toy_float
      (Caller (toy_sim "/j2" "4000") false :: launch_one (toy_sim "/j1" "1000") "10000")
      (init 2) = Some (tr, m)
    /\ launched tr `prefix_of` dequeued tr
    /\ dequeued tr `prefix_of` enqueued tr
    /\ map (fun p => sim_dir (p_sim p)) (worker_process_list m) = launched tr
    /\ forall i j a b,
         (i < j)%nat ->
         enqueued tr !! i = Some a ->
         enqueued tr !! j = Some b ->
         (j < length (launched tr))%nat ->
         launched tr !! i = Some a /\ launched tr !! j = Some b
         /\ dequeued tr !! i = Some a /\ dequeued tr !! j = Some b.
Proof.
  eexists _, _. split; [vm_compute; reflexivity|].
  apply (launches_fifo toy_engine toy_float 2).
  exists (Caller (toy_sim "/j2" "4000") false :: launch_one (toy_sim "/j1" "1000") "10000").
  vm_compute. reflexivity.
Defined.


Lemma silent_probe_tokens :
  "memory:" ∉ Py.split "INFO: no device".
Proof.
  vm_compute. intros H.
  repeat (apply elem_of_cons in H as [H | H]; [discriminate H|]).
  apply elem_of_nil in H. exact H.
Qed.

Lemma parse_fault_leaves_temp_witness :
  exists s1,
    probe_run toy_engine (toy_sim_silent "/j1") = (Ok ("", "INFO: no device"), s1)
    /\ get_sim_mem toy_engine toy_float (toy_sim_silent "/j1")
       = (Err (ValueError "x is not in list"), s1)
    /\ input s1 !! "steps" = input (toy_sim_silent "/j1") !! "steps"
    /\ input s1 !! "lastconf_file" = input (toy_sim_silent "/j1") !! "lastconf_file"
    /\ input_json s1 = Some (input s1)
    /\ exists d l,
         toy_engine d (written (files (toy_sim_silent "/j1")))
         = (Some ("", "INFO: no device"), l)
         /\ d !! "steps" = Some "0"
         /\ d !! "lastconf_file" = Some "temp"
         /\ files s1 = written l
         /\ (exists_file "temp" l = true -> exists_file "temp" (files s1) = true).
Proof.
  eexists. split; [vm_compute; reflexivity|].
  apply (parse_fault_leaves_temp toy_engine toy_float (toy_sim_silent "/j1")
           ("", "INFO: no device")).
  - vm_compute. reflexivity.
  - exact silent_probe_tokens.
Defined.

Lemma probe_fault_uncaught_witness :
  exists s1,
    let sim := toy_sim_silent "/j1" in
    let m := mkManager 2 [] ["Simulation worker finished"] []
               [mkProcess sim 0 WProbe] (MRecv 10000 0) in
    let e := ValueError "x is not in list" in
    let m1 := set_worker 0 (mkProcess s1 0 (WRaised e)) m in
    probe_run toy_engine sim = (Ok ("", "INFO: no device"), s1)
    /\ get_sim_mem toy_engine toy_float sim = (Err e, s1)
    /\ worker_step toy_engine toy_float 0 m = Some (WorkerRaised 0 e, m1)
    /\ gpu_memory_queue m1 = gpu_memory_queue m
    /\ process_queue m1 = process_queue m
    /\ forall sched tr m',
         exec toy_engine toy_float sched m1 = Some (tr, m') ->
         worker_process_list m' !! 0%nat = Some (mkProcess s1 0 (WRaised e))
         /\ Forall (fun ev => event_worker ev <> Some 0%nat) tr.
Proof.
  eexists. intros sim m e m1. split; [vm_compute; reflexivity|].
  apply (probe_fault_uncaught toy_engine toy_float m 0 sim 0 ("", "INFO: no device")).
  - reflexivity.
  - vm_compute. reflexivity.
  - exact silent_probe_tokens.
Defined.

Lemma drain_reports_completion_witness :
  exists tr m,
    exec toy_engine toy_float run_one (init 1) = Some (tr, m)
    /\ pc m = MDrain
    /\ all_released m
    /\ (forall smi ev m',
          manager_step smi m = Some (ev, m') ->
          ev = Printed "All queued simulations finished" \/ pc m' = MFinished ->
          pc m = MDrain /\ process_queue m = []
          /\ ev = Printed "All queued simulations finished"
          /\ m' = set_pc MFinished m)
    /\ (pc m = MDrain -> process_queue m <> [] ->
        forall smi, manager_step smi m = Some (Slept 1, m))
    /\ (all_released m ->
        (holding (pc m) = 0%nat -> (forall e, pc m <> MRaised e) ->
         process_queue m = [])
        /\ (pc m = MDrain ->
         process_queue m = []
         /\ forall smi,
              manager_step smi m
              = Some (Printed "All queued simulations finished", set_pc MFinished m))
        /\ (pc m = MLoop -> sim_queue m = [] ->
            process_queue m = []
            /\ forall smi smi',
                 exec toy_engine toy_float [Manager smi; Manager smi'] m
                 = Some ([Tested true; Printed "All queued simulations finished"],
                         set_pc MFinished (set_pc MDrain m)))).
Proof.
  eexists _, _. split; [vm_compute; reflexivity|].
  split; [reflexivity|].
  split; [repeat constructor|].
  eapply (drain_reports_completion toy_engine toy_float 1).
  exists run_one. vm_compute. reflexivity.
Defined.


(** ** More runs *)

Lemma pool_bounded_witness :
  exists tr m,
    exec toy_engine toy_float run_one (init 1) = Some (tr, m)
    /\ n_processes m = 1
    /\ Z.of_nat (length (process_queue m)) <= 1
    /\ (count_by running (worker_process_list m) <= length (process_queue m))%nat.
Proof.
  eexists _, _. split; [vm_compute; reflexivity|].
  eapply (pool_bounded toy_engine toy_float 1).
  - lia.
  - exists run_one. vm_compute. reflexivity.
Defined.

Lemma mailbox_single_slot_witness :
  exists tr m,
    exec toy_engine toy_float published_one (init 2) = Some (tr, m)
    /\ gpu_memory_queue m = [5000%float]
    /\ (length (gpu_memory_queue m) <= 1)%nat
    /\ (forall mem, gpu_memory_queue m = [mem] ->
                    receiving (pc m) /\ probed_last tr m mem)
    /\ (forall j p mem,
          worker_process_list m !! j = Some p ->
          p_pc p = WPublish mem ->
          worker_step toy_engine toy_float j m
          = Some (Published j mem,
                  set_worker j (mkProcess (p_sim p) (p_gpu_idx p) (WRun mem))
                    (set_gpu_memory_queue [mem] m))).
Proof.
  eexists _, _. split; [vm_compute; reflexivity|].
  split; [reflexivity|].
  eapply (mailbox_single_slot toy_engine toy_float 2).
  exists published_one. vm_compute. reflexivity.
Defined.

Lemma probe_crash_stalls_manager_witness :
  exists tr m tr' m',
    exec toy_engine toy_float crashed_probe (init 2) = Some (tr, m)
    /\ exec toy_engine toy_float [Caller (toy_sim "/j2" "1000") false] m
       = Some (tr', m')
    /\ pc m = MRecv 10000 0
    /\ pc m' = pc m
    /\ Forall (fun ev => manager_event ev = false) tr'
    /\ gpu_memory_queue m' = [].
Proof.
  eexists _, _, _, _. split; [vm_compute; reflexivity|].
  split; [vm_compute; reflexivity|]. split; [reflexivity|].
  eapply (probe_crash_stalls_manager toy_engine toy_float 2 _ _ [] _
            [Caller (toy_sim "/j2" "1000") false]).
  - exists crashed_probe. vm_compute. reflexivity.
  - exact I.
  - reflexivity.
  - reflexivity.
  - reflexivity.
  - vm_compute. reflexivity.
Defined.

Lemma crashed_worker_blocks_completion_witness :
  exists tr m tr' m',
    exec toy_engine toy_float crashed_probe (init 2) = Some (tr, m)
    /\ exec toy_engine toy_float [Caller (toy_sim "/j2" "1000") false] m
       = Some (tr', m')
    /\ process_queue m' <> []
    /\ pc m' <> MFinished
    /\ Forall (fun ev => ev <> Printed "All queued simulations finished") tr'.
Proof.
  eexists _, _, _, _. split; [vm_compute; reflexivity|].
  split; [vm_compute; reflexivity|].
  eapply (crashed_worker_blocks_completion toy_engine toy_float 2 _ _ 0 _
            (ValueError "x is not in list")
            [Caller (toy_sim "/j2" "1000") false]).
  - exists crashed_probe. vm_compute. reflexivity.
  - reflexivity.
  - reflexivity.
  - vm_compute. reflexivity.
Defined.

Lemma wait_ends_on_headroom_witness :
  let m := mkManager 1 [] [] []
             [mkProcess (toy_sim "/j1" "5000") 0 WExited] (MIf 9000 0 5000) in
  exec toy_engine toy_float
    (Manager (smi "9000" "100")
     :: flat_map (fun c => [Manager c; Manager c]) [smi "9000" "100"]
     ++ [Manager (smi "15000" "100"); Manager (smi "15000" "100");
         Manager (smi "15000" "100")]) m
  = Some (Compared true
            :: polls [(9000, 0%nat)]
            ++ [Queried 15000 0; Slept 5; Printed "gpu memory freed"],
          set_pc MLoop m).
Proof.
  intros m.
  apply (wait_ends_on_headroom toy_engine toy_float 5000
           [smi "9000" "100"] [(9000, 0%nat)] (smi "9000" "100")
           (smi "15000" "100") 15000 0 m 9000 0).
  - repeat constructor.
  - vm_compute. reflexivity.
  - reflexivity.
  - reflexivity.
  - reflexivity.
Defined.

Lemma input_file_lookup_witness :
  exists s',
    input_file [("steps", "5"); ("topology", "other.top"); ("steps", "7")]
      (toy_sim "/j1" "5000") = (Ok tt, s')
    /\ input s' !! "steps" = Some "7"
    /\ exists top dat,
         get_last_conf_top (files (toy_sim "/j1" "5000")) = Ok (top, dat)
         /\ input s' !! "topology" = Some top
         /\ input s' !! "conf_file" = Some dat
         /\ (forall key, key <> "topology" -> key <> "conf_file" ->
                         input s' !! key
                         = match last_binding key
                                   [("steps", "5"); ("topology", "other.top");
                                    ("steps", "7")] with
                           | Some v => Some v
                           | None => input (toy_sim "/j1" "5000") !! key
                           end)
         /\ input_json s' = Some (input s')
         /\ (forall f, exists_file f (files (toy_sim "/j1" "5000")) = true ->
                       exists_file f (files s') = true)
         /\ exists_file "input.json" (files s') = true
         /\ exists_file "input" (files s') = true
         /\ sim_dir s' = sim_dir (toy_sim "/j1" "5000").
Proof.
  eexists. split; [vm_compute; reflexivity|].
  split; [vm_compute; reflexivity|].
  apply (input_file_lookup
           [("steps", "5"); ("topology", "other.top"); ("steps", "7")]
           (toy_sim "/j1" "5000")).
  vm_compute. reflexivity.
Defined.

Lemma input_file_failure_witness :
  exists s',
    input_file [("steps", "5")] (toy_sim_bare "/j0") = (Err IndexError, s')
    /\ (forall key, input s' !! key
                    = match last_binding key [("steps", "5")] with
                      | Some v => Some v
                      | None => input (toy_sim_bare "/j0") !! key
                      end)
    /\ input_json s' = input_json (toy_sim_bare "/j0")
    /\ files s' = files (toy_sim_bare "/j0")
    /\ (forall key v, last_binding key [("steps", "5")] = Some v ->
                      persisted (toy_sim_bare "/j0") key <> Some v ->
                      persisted s' key <> input s' !! key).
Proof.
  apply (input_file_failure [("steps", "5")] (toy_sim_bare "/j0") IndexError).
  vm_compute. reflexivity.
Defined.

Lemma engine_fault_keeps_override_witness :
  exists s1,
    get_sim_mem failing_engine toy_float (toy_sim "/j1" "5000")
    = (Err EngineError, s1)
    /\ input s1 !! "steps" = Some "0"
    /\ input s1 !! "lastconf_file" = Some "temp"
    /\ persisted s1 "steps" = Some "0"
    /\ persisted s1 "lastconf_file" = Some "temp"
    /\ files s1 = written (files (toy_sim "/j1" "5000"))
    /\ sim_output s1 = None.
Proof.
  apply (engine_fault_keeps_override failing_engine toy_float
           (toy_sim "/j1" "5000") "1e9" "last_conf.dat" "sys.top" "init.dat").
  - vm_compute. reflexivity.
  - vm_compute. reflexivity.
  - vm_compute. reflexivity.
  - reflexivity.
Defined.

Lemma marker_not_before :
  "memory:" ∉ ["INFO:"; "CUDA"].
Proof.
  intros H.
  repeat (apply elem_of_cons in H as [H | H]; [discriminate H|]).
  apply elem_of_nil in H. exact H.
Qed.

Lemma probe_reads_first_marker_witness :
  exists s1,
    probe_run toy_engine (toy_sim "/j1" "5000")
    = (Ok ("", "INFO: CUDA memory: 5000 MB"), s1)
    /\ let s2 := set_files (remove_file "temp" (files s1)) s1 in
       get_sim_mem toy_engine toy_float (toy_sim "/j1" "5000")
       = (toy_float "5000", s2)
       /\ exists_file "temp" (files s2) = false
       /\ input s2 !! "steps" = input (toy_sim "/j1" "5000") !! "steps"
       /\ input s2 !! "lastconf_file"
          = input (toy_sim "/j1" "5000") !! "lastconf_file"
       /\ input_json s2 = Some (input s2).
Proof.
  eexists. split; [vm_compute; reflexivity|].
  apply (probe_reads_first_marker toy_engine toy_float (toy_sim "/j1" "5000")
           ("", "INFO: CUDA memory: 5000 MB") _ ["INFO:"; "CUDA"] "5000" ["MB"]).
  - vm_compute. reflexivity.
  - vm_compute. reflexivity.
  - exact marker_not_before.
  - vm_compute. reflexivity.
Defined.

Lemma probe_late_faults_witness :
  exists s1,
    probe_run (echo_engine "INFO: CUDA memory:") (toy_sim_silent "/j1")
    = (Ok ("", "INFO: CUDA memory:"), s1)
    /\ (Py.split "INFO: CUDA memory:" = ["INFO:"; "CUDA"] ++ ["memory:"] ->
        get_sim_mem (echo_engine "INFO: CUDA memory:") toy_float
          (toy_sim_silent "/j1") = (Err IndexError, s1))
    /\ (forall tok post,
          Py.split "INFO: CUDA memory:"
          = ["INFO:"; "CUDA"] ++ "memory:" :: tok :: post ->
          exists_file "temp" (files s1) = false ->
          get_sim_mem (echo_engine "INFO: CUDA memory:") toy_float
            (toy_sim_silent "/j1") = (Err (FileNotFoundError "temp"), s1)).
Proof.
  eexists. split; [vm_compute; reflexivity|].
  apply (probe_late_faults (echo_engine "INFO: CUDA memory:") toy_float
           (toy_sim_silent "/j1") ("", "INFO: CUDA memory:") _ ["INFO:"; "CUDA"]).
  - vm_compute. reflexivity.
  - exact marker_not_before.
Defined.

Lemma csv_output_lines_witness :
  let out := csv "memory.free [MiB]" ["11019 MiB"; "24000 MiB"] "2400" in
  memory_free_info out = Ok ["11019 MiB"; "24000 MiB"]
  /\ avalible_memory (Completed 0 out) = readings ["11019 MiB"; "24000 MiB"]
  /\ gpu_resources (Completed 0 out)
     = (let? mem := readings ["11019 MiB"; "24000 MiB"] in most_free mem).
Proof.
  intros out.
  apply (csv_output_lines "memory.free [MiB]" ["11019 MiB"; "24000 MiB"] "2400").
  - vm_compute. reflexivity.
  - reflexivity.
  - repeat constructor.
  - reflexivity.
Defined.

Lemma no_device_line_witness :
  gpu_resources (Completed 0 "No devices were found")
  = Err (ValueError "max() arg is an empty sequence").
Proof.
  apply (no_device_line "No devices were found" "" "No devices were found").
  - vm_compute. reflexivity.
  - reflexivity.
  - reflexivity.
  - left. reflexivity.
Defined.

Lemma reading_first_token_witness :
  reading ("  " +:+ "11019" +:+ String " " "MiB") = Py.int "11019"
  /\ reading ("  " +:+ "11019") = Py.int "11019"
  /\ reading "  " = Err IndexError.
Proof.
  apply (reading_first_token "11019" " " "MiB" "  "); reflexivity.
Defined.

Lemma unreadable_line_aborts_witness :
  gpu_resources
    (Completed 0 (csv "memory.free [MiB]" ["11019 MiB"; "[N/A]"; "24000 MiB"] ""))
  = Err (ValueError "invalid literal for int() with base 10").
Proof.
  apply (unreadable_line_aborts _
           (csv "memory.free [MiB]" ["11019 MiB"; "[N/A]"; "24000 MiB"] "")
           ["11019 MiB"] ["24000 MiB"] "[N/A]" [11019]).
  - reflexivity.
  - vm_compute. reflexivity.
  - vm_compute. reflexivity.
  - vm_compute. reflexivity.
Defined.

Lemma toy_forces_distinct :
  distinct_seconds toy_py_eq toy_dict_values
    ([toy_force "1,2" "0.1"; toy_force "3,4" "0.1"] ++ [toy_force "5,6" "0.2"]).
Proof.
  exists [TStr "1,2"; TStr "3,4"; TStr "5,6"]. split.
  - repeat constructor.
  - intros i j a b Hij Hi Hj.
    destruct i as [|[|[|i]]]; destruct j as [|[|[|j]]];
      simpl in Hi, Hj; try discriminate; try lia;
      injection Hi as <-; injection Hj as <-; reflexivity.
Qed.

Lemma build_all_numbers_witness :
  build_all toy_py_eq toy_dict_values "force"
    ([toy_force "1,2" "0.1"; toy_force "3,4" "0.1"] ++ [toy_force "5,6" "0.2"])
    None
  = Ok (Some (numbered "force" [toy_force "1,2" "0.1"; toy_force "3,4" "0.1"]
                (toy_force "5,6" "0.2")))
  /\ Dict.values (numbered "force" [toy_force "1,2" "0.1"; toy_force "3,4" "0.1"]
                    (toy_force "5,6" "0.2"))
     = [toy_force "1,2" "0.1"; toy_force "3,4" "0.1"] ++ [toy_force "5,6" "0.2"].
Proof.
  apply (build_all_numbers toy_py_eq toy_dict_values "force").
  exact toy_forces_distinct.
Defined.

Lemma same_second_value_dropped_witness :
  build_entry toy_py_eq toy_dict_values "force"
    [("force", toy_force "1,2" "0.7")] (Some [("force", toy_force "1,2" "0.1")])
  = Ok (Some [("force", toy_force "1,2" "0.1")]).
Proof.
  apply (same_second_value_dropped toy_py_eq toy_dict_values "force" "force"
           (toy_force "1,2" "0.7") (TStr "1,2") []
           [("force", toy_force "1,2" "0.1")]).
  - repeat constructor.
  - reflexivity.
  - exists (toy_force "1,2" "0.1"), (TStr "1,2").
    split; [apply list_elem_of_here|]. split; reflexivity.
Defined.

Lemma com_force_same_com_list_witness :
  let first := com_force TStr TDict "1,2" "3,4" "0.1" "5" "1" "0" in
  let second := com_force TStr TDict "1,2" "7,8" "0.9" "6" "1" "0" in
  build_force toy_py_eq toy_dict_values first None = Ok (Some first)
  /\ build_force toy_py_eq toy_dict_values second (Some first) = Ok (Some first).
Proof.
  apply (com_force_same_com_list toy_py_eq toy_dict_values TStr TDict
           "1,2" "3,4" "0.1" "5" "1" "0" "7,8" "0.9" "6" "1" "0").
  - intros d. reflexivity.
  - intros a b. reflexivity.
Defined.

Lemma mutual_trap_breaks_next_call_witness :
  let first := mutual_trap TStr (TNum 5) (TNum 9) (TNum 1) (TNum 0) (TNum 1) in
  build_force toy_py_eq toy_dict_values first None = Ok (Some first)
  /\ build_force toy_py_eq toy_dict_values
       [("force", toy_force "1,2" "0.1")] (Some first)
     = Err (AttributeError "values").
Proof.
  apply (mutual_trap_breaks_next_call toy_py_eq toy_dict_values TStr
           (TNum 5) (TNum 9) (TNum 1) (TNum 0) (TNum 1)
           [("force", toy_force "1,2" "0.1")] (AttributeError "values")).
  reflexivity.
Defined.

(** ** Where the claims of the wait and of the drain fail *)

(** The test of the wait is made in [double]s. The job's footprint is
    the [double] nearest to five thirds, which is a little more than
    five thirds, and the device reads 5: five is less than three times
    the footprint, but the product is rounded to 5, the comparison
    fails, and the manager goes on to the next job without having asked
    the device again. *)
Lemma headroom_test_is_rounded :
  let sample : double := 0x1.aaaaaaaaaaaabp+0%float in
  let q := (7505999378950827 # 4503599627370496)%Q in
  toy_float "1.6666666666666667" = Ok sample
  /\ exact sample = Some q
  /\ (inject_Z 5 < 3 * q)%Q
  /\ short 5 sample = false
  /\ exists m,
       exec toy_engine toy_float rounding_run (init 2)
       = Some ([Queued "/j1"; Queued "/j2"; Tested false; Acquired;
                Dequeued "/j1"; Queried 5 0; Bound "/j1" 0; Spawned "/j1" 0;
                Probed 0 sample; Published 0 sample; Received sample;
                Compared false; Tested false; Acquired; Dequeued "/j2"], m).
Proof.
  intros sample q.
  split; [vm_compute; reflexivity|]. split; [vm_compute; reflexivity|].
  split; [vm_compute; reflexivity|]. split; [vm_compute; reflexivity|].
  eexists. vm_compute. reflexivity.
Qed.

(** With the queue of jobs empty, the one worker released and no token
    out, a manager that is still in the wait for headroom reports
    nothing: as long as the device reads 9000 for a footprint of 5000
    it asks and sleeps, and it has not reached the drain loop. *)
Lemma wait_withholds_completion :
  exists tr m,
    exec toy_engine toy_float waiting_run (init 1) = Some (tr, m)
    /\ sim_queue m = []
    /\ all_released m
    /\ process_queue m = []
    /\ forall k,
         exists tr' m',
           exec toy_engine toy_float (repeat (Manager (smi "9000" "100")) k) m
           = Some (tr', m')
           /\ (Printed "All queued simulations finished" ∉ tr')
           /\ pc m' <> MDrain
           /\ pc m' <> MFinished
           /\ process_queue m' = []
           /\ all_released m'.
Proof.
  eexists _, _. split; [vm_compute; reflexivity|].
  split; [reflexivity|].
  split; [repeat constructor|]. split; [reflexivity|].
  intros k.
  match goal with
  | |- exists tr' m', exec _ _ _ ?m0 = _ /\ _ =>
      destruct (wait_repeats toy_engine toy_float (smi "9000" "100") 9000 0 5000
                  k ltac:(vm_compute; reflexivity) ltac:(vm_compute; reflexivity)
                  m0 (or_introl eq_refl))
        as (tr' & m' & Hexec & Hev & Hpc & _ & Hpq & Hwl)
  end.
  exists tr', m'. split; [exact Hexec|]. split.
  - intros Hin. rewrite Forall_forall in Hev.
    destruct (Hev _ Hin) as [H | H]; discriminate.
  - split; [destruct Hpc as [-> | ->]; discriminate|].
    split; [destruct Hpc as [-> | ->]; discriminate|].
    rewrite Hpq. split; [reflexivity|].
    unfold all_released. rewrite Hwl. repeat constructor.
Qed.
